(** * MinecraftLauncher: settings, profiles, installer thread, offline patch

    A shallow embedding of [src/main.py], the properties its
    specification states about it, and further properties of the code.

    Layout of the development:
    - [Py]: the fragment of Python's data model the program relies on
      (JSON values as produced by [json.load], exceptions, the operators
      [in], [x[k]], [x.get], truthiness, [str.lower], [str.strip]);
    - [OS]: the file system as the program observes it;
    - [Eff]: the state-and-exception monad the embedded functions run in;
    - [Settings]: [load_settings] and [save_settings];
    - [Install]: the [InstallThread] worker;
    - [Qt]: the widget behaviours the program depends on;
    - [Profiles]: the profile dictionaries;
    - [Dialog]: [ProfileDialog];
    - [Window]: the [MainWindow] handlers;
    - [Offline]: [MainWindow.configure_offline_mode] and
      [MainWindow.fix_version_for_offline];
    - [Signals]: the slots of the thread's signals;
    - [Launch]: [MainWindow.start_launch];
    - [PyFacts], [SettingsFacts], [InstallFacts], [OfflineFacts],
      [WindowFacts], [InstallationFacts]: what the specification states;
    - [StoreFacts], [DialogFacts], [SelectionFacts], [SignalFacts],
      [LaunchFacts]: further properties of the settings store, the
      dialog, the handlers of the window, the installation as the window
      sees it, and the launch. *)

From Stdlib Require Import ZArith String Ascii List Bool Lia.
From Stdlib Require DecimalString.
From stdpp Require Import gmap strings list.

Import ListNotations.
#[local] Set Warnings "-register-all".
Local Open Scope string_scope.
Local Open Scope list_scope.

(* ===================================================================== *)
(** ** Python values and operators *)
(* ===================================================================== *)

Module Py.

(** What [json.load] returns.  Strings are byte strings (the UTF-8 text);
    an integer literal is a Python [int]; a literal with a fraction or an
    exponent is a [float], kept as the dyadic rational [m * 2^e] it
    denotes.  Objects keep the order of their keys, as a Python [dict]
    does. *)
Inductive json : Type :=
| JNull
| JBool (b : bool)
| JInt (z : Z)
| JFloat (m e : Z)
| JStr (s : string)
| JArr (items : list json)
| JObj (fields : list (string * json)).

(** The exception classes that occur, each a constructor.  [SystemExit]
    derives from [BaseException] only; [JSONDecodeError] derives from
    [ValueError]; the file errors derive from [OSError]. *)
Inductive exn : Type :=
| TypeError
| AttributeError
| KeyError
| IndexError
| ValueError
| OverflowError
| JSONDecodeError
| OSError
| FileNotFoundError
| FileExistsError
| PermissionError
| IsADirectoryError
| SystemExit (code : Z).

Definition is_OSError (e : exn) : bool :=
  match e with
  | OSError | FileNotFoundError | FileExistsError
  | PermissionError | IsADirectoryError => true
  | _ => false
  end.

Definition is_JSONDecodeError (e : exn) : bool :=
  match e with JSONDecodeError => true | _ => false end.

(** [except Exception] catches everything but [SystemExit]. *)
Definition is_Exception (e : exn) : bool :=
  match e with SystemExit _ => false | _ => true end.

(** The text an exception is shown by: messages built with [{e}] carry
    the class name here in place of [str(e)]. *)
Definition exn_name (e : exn) : string :=
  match e with
  | TypeError => "TypeError"
  | AttributeError => "AttributeError"
  | KeyError => "KeyError"
  | IndexError => "IndexError"
  | ValueError => "ValueError"
  | OverflowError => "OverflowError"
  | JSONDecodeError => "JSONDecodeError"
  | OSError => "OSError"
  | FileNotFoundError => "FileNotFoundError"
  | FileExistsError => "FileExistsError"
  | PermissionError => "PermissionError"
  | IsADirectoryError => "IsADirectoryError"
  | SystemExit _ => "SystemExit"
  end.

Inductive result (A : Type) : Type :=
| Ok (a : A)
| Raise (e : exn).
Arguments Ok {A} a.
Arguments Raise {A} e.

(** *** Strings *)

(** [needle in hay] on two strings. *)
Fixpoint contains (needle hay : string) : bool :=
  match hay with
  | EmptyString => String.prefix needle EmptyString
  | String _ rest => String.prefix needle hay || contains needle rest
  end.

Definition lower_ascii (c : ascii) : ascii :=
  let n := nat_of_ascii c in
  if (65 <=? n)%nat && (n <=? 90)%nat then ascii_of_nat (n + 32) else c.

(** [str.lower], on the ASCII letters. *)
Fixpoint lower (s : string) : string :=
  match s with
  | EmptyString => EmptyString
  | String c rest => String (lower_ascii c) (lower rest)
  end.

(** The ASCII characters [str.isspace] accepts. *)
Definition is_space (c : ascii) : bool :=
  let n := nat_of_ascii c in
  ((9 <=? n)%nat && (n <=? 13)%nat) || ((28 <=? n)%nat && (n <=? 32)%nat).

Fixpoint lstrip (s : string) : string :=
  match s with
  | EmptyString => EmptyString
  | String c rest => if is_space c then lstrip rest else s
  end.

(** Drops trailing white space: a character stays when something that is
    not white space follows it or it is itself not white space. *)
Fixpoint rstrip (s : string) : string :=
  match s with
  | EmptyString => EmptyString
  | String c rest =>
      match rstrip rest with
      | EmptyString => if is_space c then EmptyString else String c EmptyString
      | kept => String c kept
      end
  end.

(** [str.strip()]. *)
Definition strip (s : string) : string := rstrip (lstrip s).

Fixpoint has_nul (s : string) : bool :=
  match s with
  | EmptyString => false
  | String c rest => (nat_of_ascii c =? 0)%nat || has_nul rest
  end.

(** The characters of a string, each as a one-character string: what
    iterating over a [str] yields. *)
Fixpoint chars (s : string) : list string :=
  match s with
  | EmptyString => []
  | String c rest => String c EmptyString :: chars rest
  end.

(** *** Dictionaries *)

Definition dict := list (string * json).

Fixpoint dict_lookup (k : string) (d : dict) : option json :=
  match d with
  | [] => None
  | (k', v) :: rest => if String.eqb k k' then Some v else dict_lookup k rest
  end.

Definition dict_has (k : string) (d : dict) : bool :=
  match dict_lookup k d with Some _ => true | None => false end.

(** [d[k] = v]: the value is replaced where the key stands, a new key goes
    to the end. *)
Fixpoint dict_set (k : string) (v : json) (d : dict) : dict :=
  match d with
  | [] => [(k, v)]
  | (k', v') :: rest =>
      if String.eqb k k' then (k', v) :: rest else (k', v') :: dict_set k v rest
  end.

Definition dict_keys (d : dict) : list string := map fst d.

(** *** Operators on JSON values *)

(** [x == s] for a string [s]: only an equal string is equal to it. *)
Definition eq_str (s : string) (x : json) : bool :=
  match x with JStr t => String.eqb s t | _ => false end.

(** [key in x] for a string [key]. *)
Definition py_in (key : string) (x : json) : result bool :=
  match x with
  | JObj d => Ok (dict_has key d)
  | JArr l => Ok (existsb (eq_str key) l)
  | JStr s => Ok (contains key s)
  | _ => Raise TypeError
  end.

(** The position a list index denotes: [bool] is an [int], and a negative
    index counts from the end. *)
Definition list_index (n : nat) (k : json) : result nat :=
  let at_ (z : Z) :=
    let z' := if (z <? 0)%Z then (z + Z.of_nat n)%Z else z in
    if (0 <=? z')%Z && (z' <? Z.of_nat n)%Z then Ok (Z.to_nat z') else Raise IndexError in
  match k with
  | JInt z => at_ z
  | JBool b => at_ (if b then 1%Z else 0%Z)
  | _ => Raise TypeError
  end.

(** [x[key]] for a string [key]: a [dict] is looked up, a [list] or a
    [str] takes integer indices only, nothing else is subscriptable. *)
Definition py_getitem (x : json) (key : string) : result json :=
  match x with
  | JObj d =>
      match dict_lookup key d with Some v => Ok v | None => Raise KeyError end
  | _ => Raise TypeError
  end.

(** [x[key] = v] for a string [key]; the result is the container after
    the assignment. *)
Definition py_setitem (x : json) (key : string) (v : json) : result json :=
  match x with
  | JObj d => Ok (JObj (dict_set key v d))
  | _ => Raise TypeError
  end.

(** [l[i] = v] on a list, at a position inside it. *)
Fixpoint list_set {A : Type} (i : nat) (v : A) (l : list A) : list A :=
  match l, i with
  | [], _ => []
  | _ :: rest, O => v :: rest
  | a :: rest, S j => a :: list_set j v rest
  end.

(** [x.get(key, default)]: only a [dict] has the method. *)
Definition py_get (x : json) (key : string) (default : json) : result json :=
  match x with
  | JObj d =>
      Ok (match dict_lookup key d with Some v => v | None => default end)
  | _ => Raise AttributeError
  end.

(** [bool(x)]. *)
Definition truthy (x : json) : bool :=
  match x with
  | JNull => false
  | JBool b => b
  | JInt z => negb (z =? 0)%Z
  | JFloat m _ => negb (m =? 0)%Z
  | JStr s => negb (String.eqb s "")
  | JArr l => match l with [] => false | _ => true end
  | JObj d => match d with [] => false | _ => true end
  end.

Definition isinstance_str (x : json) : bool :=
  match x with JStr _ => true | _ => false end.

Definition isinstance_list (x : json) : bool :=
  match x with JArr _ => true | _ => false end.

End Py.

(* ===================================================================== *)
(** ** The file system *)
(* ===================================================================== *)

Module OS.
Import Py.

(** A text file either parses as JSON, to the value kept here, or does
    not.  [json.dump] followed by [json.load] gives the value back, so a
    file written by the program is kept as the value written. *)
Inductive content : Type :=
| Json (v : json)
| Malformed (raw : string).

Inductive node : Type :=
| Dir
| File (c : content).

(** The paths that exist, what the process may do with a path, the file
    descriptors it has open and its working directory. *)
Record FS : Type := mkFS {
  nodes : gmap string node;
  readable : string -> bool;
  writable : string -> bool;
  creatable : string -> bool;
  fds : list Z;
  cwd : string
}.

Definition with_nodes (fs : FS) (n : gmap string node) : FS :=
  mkFS n (readable fs) (writable fs) (creatable fs) (fds fs) (cwd fs).

(** [os.path.join] of two components, POSIX flavour. *)
Definition os_path_join (a b : string) : string :=
  if String.prefix "/" b then b
  else if String.eqb a "" then b
  else if String.eqb (String.substring (String.length a - 1) 1 a) "/" then a +:+ b
  else a +:+ "/" +:+ b.

(** [os.path.exists] on a path string: a path with a NUL byte does not
    exist. *)
Definition exists_path (fs : FS) (p : string) : bool :=
  if has_nul p then false
  else match nodes fs !! p with Some _ => true | None => false end.

Definition is_dir (fs : FS) (p : string) : bool :=
  match nodes fs !! p with Some Dir => true | _ => false end.

Definition INT_MAX : Z := 2147483647.
Definition INT_MIN : Z := -2147483648.

(** [os.path.exists] on whatever the settings hold: an [int] (or [bool])
    is a file descriptor, which must fit a C [int]; anything that is
    neither a string nor an integer is a [TypeError]. *)
Definition os_path_exists (fs : FS) (x : json) : result bool :=
  let fd (z : Z) :=
    if (INT_MIN <=? z)%Z && (z <=? INT_MAX)%Z
    then Ok (existsb (Z.eqb z) (fds fs)) else Raise OverflowError in
  match x with
  | JStr p => Ok (exists_path fs p)
  | JInt z => fd z
  | JBool b => fd (if b then 1%Z else 0%Z)
  | _ => Raise TypeError
  end.

(** [os.makedirs(p)] on a path string.  Paths are not split into
    components: the parents a real call would create are not tracked. *)
Definition makedirs_path (fs : FS) (p : string) : result FS :=
  if has_nul p then Raise ValueError
  else match nodes fs !! p with
       | Some _ => Raise FileExistsError
       | None =>
           if creatable fs p then Ok (with_nodes fs (<[p := Dir]> (nodes fs)))
           else Raise PermissionError
       end.

(** [os.makedirs] on whatever the settings hold. *)
Definition os_makedirs (fs : FS) (x : json) : result FS :=
  match x with
  | JStr p => makedirs_path fs p
  | _ => Raise TypeError
  end.

(** [open(p, 'r')] and reading the whole file; a path with a NUL byte
    is a [ValueError]. *)
Definition read_file (fs : FS) (p : string) : result content :=
  if has_nul p then Raise ValueError
  else match nodes fs !! p with
       | None => Raise FileNotFoundError
       | Some Dir => Raise IsADirectoryError
       | Some (File c) => if readable fs p then Ok c else Raise PermissionError
       end.

(** [open(p, 'w')] and writing the whole file. *)
Definition write_file (fs : FS) (p : string) (c : content) : result FS :=
  if has_nul p then Raise ValueError
  else match nodes fs !! p with
       | Some Dir => Raise IsADirectoryError
       | _ =>
           if writable fs p then Ok (with_nodes fs (<[p := File c]> (nodes fs)))
           else Raise PermissionError
       end.

(** [json.load] of what was read. *)
Definition json_load (c : content) : result json :=
  match c with
  | Json v => Ok v
  | Malformed _ => Raise JSONDecodeError
  end.

(** [shutil.copy2(src, dst)] where [dst] does not name a directory. *)
Definition shutil_copy2 (fs : FS) (src dst : string) : result FS :=
  match read_file fs src with
  | Ok c => write_file fs dst c
  | Raise e => Raise e
  end.

End OS.

(* ===================================================================== *)
(** ** Effects *)
(* ===================================================================== *)

Module Eff.
Import Py OS.

(** A modal dialog shown by [QMessageBox]. *)
Inductive box_kind : Type := Warning | Critical | Information | Question.

Record msgbox : Type := mkBox {
  box_kind_of : box_kind;
  box_title : string;
  box_text : string
}.

(** What a run can change outside the window object: the file system,
    what was printed, the dialogs shown. *)
Record World : Type := mkWorld {
  fs : FS;
  printed : list string;
  boxes : list msgbox
}.

(** A computation changes the world and returns or raises; what it did
    before raising stays done. *)
Definition M (A : Type) : Type := World -> result A * World.

Definition ret {A : Type} (a : A) : M A := fun w => (Ok a, w).

Definition raise {A : Type} (e : exn) : M A := fun w => (Raise e, w).

Definition bind {A B : Type} (m : M A) (k : A -> M B) : M B :=
  fun w =>
    match m w with
    | (Ok a, w') => k a w'
    | (Raise e, w') => (Raise e, w')
    end.

(** [try: body  except <classes> as e: handler e]. *)
Definition try_except {A : Type} (body : M A) (classes : exn -> bool)
    (handler : exn -> M A) : M A :=
  fun w =>
    match body w with
    | (Ok a, w') => (Ok a, w')
    | (Raise e, w') => if classes e then handler e w' else (Raise e, w')
    end.

(** A pure operator that may raise. *)
Definition lift {A : Type} (r : result A) : M A := fun w => (r, w).

(** An operation on the file system that returns the new file system. *)
Definition fs_update (op : FS -> result FS) : M unit :=
  fun w =>
    match op (fs w) with
    | Ok fs' => (Ok tt, mkWorld fs' (printed w) (boxes w))
    | Raise e => (Raise e, w)
    end.

(** An operation that only reads the file system. *)
Definition fs_query {A : Type} (op : FS -> result A) : M A :=
  fun w => (op (fs w), w).

Definition get_fs : M FS := fun w => (Ok (fs w), w).

Definition print (line : string) : M unit :=
  fun w => (Ok tt, mkWorld (fs w) (printed w ++ [line]) (boxes w)).

Definition message_box (k : box_kind) (title text : string) : M unit :=
  fun w => (Ok tt, mkWorld (fs w) (printed w) (boxes w ++ [mkBox k title text])).

Definition sys_exit {A : Type} (code : Z) : M A := raise (SystemExit code).

Module Notations.
  Notation "'let!' x ':=' m 'in' k" := (bind m (fun x => k))
    (at level 10, x name, m at level 100, k at level 200, only parsing).
  Notation "'run!' m 'in' k" := (bind m (fun _ => k))
    (at level 10, m at level 100, k at level 200, only parsing).
End Notations.

End Eff.

(* ===================================================================== *)
(** ** Settings management *)
(* ===================================================================== *)

Module Settings.
Import Py OS Eff Eff.Notations.

Definition SETTINGS_FILE : string := "launcher_settings.json".

(** [os.path.join(os.getcwd(), "minecraft")], evaluated when the module
    is imported; the program never changes directory. *)
Definition DEFAULT_MINECRAFT_DIR (f : FS) : string :=
  os_path_join (cwd f) "minecraft".

Definition default_settings (f : FS) : json :=
  JObj [("minecraft_directory", JStr (DEFAULT_MINECRAFT_DIR f));
        ("profiles", JArr []);
        ("last_selected_profile", JNull)].

(** [if k not in settings: settings[k] = v]. *)
Definition set_default (settings : json) (k : string) (v : json) : M json :=
  let! present := lift (py_in k settings) in
  if present then ret settings else lift (py_setitem settings k v).

(** [if 'profiles' not in settings or not isinstance(settings['profiles'], list):
        settings['profiles'] = []]. *)
Definition reset_profiles (settings : json) : M json :=
  let! present := lift (py_in "profiles" settings) in
  if negb present then lift (py_setitem settings "profiles" (JArr []))
  else
    let! p := lift (py_getitem settings "profiles") in
    if negb (isinstance_list p)
    then lift (py_setitem settings "profiles" (JArr []))
    else ret settings.

(** [if not os.path.exists(DEFAULT_MINECRAFT_DIR): try: os.makedirs(...)
     except OSError: print(...); sys.exit(1)], the last resort of both
    paths of [load_settings]. *)
Definition ensure_default_dir : M unit :=
  let! f := get_fs in
  let d := DEFAULT_MINECRAFT_DIR f in
  if negb (exists_path f d) then
    try_except (fs_update (fun f => makedirs_path f d)) is_OSError
      (fun e =>
         run! print ("Fatal: Could not create default Minecraft directory "
                     +:+ d +:+ ": " +:+ exn_name e +:+ ". Exiting.") in
         sys_exit 1)
  else ret tt.

(** The body of the [try] in [load_settings]: [Some settings] when the
    body reaches its [return], [None] when the settings file does not
    exist and control falls out of the [if]. *)
Definition load_settings_try : M (option json) :=
  let! f := get_fs in
  if exists_path f SETTINGS_FILE then
    let! c := fs_query (fun f => read_file f SETTINGS_FILE) in
    let! settings := lift (json_load c) in
    let! settings := set_default settings "minecraft_directory"
                       (JStr (DEFAULT_MINECRAFT_DIR f)) in
    let! settings := reset_profiles settings in
    let! settings := set_default settings "last_selected_profile" JNull in
    let! mc_dir := lift (py_getitem settings "minecraft_directory") in
    let! there := fs_query (fun f => os_path_exists f mc_dir) in
    let! settings :=
      (if negb there then
         try_except
           (run! fs_update (fun f => os_makedirs f mc_dir) in ret settings)
           is_OSError
           (fun e =>
              run! print ("Warning: Could not create Minecraft directory: "
                          +:+ exn_name e) in
              let! settings := lift (py_setitem settings "minecraft_directory"
                                       (JStr (DEFAULT_MINECRAFT_DIR f))) in
              run! ensure_default_dir in
              ret settings)
       else ret settings) in
    ret (Some settings)
  else ret None.

(** [load_settings()]. *)
Definition load_settings : M json :=
  let! f := get_fs in
  let! r := try_except load_settings_try
              (fun e => is_JSONDecodeError e || is_OSError e)
              (fun e =>
                 run! print ("Error loading settings: " +:+ exn_name e
                             +:+ ". Using default settings.") in
                 ret None) in
  match r with
  | Some settings => ret settings
  | None => run! ensure_default_dir in ret (default_settings f)
  end.

(** [save_settings(settings)]; the result is the settings object as the
    call leaves it.  The source resets ['profiles'] inside the [try]; that
    step raises no [OSError], so it stands before the [try] here and the
    handler sees the object as the step left it. *)
Definition save_settings (settings : json) : M json :=
  let! settings := reset_profiles settings in
  run! try_except
         (fs_update (fun f => write_file f SETTINGS_FILE (Json settings)))
         is_OSError
         (fun e => print ("Error saving settings: " +:+ exn_name e)) in
  ret settings.

(** *** What the settings file holds, as [load_settings] finds it *)






(** The directory a returned settings object names. *)
Definition directory_of (s : json) : option string :=
  match s with
  | JObj d =>
      match dict_lookup "minecraft_directory" d with
      | Some (JStr p) => Some p
      | _ => None
      end
  | _ => None
  end.

(** *** Worlds for the examples *)

(** A process in [/home/user/launcher] with the standard descriptors
    open, that may read and write every file; [creatable] says which
    directories it may create. *)
Definition example_fs (files : gmap string node) (creatable : string -> bool) : FS :=
  mkFS files (fun _ => true) (fun _ => true) creatable [0; 1; 2]%Z
       "/home/user/launcher".

Definition example_world (files : gmap string node)
    (creatable : string -> bool) : World :=
  mkWorld (example_fs files creatable) [] [].


(** The settings file holds the JSON array [[]]. *)
Definition world_array : World :=
  example_world {[ SETTINGS_FILE := File (Json (JArr [])) ]} (fun _ => true).

(** The settings file holds [{"minecraft_directory": "launcher_settings.json"}]:
    the install directory it names is the settings file itself. *)
Definition world_file_as_directory : World :=
  example_world
    {[ SETTINGS_FILE :=
         File (Json (JObj [("minecraft_directory", JStr SETTINGS_FILE)])) ]}
    (fun _ => true).


End Settings.

(* ===================================================================== *)
(** ** Facts about the Python operators *)
(* ===================================================================== *)

Module PyFacts.
Import Py.

Lemma dict_lookup_set_eq (k : string) (v : json) (d : dict) :
  dict_lookup k (dict_set k v d) = Some v.
Proof.
  induction d as [|[k' v'] d IH]; simpl.
  - now rewrite String.eqb_refl.
  - destruct (String.eqb k k') eqn:E; simpl; rewrite E; auto.
Qed.

Lemma dict_lookup_set_ne (k k' : string) (v : json) (d : dict) :
  k <> k' -> dict_lookup k' (dict_set k v d) = dict_lookup k' d.
Proof.
  intros Hne. induction d as [|[k0 v0] d IH]; simpl.
  - destruct (String.eqb k' k) eqn:E; auto.
    apply String.eqb_eq in E. congruence.
  - destruct (String.eqb k k0) eqn:E; simpl.
    + apply String.eqb_eq in E. subst k0.
      destruct (String.eqb k' k) eqn:E'; auto.
      apply String.eqb_eq in E'. congruence.
    + now rewrite IH.
Qed.

Lemma dict_has_set_eq (k : string) (v : json) (d : dict) :
  dict_has k (dict_set k v d) = true.
Proof. unfold dict_has. now rewrite dict_lookup_set_eq. Qed.


(** Assigning to a key already present keeps the keys and their order. *)
Lemma dict_keys_set_present (k : string) (v : json) (d : dict) :
  dict_has k d = true -> dict_keys (dict_set k v d) = dict_keys d.
Proof.
  unfold dict_has, dict_keys.
  induction d as [|[k' v'] d IH]; simpl; [discriminate|].
  destruct (String.eqb k k') eqn:E; simpl; auto.
  intros H. now rewrite IH.
Qed.






Lemma dict_set_same (k : string) (v : json) (d : dict) :
  dict_lookup k d = Some v -> dict_set k v d = d.
Proof.
  induction d as [|[k' v'] d IH]; simpl; [discriminate|].
  destruct (String.eqb k k') eqn:E.
  - intros [= ->]. reflexivity.
  - intros H. now rewrite IH.
Qed.

Lemma dict_set_set (k : string) (v v' : json) (d : dict) :
  dict_set k v (dict_set k v' d) = dict_set k v d.
Proof.
  induction d as [|[k0 v0] d IH]; simpl.
  - now rewrite String.eqb_refl.
  - destruct (String.eqb k k0) eqn:E; simpl; rewrite E; [reflexivity|].
    now rewrite IH.
Qed.

Lemma dict_keys_set (k : string) (v : json) (d : dict) :
  dict_lookup k d <> None -> dict_keys (dict_set k v d) = dict_keys d.
Proof.
  intros H. apply dict_keys_set_present. unfold dict_has.
  now destruct (dict_lookup k d).
Qed.

Lemma dict_lookup_in_keys (k : string) (d : dict) :
  dict_lookup k d <> None <-> In k (dict_keys d).
Proof.
  unfold dict_keys. induction d as [|[k' v'] d IH]; simpl.
  - split; [congruence | tauto].
  - destruct (String.eqb k k') eqn:E.
    + apply String.eqb_eq in E. subst. split; [auto | congruence].
    + rewrite IH. split; [auto|]. intros [H|H]; auto.
      subst. now rewrite String.eqb_refl in E.
Qed.

End PyFacts.

(* ===================================================================== *)
(** ** The settings loader: what it returns and when it does not *)
(* ===================================================================== *)

Module SettingsFacts.
Import Py OS Eff Eff.Notations Settings PyFacts.

#[local] Arguments DEFAULT_MINECRAFT_DIR : simpl never.
#[local] Arguments exists_path : simpl never.


Lemma exists_path_insert (f : FS) (p q : string) (n : node) :
  exists_path f q = true ->
  exists_path (with_nodes f (<[p := n]> (nodes f))) q = true.
Proof.
  unfold exists_path, with_nodes. simpl.
  destruct (has_nul q); [discriminate|].
  destruct (decide (p = q)) as [->|Hne].
  - now rewrite lookup_insert_eq.
  - now rewrite lookup_insert_ne.
Qed.

Lemma exists_path_insert_eq (f : FS) (p : string) (n : node) :
  has_nul p = false ->
  exists_path (with_nodes f (<[p := n]> (nodes f))) p = true.
Proof.
  intros H. unfold exists_path, with_nodes. simpl. rewrite H.
  now rewrite lookup_insert_eq.
Qed.


Lemma settings_file_exists (f : FS) :
  exists_path f SETTINGS_FILE =
  match nodes f !! SETTINGS_FILE with Some _ => true | None => false end.
Proof. reflexivity. Qed.


Lemma bind_ok {A B : Type} (m : M A) (k : A -> M B) (w w' : World) (a : A) :
  m w = (Ok a, w') -> bind m k w = k a w'.
Proof. intros H. unfold bind. now rewrite H. Qed.


Lemma try_except_ok {A : Type} (body : M A) (c : exn -> bool)
    (h : exn -> M A) (w w' : World) (a : A) :
  body w = (Ok a, w') -> try_except body c h w = (Ok a, w').
Proof. intros H. unfold try_except. now rewrite H. Qed.

Lemma try_except_caught {A : Type} (body : M A) (c : exn -> bool)
    (h : exn -> M A) (w w' : World) (e : exn) :
  body w = (Raise e, w') -> c e = true -> try_except body c h w = h e w'.
Proof. intros H Hc. unfold try_except. now rewrite H, Hc. Qed.


Lemma set_default_object (d : dict) (k : string) (v : json) (w : World) :
  set_default (JObj d) k v w
  = (Ok (JObj (if dict_has k d then d else dict_set k v d)), w).
Proof.
  unfold set_default, bind, lift, ret. simpl.
  now destruct (dict_has k d).
Qed.

Definition with_profiles_list (d : dict) : dict :=
  match dict_lookup "profiles" d with
  | Some (JArr _) => d
  | _ => dict_set "profiles" (JArr []) d
  end.

Lemma reset_profiles_object (d : dict) (w : World) :
  reset_profiles (JObj d) w = (Ok (JObj (with_profiles_list d)), w).
Proof.
  unfold reset_profiles, with_profiles_list, bind, lift, ret. simpl.
  unfold dict_has.
  destruct (dict_lookup "profiles" d) as [v|]; simpl; auto.
  destruct v; reflexivity.
Qed.

(** The object the loader goes on with once the three keys are there. *)
Definition completed (f : FS) (d : dict) : dict :=
  let d1 := if dict_has "minecraft_directory" d then d
            else dict_set "minecraft_directory" (JStr (DEFAULT_MINECRAFT_DIR f)) d in
  let d2 := with_profiles_list d1 in
  if dict_has "last_selected_profile" d2 then d2
  else dict_set "last_selected_profile" JNull d2.






(** The first half of the [try] body on an object: the three keys are
    completed, nothing else happens. *)
Lemma complete_keys (w : World) (d : dict) (k : json -> M (option json)) :
  (let! settings := set_default (JObj d) "minecraft_directory"
                      (JStr (DEFAULT_MINECRAFT_DIR (fs w))) in
   let! settings := reset_profiles settings in
   let! settings := set_default settings "last_selected_profile" JNull in
   k settings) w
  = k (JObj (completed (fs w) d)) w.
Proof.
  erewrite bind_ok by apply set_default_object.
  erewrite bind_ok by apply reset_profiles_object.
  erewrite bind_ok by apply set_default_object.
  reflexivity.
Qed.












(** C1, the code at two settings files it can be given.  On the JSON
    array [[]] the call raises [TypeError]: no record comes back and no
    default is used.  On an object that names an existing regular file as
    the install directory the record comes back with that name, although
    no directory of that name exists when the call returns. *)
Theorem load_settings_directory_defects :
  fst (load_settings world_array) = Raise TypeError
  /\ (exists s w',
        load_settings world_file_as_directory = (Ok s, w')
        /\ directory_of s = Some SETTINGS_FILE
        /\ exists_path (fs w') SETTINGS_FILE = true
        /\ is_dir (fs w') SETTINGS_FILE = false).
Proof.
  split; [reflexivity|].
  eexists _, _. split; [reflexivity|]. repeat split.
Qed.

End SettingsFacts.

(* ===================================================================== *)
(** ** The installation thread *)
(* ===================================================================== *)

Module Install.
Import Py.

(** The four signals of [InstallThread], each emission with its
    arguments. *)
Inductive signal : Type :=
| progress_update (value : Z)
| progress_max_update (value : Z)
| status_update (status : string)
| finished_signal (success : bool) (message : string).

(** What a run of the thread does that can be seen from outside it, in
    order: the call into the library, the signals emitted, the lines
    printed. *)
Inductive event : Type :=
| Called (function : string) (version_id minecraft_dir : string)
         (callback_keys : list string)
| Emitted (s : signal)
| Printed (line : string).

(** A callback of the dictionary: a bound method taking a string or an
    integer, and what it emits. *)
Inductive method : Type :=
| OfStr (emit : string -> list event)
| OfInt (emit : Z -> list event).

Record InstallThread : Type := mkThread {
  version_id : string;
  minecraft_dir : string;
  callback : list (string * method)
}.

(** [set_status], [set_progress], [set_max]. *)
Definition set_status (status : string) : list event :=
  [Emitted (status_update status)].

Definition set_progress (value : Z) : list event :=
  [Emitted (progress_update value)].

Definition set_max (value : Z) : list event :=
  [Emitted (progress_max_update value)].

(** [InstallThread.__init__]. *)
Definition init (version_id minecraft_dir : string) : InstallThread :=
  mkThread version_id minecraft_dir
    [("setStatus", OfStr set_status);
     ("setProgress", OfInt set_progress);
     ("setMax", OfInt set_max)].

Fixpoint lookup_method (key : string) (cb : list (string * method)) : option method :=
  match cb with
  | [] => None
  | (k, m) :: rest => if String.eqb key k then Some m else lookup_method key rest
  end.

(** What [minecraft_launcher_lib.install.install_minecraft_version] does,
    seen from the thread: it reports through the callbacks it was given,
    then returns or raises.  The exceptions it raises derive from
    [Exception]; [text] is what [str(e)] gives. *)
Inductive notification : Type :=
| SetStatus (status : string)
| SetProgress (value : Z)
| SetMax (value : Z).

Inductive outcome : Type :=
| Returns
| Raises (text : string).

Record library_call : Type := mkCall {
  notifications : list notification;
  result_of : outcome
}.

(** The library calling one callback of the dictionary it was handed; a
    key the dictionary lacks is not reported. *)
Definition notify (cb : list (string * method)) (n : notification) : list event :=
  match n with
  | SetStatus s =>
      match lookup_method "setStatus" cb with Some (OfStr f) => f s | _ => [] end
  | SetProgress v =>
      match lookup_method "setProgress" cb with Some (OfInt f) => f v | _ => [] end
  | SetMax v =>
      match lookup_method "setMax" cb with Some (OfInt f) => f v | _ => [] end
  end.

(** The call [install_minecraft_version(version_id, minecraft_dir,
    callback=self.callback)]: the events of the call and how it ends. *)
Definition install_minecraft_version (lib : library_call)
    (version_id minecraft_dir : string) (cb : list (string * method))
  : list event * outcome :=
  (Called "minecraft_launcher_lib.install.install_minecraft_version"
          version_id minecraft_dir (map fst cb)
   :: flat_map (notify cb) (notifications lib),
   result_of lib).

(** The [try] block of [run]: the call, then the success signal if the
    call returned. *)
Definition run_try (self : InstallThread) (lib : library_call)
  : list event * outcome :=
  let '(during, ended) :=
    install_minecraft_version lib (version_id self) (minecraft_dir self)
      (callback self) in
  match ended with
  | Returns =>
      (during ++
       [Emitted (finished_signal true
          ("Version " +:+ version_id self +:+ " installed successfully!"))],
       Returns)
  | Raises e => (during, Raises e)
  end.

(** [InstallThread.run]: the events of the run and how the run ends.
    [except Exception as e] handles whatever the [try] block raised. *)
Definition run (self : InstallThread) (lib : library_call)
  : list event * outcome :=
  let '(evs, ended) := run_try self lib in
  match ended with
  | Returns => (evs, Returns)
  | Raises e =>
      let error_message :=
        "Failed to install " +:+ version_id self +:+ ": " +:+ e in
      (evs ++ [Printed error_message;
               Emitted (finished_signal false error_message)],
       Returns)
  end.



(** A [QThread] object: the worker and how far its [run] has come.
    [isRunning()] holds from [start()] until [run] has returned. *)
Inductive phase : Type :=
| Installing
| Signalled
| Returned.

Record QThread : Type := mkQThread {
  worker : InstallThread;
  phase_of : phase
}.

Definition isRunning (t : QThread) : bool :=
  match phase_of t with
  | Installing | Signalled => true
  | Returned => false
  end.

End Install.

Module InstallFacts.
Import Py PyFacts Install.









End InstallFacts.

(* ===================================================================== *)
(** ** Widgets *)
(* ===================================================================== *)

Module Qt.

(** [QSpinBox]: the value always lies between the minimum and the
    maximum.  A new spin box has the range 0..99 and the value 0. *)
Record QSpinBox : Type := mkSpin {
  minimum : Z;
  maximum : Z;
  value : Z
}.

Definition new_spinbox : QSpinBox := mkSpin 0 99 0.

(** [qBound(lo, v, hi)]. *)
Definition bound (lo hi v : Z) : Z := Z.max lo (Z.min hi v).

(** [setRange(lo, hi)]: a maximum below the minimum is raised to it, and
    the value is brought into the range. *)
Definition setRange (lo hi : Z) (sb : QSpinBox) : QSpinBox :=
  let hi' := Z.max lo hi in
  mkSpin lo hi' (bound lo hi' (value sb)).

(** [setValue(v)], and equally what the user enters or steps to: the
    value is brought into the range. *)
Definition setValue (v : Z) (sb : QSpinBox) : QSpinBox :=
  mkSpin (minimum sb) (maximum sb) (bound (minimum sb) (maximum sb) v).

(** What the program reads and writes of a button, a label, a line edit
    or a combo box. *)
Record widget : Type := mkWidget {
  enabled : bool;
  visible : bool;
  text : string
}.

Definition new_widget : widget := mkWidget true true "".

Definition setEnabled (b : bool) (x : widget) : widget :=
  mkWidget b (visible x) (text x).

Definition setVisible (b : bool) (x : widget) : widget :=
  mkWidget (enabled x) b (text x).

Definition setText (t : string) (x : widget) : widget :=
  mkWidget (enabled x) (visible x) t.

(** [QProgressBar]: the arguments of the last [setValue] and
    [setMaximum], and whether the bar is shown.  What Qt does with a
    value outside the range is not modelled. *)
Record QProgressBar : Type := mkBar {
  bar_value : Z;
  bar_maximum : Z;
  bar_visible : bool
}.

End Qt.

(* ===================================================================== *)
(** ** Profiles *)
(* ===================================================================== *)

Module Profiles.
Import Py.

(** A profile is a Python [dict] with up to four keys; a key that is
    absent is [None] here.  Profiles whose values have other types than
    these, or that carry other keys, are outside the model, and so is the
    order of the keys. *)
Record Profile : Type := mkProfile {
  name : option string;
  version_id : option string;
  username : option string;
  memory_gb : option Z
}.

#[global] Instance profile_eq_dec : EqDecision Profile.
Proof. solve_decision. Defined.

(** [bool(p)]: a [dict] is true when it has a key. *)
Definition profile_truthy (p : Profile) : bool :=
  match name p, version_id p, username p, memory_gb p with
  | None, None, None, None => false
  | _, _, _, _ => true
  end.

(** [p.get(key, default)] on the string-valued keys. *)
Definition get_or (field : option string) (default : string) : string :=
  match field with Some s => s | None => default end.

(** [p.get('memory_gb', default)]. *)
Definition get_memory_or (p : Profile) (default : Z) : Z :=
  match memory_gb p with Some v => v | None => default end.

(** [p['username'] = text] and [p['memory_gb'] = value]. *)
Definition set_username (text : string) (p : Profile) : Profile :=
  mkProfile (name p) (version_id p) (Some text) (memory_gb p).

Definition set_memory_gb (v : Z) (p : Profile) : Profile :=
  mkProfile (name p) (version_id p) (username p) (Some v).

(** The JSON object a profile is written as. *)
Definition encode (p : Profile) : json :=
  JObj ((match name p with Some s => [("name", JStr s)] | None => [] end)
        ++ (match version_id p with Some s => [("version_id", JStr s)] | None => [] end)
        ++ (match username p with Some s => [("username", JStr s)] | None => [] end)
        ++ (match memory_gb p with Some v => [("memory_gb", JInt v)] | None => [] end)).

Definition known_key (k : string) : bool :=
  String.eqb k "name" || String.eqb k "version_id"
  || String.eqb k "username" || String.eqb k "memory_gb".

Definition decode_str (k : string) (d : dict) : option (option string) :=
  match dict_lookup k d with
  | None => Some None
  | Some (JStr s) => Some (Some s)
  | Some _ => None
  end.

Definition decode_int (k : string) (d : dict) : option (option Z) :=
  match dict_lookup k d with
  | None => Some None
  | Some (JInt v) => Some (Some v)
  | Some _ => None
  end.

(** The profile a JSON value stands for, when it is one of the model. *)
Definition decode (x : json) : option Profile :=
  match x with
  | JObj d =>
      if forallb known_key (dict_keys d) then
        match decode_str "name" d, decode_str "version_id" d,
              decode_str "username" d, decode_int "memory_gb" d with
        | Some n, Some v, Some u, Some m => Some (mkProfile n v u m)
        | _, _, _, _ => None
        end
      else None
  | _ => None
  end.

Fixpoint decode_all (xs : list json) : option (list Profile) :=
  match xs with
  | [] => Some []
  | x :: rest =>
      match decode x, decode_all rest with
      | Some p, Some ps => Some (p :: ps)
      | _, _ => None
      end
  end.

(** The lower-cased name a profile is compared by:
    [p.get('name', '').lower()]. *)
Definition folded_name (p : Profile) : string := lower (get_or (name p) "").

(** No two profiles of the list have names equal up to lower-casing. *)
Fixpoint names_unique (ps : list Profile) : bool :=
  match ps with
  | [] => true
  | p :: rest =>
      negb (existsb (String.eqb (folded_name p)) (map folded_name rest))
      && names_unique rest
  end.

(** Every memory allocation in the list is an integer from 1 to 16. *)
Definition memory_bounded (p : Profile) : bool :=
  match memory_gb p with
  | Some v => (1 <=? v)%Z && (v <=? 16)%Z
  | None => false
  end.

Definition all_memory_bounded (ps : list Profile) : bool :=
  forallb memory_bounded ps.

End Profiles.

(* ===================================================================== *)
(** ** The profile dialog *)
(* ===================================================================== *)

Module Dialog.
Import Py Eff Eff.Notations Qt Profiles.

(** The fields of the form.  [version_combo] is the current text of the
    combo box when an entry is selected ([currentIndex() >= 0]); the
    entries themselves come from the library. *)
Record ProfileDialog : Type := mkDialog {
  name_input : string;
  version_combo : option string;
  username_input : string;
  memory_spinbox : QSpinBox
}.

(** [ProfileDialog.__init__]: an empty form with the spin box ranging
    over 1..16, filled from the profile being edited if there is one.
    [selectable] says whether the version of that profile is among the
    versions the library lists. *)
Definition init (existing_profile : option Profile) (selectable : bool)
  : ProfileDialog :=
  let spin := setRange 1 16 new_spinbox in
  match existing_profile with
  | Some p =>
      if profile_truthy p then
        mkDialog (get_or (name p) "")
                 (if selectable then version_id p else None)
                 (get_or (username p) "Player")
                 (setValue (get_memory_or p 2) spin)
      else mkDialog "" None "" spin
  | None => mkDialog "" None "" spin
  end.

(** What the user does in the open dialog. *)
Inductive action : Type :=
| TypeName (s : string)
| ChooseVersion (v : string)
| TypeUsername (s : string)
| EnterMemory (v : Z)
| PressSave
| PressCancel.

(** [get_profile_data]. *)
Definition get_profile_data (d : ProfileDialog) : M (option Profile) :=
  let name := strip (name_input d) in
  let version := version_combo d in
  let username :=
    if String.eqb (strip (username_input d)) "" then "Player"
    else strip (username_input d) in
  let memory := value (memory_spinbox d) in
  if String.eqb name "" then
    run! message_box Warning "Input Error" "Profile name cannot be empty." in
    ret None
  else
    match version with
    | Some v =>
        if String.eqb v "" then
          run! message_box Warning "Input Error"
                 "Please select a Minecraft version." in
          ret None
        else ret (Some (mkProfile (Some name) (Some v) (Some username) (Some memory)))
    | None =>
        run! message_box Warning "Input Error"
               "Please select a Minecraft version." in
        ret None
    end.

(** [dialog.exec()]: the user acts until the dialog closes.  Save closes
    it only when [accept] finds the data valid; Cancel, or closing the
    window, rejects.  The result is the form as the dialog leaves it and
    whether it was accepted. *)
Fixpoint exec (d : ProfileDialog) (script : list action) : M (ProfileDialog * bool) :=
  match script with
  | [] => ret (d, false)
  | TypeName s :: rest =>
      exec (mkDialog s (version_combo d) (username_input d) (memory_spinbox d)) rest
  | ChooseVersion v :: rest =>
      exec (mkDialog (name_input d) (Some v) (username_input d) (memory_spinbox d)) rest
  | TypeUsername s :: rest =>
      exec (mkDialog (name_input d) (version_combo d) s (memory_spinbox d)) rest
  | EnterMemory v :: rest =>
      exec (mkDialog (name_input d) (version_combo d) (username_input d)
              (setValue v (memory_spinbox d))) rest
  | PressSave :: rest =>
      let! data := get_profile_data d in
      match data with
      | Some _ => ret (d, true)
      | None => exec d rest
      end
  | PressCancel :: _ => ret (d, false)
  end.

End Dialog.

(* ===================================================================== *)
(** ** The main window *)
(* ===================================================================== *)

Module Window.
Import Py OS Eff Eff.Notations Settings Qt Profiles.
Import Install(QThread, mkQThread, isRunning, Installing, Signalled, Returned).

(** The attributes of [MainWindow] the handlers read and write.

    [self.profiles] and [self.settings['profiles']] are one list object:
    [load_settings] returns an object whose ['profiles'] is a list,
    [__init__] takes that very list as [self.profiles], and nothing
    rebinds either.  The list is kept once, in [profiles]; [settings]
    holds the entries of the object, and what it holds under ['profiles']
    is not read.

    [current_selected_profile] refers to an element of that list; it is
    kept as the element's position.  Every handler that changes the list
    selects again before the reference is used.

    [widgets] holds the buttons, labels and line edits by attribute name;
    [combo_items] and [combo_index] are the entries and the current index
    of [profile_combo]; [edits_connected] says whether [textChanged] and
    [valueChanged] are connected to [update_profile_field]. *)
Record MainWindow : Type := mkWindow {
  settings : dict;
  minecraft_dir : string;
  profiles : list Profile;
  last_selected_profile_name : option string;
  current_selected_profile : option nat;
  install_thread : option nat;
  widgets : gmap string widget;
  memory_spinbox : QSpinBox;
  progress_bar : QProgressBar;
  combo_items : list string;
  combo_index : Z;
  edits_connected : bool
}.

Definition with_settings (x : dict) (self : MainWindow) : MainWindow :=
  mkWindow x (minecraft_dir self) (profiles self) (last_selected_profile_name self) (current_selected_profile self) (install_thread self) (widgets self) (memory_spinbox self) (progress_bar self) (combo_items self) (combo_index self) (edits_connected self).

Definition with_minecraft_dir (x : string) (self : MainWindow) : MainWindow :=
  mkWindow (settings self) x (profiles self) (last_selected_profile_name self) (current_selected_profile self) (install_thread self) (widgets self) (memory_spinbox self) (progress_bar self) (combo_items self) (combo_index self) (edits_connected self).

Definition with_profiles (x : list Profile) (self : MainWindow) : MainWindow :=
  mkWindow (settings self) (minecraft_dir self) x (last_selected_profile_name self) (current_selected_profile self) (install_thread self) (widgets self) (memory_spinbox self) (progress_bar self) (combo_items self) (combo_index self) (edits_connected self).

Definition with_last_selected_profile_name (x : option string) (self : MainWindow) : MainWindow :=
  mkWindow (settings self) (minecraft_dir self) (profiles self) x (current_selected_profile self) (install_thread self) (widgets self) (memory_spinbox self) (progress_bar self) (combo_items self) (combo_index self) (edits_connected self).

Definition with_current_selected_profile (x : option nat) (self : MainWindow) : MainWindow :=
  mkWindow (settings self) (minecraft_dir self) (profiles self) (last_selected_profile_name self) x (install_thread self) (widgets self) (memory_spinbox self) (progress_bar self) (combo_items self) (combo_index self) (edits_connected self).

Definition with_install_thread (x : option nat) (self : MainWindow) : MainWindow :=
  mkWindow (settings self) (minecraft_dir self) (profiles self) (last_selected_profile_name self) (current_selected_profile self) x (widgets self) (memory_spinbox self) (progress_bar self) (combo_items self) (combo_index self) (edits_connected self).

Definition with_widgets (x : gmap string widget) (self : MainWindow) : MainWindow :=
  mkWindow (settings self) (minecraft_dir self) (profiles self) (last_selected_profile_name self) (current_selected_profile self) (install_thread self) x (memory_spinbox self) (progress_bar self) (combo_items self) (combo_index self) (edits_connected self).

Definition with_memory_spinbox (x : QSpinBox) (self : MainWindow) : MainWindow :=
  mkWindow (settings self) (minecraft_dir self) (profiles self) (last_selected_profile_name self) (current_selected_profile self) (install_thread self) (widgets self) x (progress_bar self) (combo_items self) (combo_index self) (edits_connected self).

Definition with_progress_bar (x : QProgressBar) (self : MainWindow) : MainWindow :=
  mkWindow (settings self) (minecraft_dir self) (profiles self) (last_selected_profile_name self) (current_selected_profile self) (install_thread self) (widgets self) (memory_spinbox self) x (combo_items self) (combo_index self) (edits_connected self).

Definition with_combo_items (x : list string) (self : MainWindow) : MainWindow :=
  mkWindow (settings self) (minecraft_dir self) (profiles self) (last_selected_profile_name self) (current_selected_profile self) (install_thread self) (widgets self) (memory_spinbox self) (progress_bar self) x (combo_index self) (edits_connected self).

Definition with_combo_index (x : Z) (self : MainWindow) : MainWindow :=
  mkWindow (settings self) (minecraft_dir self) (profiles self) (last_selected_profile_name self) (current_selected_profile self) (install_thread self) (widgets self) (memory_spinbox self) (progress_bar self) (combo_items self) x (edits_connected self).

Definition with_edits_connected (x : bool) (self : MainWindow) : MainWindow :=
  mkWindow (settings self) (minecraft_dir self) (profiles self) (last_selected_profile_name self) (current_selected_profile self) (install_thread self) (widgets self) (memory_spinbox self) (progress_bar self) (combo_items self) (combo_index self) x.

(** *** Widgets by name *)

Definition widget_of (wname : string) (self : MainWindow) : widget :=
  match widgets self !! wname with Some x => x | None => new_widget end.

Definition set_widget (wname : string) (f : widget -> widget)
    (self : MainWindow) : MainWindow :=
  with_widgets (<[wname := f (widget_of wname self)]> (widgets self)) self.

(** *** The selection *)

(** The profile [self.current_selected_profile] refers to. *)
Definition selected_profile (self : MainWindow) : option Profile :=
  match current_selected_profile self with
  | Some i => nth_error (profiles self) i
  | None => None
  end.

(** [bool(self.current_selected_profile)]. *)
Definition has_selection (self : MainWindow) : bool :=
  match selected_profile self with
  | Some p => profile_truthy p
  | None => false
  end.

(** The object [self.settings] as Python sees it: its ['profiles'] is
    the list [self.profiles]. *)
Definition settings_object (self : MainWindow) : json :=
  JObj (dict_set "profiles" (JArr (map encode (profiles self))) (settings self)).

(** The object is put back after a call that may have changed it. *)
Definition store_settings (s : json) (self : MainWindow) : MainWindow :=
  match s with
  | JObj d => with_settings d self
  | _ => self
  end.

(** *** Field edits *)

Inductive field_value : Type :=
| Username (text : string)
| MemoryGb (value : Z).

Definition assign (fv : field_value) (p : Profile) : Profile :=
  match fv with
  | Username t => set_username t p
  | MemoryGb v => set_memory_gb v p
  end.

(** [update_profile_field(field, value)]. *)
Definition update_profile_field (fv : field_value) (self : MainWindow)
  : M MainWindow :=
  if negb (has_selection self) then ret self
  else
    match current_selected_profile self, selected_profile self with
    | Some i, Some p =>
        let self := with_profiles (list_set i (assign fv p) (profiles self)) self in
        let! s := save_settings (settings_object self) in
        ret (store_settings s self)
    | _, _ => ret self
    end.

(** The text of [username_input] changes to [t], by [setText] or by the
    user typing: [textChanged] is emitted when the text differs from the
    one shown, and runs the slot connected to it. *)
Definition username_changed (t : string) (self : MainWindow) : M MainWindow :=
  let old := text (widget_of "username_input" self) in
  let self := set_widget "username_input" (setText t) self in
  if negb (String.eqb old t) && edits_connected self
  then update_profile_field (Username t) self
  else ret self.

(** The value of [memory_spinbox] is set to [v], by [setValue] or by the
    user: the spin box keeps it in its range, and [valueChanged] is
    emitted when the value shown changes. *)
Definition memory_changed (v : Z) (self : MainWindow) : M MainWindow :=
  let old := value (memory_spinbox self) in
  let spin := setValue v (memory_spinbox self) in
  let self := with_memory_spinbox spin self in
  if negb (old =? value spin)%Z && edits_connected self
  then update_profile_field (MemoryGb (value spin)) self
  else ret self.

(** *** Selecting a profile *)

(** [profile_combo.currentText()]. *)
Definition currentText (self : MainWindow) : string :=
  if (0 <=? combo_index self)%Z then
    match nth_error (combo_items self) (Z.to_nat (combo_index self)) with
    | Some t => t
    | None => ""
    end
  else "".

(** The position of the first profile with [p.get('name') == wanted]. *)
Fixpoint find_by_name (wanted : string) (ps : list Profile) : option nat :=
  match ps with
  | [] => None
  | p :: rest =>
      match name p with
      | Some n =>
          if String.eqb n wanted then Some O
          else option_map S (find_by_name wanted rest)
      | None => option_map S (find_by_name wanted rest)
      end
  end.

Definition version_file_path (self : MainWindow) (version_id : string) : string :=
  os_path_join
    (os_path_join (os_path_join (minecraft_dir self) "versions") version_id)
    (version_id +:+ ".json").

Definition disable_profile_buttons (self : MainWindow) : MainWindow :=
  set_widget "delete_profile_button" (setEnabled false)
    (set_widget "edit_profile_button" (setEnabled false)
       (set_widget "fix_version_button" (setEnabled false) self)).

Definition enable_profile_buttons (self : MainWindow) : MainWindow :=
  set_widget "delete_profile_button" (setEnabled true)
    (set_widget "edit_profile_button" (setEnabled true)
       (set_widget "fix_version_button" (setEnabled true) self)).

(** [on_profile_selected(index)].  All attributes exist once [__init__]
    reaches its first call, so the [hasattr] tests hold. *)
Definition on_profile_selected (index : Z) (self : MainWindow) : M MainWindow :=
  if (index =? -1)%Z then
    let self := with_current_selected_profile None self in
    let! self := username_changed "" self in
    let self := set_widget "username_input" (setEnabled false) self in
    let! self := memory_changed 2 self in
    let self := set_widget "memory_spinbox" (setEnabled false) self in
    let self := set_widget "action_button"
                  (fun b => setEnabled false (setText "Select or create a profile" b))
                  self in
    ret (disable_profile_buttons self)
  else
    let profile_name := currentText self in
    match find_by_name profile_name (profiles self) with
    | None =>
        run! print ("Error: Profile '" +:+ profile_name
                    +:+ "' not found in profiles list") in
        let self := with_current_selected_profile None self in
        let self := set_widget "action_button" (setEnabled false) self in
        ret (disable_profile_buttons self)
    | Some i =>
        let found_profile :=
          match nth_error (profiles self) i with
          | Some p => p
          | None => mkProfile None None None None
          end in
        let self := with_current_selected_profile (Some i) self in
        let! self := username_changed (get_or (username found_profile) "Player") self in
        let self := set_widget "username_input" (setEnabled true) self in
        let! self := memory_changed (get_memory_or found_profile 2) self in
        let self := set_widget "memory_spinbox" (setEnabled true) self in
        let self := enable_profile_buttons self in
        let self := with_edits_connected true self in
        match version_id found_profile with
        | Some version_id =>
            if String.eqb version_id "" then
              ret (set_widget "status_label"
                     (fun l => setVisible true
                        (setText "Profile has no Minecraft version selected." l))
                     (set_widget "action_button"
                        (fun b => setEnabled false
                           (setText "Select version in Edit Profile" b)) self))
            else
              let! f := get_fs in
              if exists_path f (version_file_path self version_id) then
                ret (set_widget "status_label" (setVisible false)
                       (set_widget "action_button"
                          (fun b => setEnabled true
                             (setText ("Launch " +:+ profile_name) b)) self))
              else
                ret (set_widget "status_label"
                       (fun l => setVisible true
                          (setText ("Version " +:+ version_id
                                    +:+ " needs to be installed first.") l))
                       (set_widget "action_button"
                          (fun b => setEnabled true
                             (setText ("Install " +:+ version_id) b)) self))
        | None =>
            ret (set_widget "status_label"
                   (fun l => setVisible true
                      (setText "Profile has no Minecraft version selected." l))
                   (set_widget "action_button"
                      (fun b => setEnabled false
                         (setText "Select version in Edit Profile" b)) self))
        end
    end.

(** [update_profile_list()]: the combo box is refilled with its signals
    blocked, the last selected profile (else the first) is made current,
    and the selection handler is called. *)
Definition update_profile_list (self : MainWindow) : M MainWindow :=
  let self :=
    with_combo_items (map (fun p => get_or (name p) "Unknown") (profiles self)) self in
  match profiles self with
  | [] =>
      let self := with_combo_index (-1)%Z self in
      on_profile_selected (-1)%Z self
  | _ :: _ =>
      let index_to_select :=
        match last_selected_profile_name self with
        | Some last =>
            if String.eqb last "" then O
            else match find_by_name last (profiles self) with
                 | Some i => i
                 | None => O
                 end
        | None => O
        end in
      let self := with_combo_index (Z.of_nat index_to_select) self in
      on_profile_selected (combo_index self) self
  end.

(** *** Adding, editing, deleting *)

(** [value in [p.get('name', '').lower() for p in ps]]. *)
Definition name_taken (folded : string) (ps : list Profile) : bool :=
  existsb (String.eqb folded) (map folded_name ps).

(** The list without the element at position [i]: the comprehension
    [[... for p in self.profiles if p is not profile_to_edit]]. *)
Fixpoint others {A : Type} (i : nat) (l : list A) : list A :=
  match l, i with
  | [], _ => []
  | _ :: rest, O => rest
  | a :: rest, S j => a :: others j rest
  end.

(** [l.remove(x)]: the first element equal to [x] goes; [ValueError] if
    there is none. *)
Fixpoint list_remove (x : Profile) (l : list Profile) : result (list Profile) :=
  match l with
  | [] => Raise ValueError
  | y :: rest =>
      if decide (y = x) then Ok rest
      else match list_remove x rest with
           | Ok rest' => Ok (y :: rest')
           | Raise e => Raise e
           end
  end.

(** [add_profile()]; [script] is what the user does in the dialog. *)
Definition add_profile (script : list Dialog.action) (self : MainWindow)
  : M MainWindow :=
  let! r := Dialog.exec (Dialog.init None false) script in
  let '(dialog, accepted) := r in
  if accepted then
    let! new_data := Dialog.get_profile_data dialog in
    match new_data with
    | Some new_data =>
        let new_name := get_or (name new_data) "" in
        if name_taken (lower new_name) (profiles self) then
          run! message_box Warning "Error"
                 ("A profile named '" +:+ new_name +:+ "' already exists.") in
          ret self
        else
          let self := with_profiles (profiles self ++ [new_data]) self in
          let self := with_last_selected_profile_name (Some new_name) self in
          update_profile_list self
    | None => ret self
    end
  else ret self.

(** [edit_profile()]; [selectable] says whether the library lists the
    version of the profile, [script] is what the user does in the
    dialog. *)
Definition edit_profile (selectable : bool) (script : list Dialog.action)
    (self : MainWindow) : M MainWindow :=
  if negb (has_selection self) then ret self
  else
    match current_selected_profile self, selected_profile self with
    | Some i, Some profile_to_edit =>
        let profile_original_name := name profile_to_edit in
        let! r := Dialog.exec (Dialog.init (Some profile_to_edit) selectable) script in
        let '(dialog, accepted) := r in
        if accepted then
          let! updated_data := Dialog.get_profile_data dialog in
          match updated_data with
          | Some updated_data =>
              let new_name := get_or (name updated_data) "" in
              match profile_original_name with
              | None => raise AttributeError
              | Some original =>
                  if negb (String.eqb (lower new_name) (lower original))
                     && name_taken (lower new_name) (others i (profiles self))
                  then
                    run! message_box Warning "Error"
                           ("Another profile named '" +:+ new_name
                            +:+ "' already exists.") in
                    ret self
                  else
                    let self :=
                      with_profiles (list_set i updated_data (profiles self)) self in
                    let self :=
                      with_last_selected_profile_name (Some new_name) self in
                    update_profile_list self
              end
          | None => ret self
          end
        else ret self
    | _, _ => ret self
    end.

(** [delete_profile()]; [confirmed] is the answer to the question. *)
Definition delete_profile (confirmed : bool) (self : MainWindow) : M MainWindow :=
  if negb (has_selection self) then ret self
  else
    match selected_profile self with
    | Some current =>
        run! message_box Question "Delete Profile"
               ("Are you sure you want to delete the profile '"
                +:+ get_or (name current) "None" +:+ "'?") in
        if confirmed then
          run! print ("Deleting profile: " +:+ get_or (name current) "None") in
          let! remaining := lift (list_remove current (profiles self)) in
          let self := with_profiles remaining self in
          let self := with_current_selected_profile None self in
          let self := with_last_selected_profile_name None self in
          let! self := update_profile_list self in
          on_profile_selected (combo_index self) self
        else ret self
    | None => ret self
    end.

(** [closeEvent(event)]: the window after the handler, and whether the
    event was accepted. *)
Definition closeEvent (self : MainWindow) : M (MainWindow * bool) :=
  let last :=
    if has_selection self then
      match selected_profile self with
      | Some p => match name p with Some n => JStr n | None => JNull end
      | None => JNull
      end
    else JNull in
  let! s := lift (py_setitem (settings_object self) "last_selected_profile" last) in
  let! s := lift (py_setitem s "profiles" (JArr (map encode (profiles self)))) in
  let! s := save_settings s in
  ret (store_settings s self, true).

(** *** Installation *)

(** The window together with the thread objects created so far;
    [install_thread] refers into the list. *)
Definition session : Type := MainWindow * list QThread.

(** What a call of [QApplication.processEvents()] runs: the handlers of
    the events pending at that moment. *)
Definition pending : Type := session -> M session.

(** No event is pending. *)
Definition quiet : pending := fun s => ret s.

(** [start_installation_for_profile(profile)]; [process_events] is what
    the call of [QApplication.processEvents()] in its middle runs. *)
Definition start_installation_for_profile (process_events : pending)
    (profile : Profile) (pool : list QThread) (self : MainWindow)
  : M session :=
  let busy :=
    match install_thread self with
    | Some t =>
        match nth_error pool t with
        | Some th => isRunning th
        | None => false
        end
    | None => false
    end in
  if busy then
    run! message_box Warning "Busy" "Another installation is already in progress." in
    ret (self, pool)
  else
    let profile_name := get_or (name profile) "Unknown" in
    match version_id profile with
    | Some version_id =>
        if String.eqb version_id "" then
          run! message_box Critical "Error"
                 ("Profile '" +:+ profile_name +:+ "' has no version selected!") in
          ret (self, pool)
        else
          run! print ("Starting installation for " +:+ version_id +:+ "...") in
          let self := set_widget "action_button"
                        (fun b => setText ("Installing " +:+ version_id +:+ "...")
                                    (setEnabled false b)) self in
          let self := set_widget "profile_combo" (setEnabled false) self in
          let self := set_widget "add_profile_button" (setEnabled false) self in
          let self := set_widget "edit_profile_button" (setEnabled false) self in
          let self := set_widget "delete_profile_button" (setEnabled false) self in
          let self := with_progress_bar (mkBar 0 0 true) self in
          let self := set_widget "status_label"
                        (fun l => setVisible true
                           (setText ("Preparing to install " +:+ version_id +:+ "...") l))
                        self in
          let! s := process_events (self, pool) in
          let '(self, pool) := s in
          let thread :=
            mkQThread (Install.init version_id (minecraft_dir self)) Installing in
          let self := with_install_thread (Some (length pool)) self in
          ret (self, pool ++ [thread])
    | None =>
        run! message_box Critical "Error"
               ("Profile '" +:+ profile_name +:+ "' has no version selected!") in
        ret (self, pool)
    end.




(** [on_install_finished(success, message)]. *)
Definition on_install_finished (success : bool) (message : string)
    (self : MainWindow) : M MainWindow :=
  let self :=
    with_progress_bar
      (mkBar (bar_value (progress_bar self)) (bar_maximum (progress_bar self)) false)
      self in
  let self := set_widget "status_label"
                (fun l => setVisible true (setText message l)) self in
  let self := set_widget "action_button" (setEnabled true) self in
  let self := set_widget "profile_combo" (setEnabled true) self in
  let self := set_widget "add_profile_button" (setEnabled true) self in
  let chosen :=
    match current_selected_profile self with Some _ => true | None => false end in
  let self := set_widget "edit_profile_button" (setEnabled chosen) self in
  let self := set_widget "delete_profile_button" (setEnabled chosen) self in
  let self := with_install_thread None self in
  if success then
    run! message_box Information "Installation Complete" message in
    ret self
  else
    run! message_box Critical "Installation Failed" message in
    if has_selection self then
      ret (set_widget "action_button"
             (setText ("Launch " +:+
                       match selected_profile self with
                       | Some p => get_or (name p) "None"
                       | None => "None"
                       end)) self)
    else ret (set_widget "action_button" (setText "Select or create a profile") self).

(** *** Construction *)

Definition initial_widgets : gmap string widget :=
  list_to_map
    [("username_input", mkWidget false true "");
     ("memory_spinbox", mkWidget false true "");
     ("fix_version_button",
        mkWidget false true "Fix Selected Profile for Offline Play");
     ("profile_combo", mkWidget true true "");
     ("add_profile_button", mkWidget true true "Add");
     ("edit_profile_button", mkWidget false true "Edit");
     ("delete_profile_button", mkWidget false true "Delete");
     ("status_label", mkWidget true false "");
     ("action_button", mkWidget false true "Select or create a profile")].

(** What [__init__] reads off the loaded settings, where they are of the
    model: a directory that is a string, profiles of the model, a last
    selection that is a string or [None]. *)
Definition read_settings (s : json)
  : option (string * list Profile * option string) :=
  match s with
  | JObj d =>
      match dict_lookup "minecraft_directory" d,
            dict_lookup "profiles" d,
            dict_lookup "last_selected_profile" d with
      | Some (JStr dir), Some (JArr ps), Some last =>
          match decode_all ps, last with
          | Some profiles, JNull => Some (dir, profiles, None)
          | Some profiles, JStr n => Some (dir, profiles, Some n)
          | _, _ => None
          end
      | _, _, _ => None
      end
  | _ => None
  end.

(** [MainWindow.__init__]: [None] where the loaded settings are not of
    the model. *)
Definition init : M (option MainWindow) :=
  let! s := load_settings in
  match read_settings s with
  | Some (dir, ps, last) =>
      let self :=
        mkWindow (match s with JObj d => d | _ => [] end) dir ps last None None
          initial_widgets
          (setRange 1 16 new_spinbox) (mkBar (-1) 100 false) [] (-1)%Z false in
      let! self := update_profile_list self in
      ret (Some self)
  | None => ret None
  end.

(** *** What the user does *)

Inductive event : Type :=
| Add (script : list Dialog.action)
| Edit (selectable : bool) (script : list Dialog.action)
| Delete (confirmed : bool)
| Select (index : nat)
| TypeUsername (text : string)
| SetMemory (v : Z)
| Close.

(** The handler an event runs.  A widget that is disabled takes no
    input; the combo box offers the entries it has. *)
Definition handle (ev : event) (self : MainWindow) : M MainWindow :=
  match ev with
  | Add script =>
      if enabled (widget_of "add_profile_button" self)
      then add_profile script self else ret self
  | Edit selectable script =>
      if enabled (widget_of "edit_profile_button" self)
      then edit_profile selectable script self else ret self
  | Delete confirmed =>
      if enabled (widget_of "delete_profile_button" self)
      then delete_profile confirmed self else ret self
  | Select index =>
      if enabled (widget_of "profile_combo" self)
         && (index <? length (combo_items self))%nat
         && negb (Z.of_nat index =? combo_index self)%Z
      then on_profile_selected (Z.of_nat index)
             (with_combo_index (Z.of_nat index) self)
      else ret self
  | TypeUsername t =>
      if enabled (widget_of "username_input" self)
      then username_changed t self else ret self
  | SetMemory v =>
      if enabled (widget_of "memory_spinbox" self)
      then memory_changed v self else ret self
  | Close =>
      let! r := closeEvent self in ret (fst r)
  end.

(** An event handled by the event loop: a handler that raises has its
    traceback printed and the loop goes on.  The handlers raise, if at
    all, before they change the window. *)
Definition dispatch (ev : event) (self : MainWindow) (w : World)
  : MainWindow * World :=
  match handle ev self w with
  | (Ok self', w') => (self', w')
  | (Raise e, w') =>
      (self, mkWorld (fs w') (printed w' ++ ["Traceback: " +:+ exn_name e]) (boxes w'))
  end.

(** The states the window can be brought to from a given one. *)
Inductive reaches (self0 : MainWindow) (w0 : World)
  : MainWindow -> World -> Prop :=
| reaches_start : reaches self0 w0 self0 w0
| reaches_event (ev : event) (self : MainWindow) (w : World) :
    reaches self0 w0 self w ->
    reaches self0 w0 (fst (dispatch ev self w)) (snd (dispatch ev self w)).

(** *** Worlds for the examples *)

Definition stored_profile (n : string) (memory : Z) : json :=
  JObj [("name", JStr n); ("version_id", JStr "1.20.1");
        ("username", JStr "Player"); ("memory_gb", JInt memory)].

Definition stored_settings (ps : list json) : json :=
  JObj [("minecraft_directory", JStr "/home/user/launcher/minecraft");
        ("profiles", JArr ps);
        ("last_selected_profile", JNull)].

(** The install directory exists and the settings file holds the given
    profiles; [may_write] says whether the settings file can be written. *)
Definition world_with_profiles (ps : list json) (may_write : bool) : World :=
  mkWorld
    (mkFS {[ SETTINGS_FILE := File (Json (stored_settings ps));
             "/home/user/launcher/minecraft" := Dir ]}
          (fun _ => true)
          (fun p => if String.eqb p SETTINGS_FILE then may_write else true)
          (fun _ => true) [0; 1; 2]%Z "/home/user/launcher")
    [] [].

Definition world_one_profile : World :=
  world_with_profiles [stored_profile "Steve" 2] true.




(** The window [__init__] builds in a world, and the world it leaves. *)
Definition started (w : World) : option (MainWindow * World) :=
  match init w with
  | (Ok (Some self), w') => Some (self, w')
  | _ => None
  end.

End Window.

(* ===================================================================== *)
(** ** The offline-mode patch *)
(* ===================================================================== *)

Module Offline.
Import Py OS Eff Eff.Notations Qt Window.
Import Install(QThread).

Definition LOOPBACK : string := "http://127.0.0.1:8080".

Definition SKIP_WARNING : string := "--skipMultiplayerWarning".

(** ['mojang' in s or 'minecraft' in s]. *)
Definition names_auth_host (s : string) : bool :=
  contains "mojang" s || contains "minecraft" s.

(** The pure steps run in the exception monad of results. *)
Definition bindr {A B : Type} (r : result A) (k : A -> result B) : result B :=
  match r with
  | Ok a => k a
  | Raise e => Raise e
  end.

Notation "'try!' x ':=' r 'in' k" := (bindr r (fun x => k))
  (at level 10, x name, r at level 100, k at level 200, only parsing).

(** [x.append(v)]: only a list has the method. *)
Definition py_append (x v : json) : result json :=
  match x with
  | JArr l => Ok (JArr (l ++ [v]))
  | _ => Raise AttributeError
  end.

(** The first block: [--skipMultiplayerWarning] is appended to
    [version_data['arguments']['game']] unless it is there.  The list is
    changed in place; here the changed list is put back where it was
    taken from. *)
Definition add_offline_args (version_data : json) : result json :=
  try! has_arguments := py_in "arguments" version_data in
  if has_arguments then
    try! arguments := py_getitem version_data "arguments" in
    try! has_game := py_in "game" arguments in
    if has_game then
      try! game_args := py_getitem arguments "game" in
      try! present := py_in SKIP_WARNING game_args in
      if negb present then
        try! game_args := py_append game_args (JStr SKIP_WARNING) in
        try! arguments := py_setitem arguments "game" game_args in
        py_setitem version_data "arguments" arguments
      else Ok version_data
    else Ok version_data
  else Ok version_data.

(** What one pass of the loop does to the value under a key. *)
Definition redirect (v : json) : json :=
  match v with
  | JStr s => if names_auth_host s then JStr LOOPBACK else v
  | _ => v
  end.

(** The loop over a [dict]: its keys, in order; a value that is a string
    naming an authentication host is replaced. *)
Definition redirect_dict (d : dict) : dict :=
  fold_left
    (fun d key =>
       match dict_lookup key d with
       | Some (JStr s) =>
           if names_auth_host s then dict_set key (JStr LOOPBACK) d else d
       | _ => d
       end)
    (dict_keys d) d.

(** The loop over a [list]: the iteration yields the element at each
    position as it is then, and uses it as an index into the list. *)
Fixpoint redirect_list (todo i : nat) (l : list json) : result (list json) :=
  match todo with
  | O => Ok l
  | S todo' =>
      match nth_error l i with
      | None => Ok l
      | Some key =>
          try! j := list_index (length l) key in
          match nth_error l j with
          | Some (JStr s) =>
              if names_auth_host s
              then redirect_list todo' (S i) (list_set j (JStr LOOPBACK) l)
              else redirect_list todo' (S i) l
          | _ => redirect_list todo' (S i) l
          end
      end
  end.

(** [for key in net_servers: if isinstance(net_servers[key], str) and
    (...): net_servers[key] = "http://127.0.0.1:8080"], by the type of
    [net_servers].  Iterating over a string yields its characters, which
    do not index it; a number is not iterable. *)
Definition redirect_servers (net_servers : json) : result json :=
  match net_servers with
  | JObj d => Ok (JObj (redirect_dict d))
  | JArr l =>
      try! l' := redirect_list (length l) 0 l in Ok (JArr l')
  | JStr s =>
      match s with
      | EmptyString => Ok net_servers
      | String _ _ => Raise TypeError
      end
  | _ => Raise TypeError
  end.

(** The second block. *)
Definition redirect_net (version_data : json) : result json :=
  try! net := py_get version_data "net" (JObj []) in
  try! server := py_get net "server" (JObj []) in
  if truthy server then
    try! net := py_getitem version_data "net" in
    try! net_servers := py_getitem net "server" in
    try! net_servers := redirect_servers net_servers in
    try! net := py_setitem net "server" net_servers in
    py_setitem version_data "net" net
  else Ok version_data.

(** The third block. *)
Definition redirect_authentication (version_data : json) : result json :=
  try! present := py_in "authenticationService" version_data in
  if present then
    try! service := py_getitem version_data "authenticationService" in
    try! has_url := py_in "baseUrl" service in
    if has_url then
      try! service := py_setitem service "baseUrl" (JStr LOOPBACK) in
      py_setitem version_data "authenticationService" service
    else Ok version_data
  else Ok version_data.

(** The fourth block. *)
Definition redirect_services (version_data : json) : result json :=
  try! present := py_in "servicesBaseUrl" version_data in
  if present then py_setitem version_data "servicesBaseUrl" (JStr LOOPBACK)
  else Ok version_data.

(** What [configure_offline_mode] does to the loaded manifest. *)
Definition patch (version_data : json) : result json :=
  try! version_data := add_offline_args version_data in
  try! version_data := redirect_net version_data in
  try! version_data := redirect_authentication version_data in
  redirect_services version_data.

Definition version_json_path (self : MainWindow) (version_id : string) : string :=
  os_path_join
    (os_path_join (os_path_join (minecraft_dir self) "versions") version_id)
    (version_id +:+ ".json").

Definition backup_path (self : MainWindow) (version_id : string) : string :=
  version_json_path self version_id +:+ ".backup".

(** The backup step: the manifest is copied unless a backup exists.
    ([QApplication.processEvents()], which lets pending events run, has
    no counterpart here.) *)
Definition make_backup (version_id : string) (self : MainWindow) : M MainWindow :=
  let! f := get_fs in
  if negb (exists_path f (backup_path self version_id))
     && exists_path f (version_json_path self version_id)
  then
    run! fs_update (fun f => shutil_copy2 f (version_json_path self version_id)
                               (backup_path self version_id)) in
    ret (set_widget "status_label"
           (setText ("Created backup of " +:+ version_id +:+ ".json")) self)
  else ret self.

(** Reading, patching and writing back. *)
Definition rewrite_manifest (version_id : string) (self : MainWindow) : M unit :=
  let! c := fs_query (fun f => read_file f (version_json_path self version_id)) in
  let! version_data := lift (json_load c) in
  let! version_data := lift (patch version_data) in
  fs_update (fun f => write_file f (version_json_path self version_id)
                        (Json version_data)).

Definition NEWLINE : string := String (ascii_of_nat 10) EmptyString.

Definition report_failure (e : exn) : M unit :=
  run! print ("Failed to configure offline mode: " +:+ exn_name e) in
  message_box Warning "Offline Mode Configuration"
    ("Failed to configure offline mode: " +:+ exn_name e +:+ NEWLINE
     +:+ "Multiplayer might be unavailable.").

(** [configure_offline_mode(version_id)]: the window after the call and
    the value returned.  The source has one [try] around all steps; the
    label set by the backup step stays set when a later step raises, so
    the handler is given the window as the backup step left it. *)
Definition configure_offline_mode (version_id : string) (self : MainWindow)
  : M (MainWindow * bool) :=
  try_except
    (let! self1 := make_backup version_id self in
     try_except
       (run! rewrite_manifest version_id self1 in ret (self1, true))
       is_Exception
       (fun e => run! report_failure e in ret (self1, false)))
    is_Exception
    (fun e => run! report_failure e in ret (self, false)).

(** [fix_version_for_offline()]; [install] is the answer to the question
    whether to install a version that is missing, [process_events] what
    a [processEvents()] of the installation it starts runs. *)
Definition fix_version_for_offline (install : bool) (process_events : pending)
    (pool : list QThread) (self : MainWindow) : M session :=
  if negb (has_selection self) then
    run! message_box Warning "Warning" "Please select a profile first." in
    ret (self, pool)
  else
    match selected_profile self with
    | Some profile =>
        match Profiles.version_id profile with
        | Some version_id =>
            if String.eqb version_id "" then
              run! message_box Warning "Warning"
                     "Selected profile has no Minecraft version." in
              ret (self, pool)
            else
              let! f := get_fs in
              if negb (exists_path f (version_file_path self version_id)) then
                run! message_box Question "Version Not Installed"
                       ("The version " +:+ version_id
                        +:+ " is not installed. Install it now?") in
                if install
                then start_installation_for_profile process_events profile pool self
                else ret (self, pool)
              else
                let! r := configure_offline_mode version_id self in
                let '(self, configured) := r in
                if configured then
                  run! message_box Information "Success"
                         ("Successfully configured " +:+ version_id
                          +:+ " for offline multiplayer." +:+ NEWLINE +:+ NEWLINE
                          +:+ "Now you can launch the game and play multiplayer on servers with 'online-mode=false' or create a LAN world.") in
                  ret (self, pool)
                else ret (self, pool)
        | None =>
            run! message_box Warning "Warning"
                   "Selected profile has no Minecraft version." in
            ret (self, pool)
        end
    | None => ret (self, pool)
    end.

(** A click on [fix_version_button] that is pending when
    [processEvents()] is called: a disabled button takes no click. *)
Definition click_fix_version (install : bool) (process_events : pending)
  : pending :=
  fun s =>
    let '(self, pool) := s in
    if enabled (widget_of "fix_version_button" self)
    then fix_version_for_offline install process_events pool self
    else ret (self, pool).

End Offline.

(* ===================================================================== *)
(** ** The offline-mode patch: what it changes, and applying it twice *)
(* ===================================================================== *)

Module OfflineFacts.
Import Py PyFacts OS Eff Eff.Notations Qt Window Offline SettingsFacts.

(** A block of the patch reads one key of the manifest and writes the
    same key back. *)
Definition at_key (k : string) (h : json -> result json) (x : json) : result json :=
  match x with
  | JObj d =>
      match dict_lookup k d with
      | None => Ok x
      | Some a =>
          match h a with
          | Ok a' => Ok (JObj (dict_set k a' d))
          | Raise e => Raise e
          end
      end
  | _ => Raise TypeError
  end.

(** [k] of [x] is absent or holds a value [h] leaves as it is. *)
Definition settled (k : string) (h : json -> result json) (x : json) : Prop :=
  match x with
  | JObj d =>
      match dict_lookup k d with
      | None => True
      | Some a => h a = Ok a
      end
  | _ => False
  end.

Definition idempotent (h : json -> result json) : Prop :=
  forall a a', h a = Ok a' -> h a' = Ok a'.

Lemma at_key_settles (k : string) (h : json -> result json) (x x' : json) :
  idempotent h -> at_key k h x = Ok x' -> settled k h x'.
Proof.
  intros Hh. unfold at_key, settled.
  destruct x as [| | | | | |d]; try discriminate.
  destruct (dict_lookup k d) as [a|] eqn:E.
  - destruct (h a) as [a'|] eqn:Ha; [|discriminate].
    intros [= <-]. rewrite dict_lookup_set_eq. eauto.
  - intros [= <-]. now rewrite E.
Qed.

Lemma at_key_keeps_settled (k k' : string) (h h' : json -> result json)
    (x x' : json) :
  k <> k' -> at_key k h x = Ok x' -> settled k' h' x -> settled k' h' x'.
Proof.
  intros Hk. unfold at_key, settled.
  destruct x as [| | | | | |d]; try discriminate.
  destruct (dict_lookup k d) as [a|] eqn:E.
  - destruct (h a) as [a'|]; [|discriminate].
    intros [= <-]. now rewrite dict_lookup_set_ne.
  - now intros [= <-].
Qed.

Lemma settled_fixed (k : string) (h : json -> result json) (x : json) :
  settled k h x -> at_key k h x = Ok x.
Proof.
  unfold at_key, settled. destruct x as [| | | | | |d]; try contradiction.
  destruct (dict_lookup k d) as [a|] eqn:E; auto.
  intros ->. now rewrite dict_set_same.
Qed.



(** *** The four blocks as changes of one key *)

Definition arguments_block (arguments : json) : result json :=
  try! has_game := py_in "game" arguments in
  if has_game then
    try! game_args := py_getitem arguments "game" in
    try! present := py_in SKIP_WARNING game_args in
    if negb present then
      try! game_args := py_append game_args (JStr SKIP_WARNING) in
      py_setitem arguments "game" game_args
    else Ok arguments
  else Ok arguments.

Definition net_block (net : json) : result json :=
  try! server := py_get net "server" (JObj []) in
  if truthy server then
    try! net_servers := py_getitem net "server" in
    try! net_servers := redirect_servers net_servers in
    py_setitem net "server" net_servers
  else Ok net.

Definition authentication_block (service : json) : result json :=
  try! has_url := py_in "baseUrl" service in
  if has_url then py_setitem service "baseUrl" (JStr LOOPBACK)
  else Ok service.

Definition services_block (_ : json) : result json := Ok (JStr LOOPBACK).

Ltac split_block :=
  repeat (match goal with
          | |- context [py_in ?k ?x] => destruct (py_in k x) as [[]|]
          | |- context [py_getitem ?x ?k] => destruct (py_getitem x k)
          | |- context [py_get ?x ?k ?v] => destruct (py_get x k v)
          | |- context [py_append ?x ?v] => destruct (py_append x v)
          | |- context [py_setitem ?x ?k ?v] => destruct (py_setitem x k v)
          | |- context [redirect_servers ?x] => destruct (redirect_servers x)
          | |- context [truthy ?x] => destruct (truthy x)
          end; cbn [negb]);
  try reflexivity; try (now rewrite dict_set_same).

Lemma add_offline_args_at_key (d : dict) :
  add_offline_args (JObj d) = at_key "arguments" arguments_block (JObj d).
Proof.
  unfold add_offline_args, at_key, arguments_block, bindr.
  cbn [py_in py_getitem py_setitem]. unfold dict_has.
  destruct (dict_lookup "arguments" d) as [a|] eqn:E; [|reflexivity].
  split_block.
Qed.

Lemma redirect_net_at_key (d : dict) :
  redirect_net (JObj d) = at_key "net" net_block (JObj d).
Proof.
  unfold redirect_net, at_key, net_block, bindr.
  cbn [py_get py_getitem py_setitem].
  destruct (dict_lookup "net" d) as [n|] eqn:E; [|reflexivity].
  split_block.
Qed.

Lemma redirect_authentication_at_key (d : dict) :
  redirect_authentication (JObj d)
  = at_key "authenticationService" authentication_block (JObj d).
Proof.
  unfold redirect_authentication, at_key, authentication_block, bindr.
  cbn [py_in py_getitem py_setitem]. unfold dict_has.
  destruct (dict_lookup "authenticationService" d) as [a|] eqn:E; [|reflexivity].
  split_block.
Qed.

Lemma redirect_services_at_key (d : dict) :
  redirect_services (JObj d) = at_key "servicesBaseUrl" services_block (JObj d).
Proof.
  unfold redirect_services, at_key, services_block, bindr.
  cbn [py_in py_setitem]. unfold dict_has.
  now destruct (dict_lookup "servicesBaseUrl" d).
Qed.

Lemma at_key_object (k : string) (h : json -> result json) (x x' : json) :
  at_key k h x = Ok x' -> exists d d', x = JObj d /\ x' = JObj d'.
Proof.
  unfold at_key. destruct x as [| | | | | |d]; try discriminate.
  destruct (dict_lookup k d) as [a|]; [destruct (h a)|]; try discriminate;
    intros [= <-]; eauto.
Qed.

(** A manifest the patch succeeds on is a JSON object, and the patch is
    the four blocks one after the other. *)
Lemma patch_object (x x' : json) :
  patch x = Ok x' ->
  exists d x1 x2 x3,
    x = JObj d
    /\ at_key "arguments" arguments_block x = Ok x1
    /\ at_key "net" net_block x1 = Ok x2
    /\ at_key "authenticationService" authentication_block x2 = Ok x3
    /\ at_key "servicesBaseUrl" services_block x3 = Ok x'.
Proof.
  unfold patch, bindr.
  destruct (add_offline_args x) as [x1|] eqn:H1; [|discriminate].
  destruct (redirect_net x1) as [x2|] eqn:H2; [|discriminate].
  destruct (redirect_authentication x2) as [x3|] eqn:H3; [|discriminate].
  intros H4.
  assert (Hobj : exists d, x = JObj d).
  { destruct x as [| | | | | |d]; eauto; exfalso.
    all: unfold add_offline_args, bindr in H1; cbn [py_in] in H1;
      try discriminate.
    - (* a string *)
      destruct (contains "arguments" s); cbn in H1; try discriminate.
      injection H1 as <-. discriminate.
    - (* a list *)
      destruct (existsb (eq_str "arguments") items); cbn in H1; try discriminate.
      injection H1 as <-. discriminate. }
  destruct Hobj as [d ->].
  rewrite add_offline_args_at_key in H1.
  destruct (at_key_object _ _ _ _ H1) as (? & d1 & _ & ->).
  rewrite redirect_net_at_key in H2.
  destruct (at_key_object _ _ _ _ H2) as (? & d2 & _ & ->).
  rewrite redirect_authentication_at_key in H3.
  destruct (at_key_object _ _ _ _ H3) as (? & d3 & _ & ->).
  rewrite redirect_services_at_key in H4.
  exists d, (JObj d1), (JObj d2), (JObj d3). auto.
Qed.

Lemma patch_of_blocks (d : dict) (x1 x2 x3 x' : json) :
  at_key "arguments" arguments_block (JObj d) = Ok x1 ->
  at_key "net" net_block x1 = Ok x2 ->
  at_key "authenticationService" authentication_block x2 = Ok x3 ->
  at_key "servicesBaseUrl" services_block x3 = Ok x' ->
  patch (JObj d) = Ok x'.
Proof.
  intros H1 H2 H3 H4. unfold patch, bindr.
  rewrite add_offline_args_at_key, H1.
  destruct (at_key_object _ _ _ _ H1) as (? & d1 & _ & ->).
  rewrite redirect_net_at_key, H2.
  destruct (at_key_object _ _ _ _ H2) as (? & d2 & _ & ->).
  rewrite redirect_authentication_at_key, H3.
  destruct (at_key_object _ _ _ _ H3) as (? & d3 & _ & ->).
  now rewrite redirect_services_at_key.
Qed.

(** *** The loop over the servers *)

Lemma loopback_is_no_auth_host : names_auth_host LOOPBACK = false.
Proof. reflexivity. Qed.

Lemma redirect_redirect (v : json) : redirect (redirect v) = redirect v.
Proof.
  destruct v; simpl; auto.
  destruct (names_auth_host s) eqn:E; simpl.
  - reflexivity.
  - now rewrite E.
Qed.

(** One pass of the loop over a [dict]. *)
Definition visit (d : dict) (key : string) : dict :=
  match dict_lookup key d with
  | Some (JStr s) =>
      if names_auth_host s then dict_set key (JStr LOOPBACK) d else d
  | _ => d
  end.

Lemma visit_lookup (d : dict) (key k : string) :
  dict_lookup k (visit d key)
  = if String.eqb k key then option_map redirect (dict_lookup k d)
    else dict_lookup k d.
Proof.
  unfold visit. destruct (String.eqb k key) eqn:E.
  - apply String.eqb_eq in E. subst k.
    destruct (dict_lookup key d) as [v|] eqn:Hv; [|now rewrite Hv].
    destruct v; try (rewrite Hv; reflexivity).
    simpl. destruct (names_auth_host s) eqn:Hs.
    + now rewrite dict_lookup_set_eq.
    + now rewrite Hv.
  - assert (key <> k) by (intros ->; now rewrite String.eqb_refl in E).
    destruct (dict_lookup key d) as [[]|]; auto.
    destruct (names_auth_host s); auto. now apply dict_lookup_set_ne.
Qed.

Lemma visit_keys (d : dict) (key : string) :
  dict_keys (visit d key) = dict_keys d.
Proof.
  unfold visit. destruct (dict_lookup key d) as [[]|] eqn:E; auto.
  destruct (names_auth_host s); auto. apply dict_keys_set. congruence.
Qed.

Lemma fold_visit_lookup (ks : list string) (d : dict) (k : string) :
  dict_lookup k (fold_left visit ks d)
  = if existsb (String.eqb k) ks then option_map redirect (dict_lookup k d)
    else dict_lookup k d.
Proof.
  revert d. induction ks as [|key ks IH]; intros d; simpl; auto.
  rewrite IH, visit_lookup.
  destruct (String.eqb k key); simpl; auto.
  destruct (existsb (String.eqb k) ks); auto.
  destruct (dict_lookup k d); simpl; auto. now rewrite redirect_redirect.
Qed.

Lemma fold_visit_keys (ks : list string) (d : dict) :
  dict_keys (fold_left visit ks d) = dict_keys d.
Proof.
  revert d. induction ks as [|key ks IH]; intros d; simpl; auto.
  now rewrite IH, visit_keys.
Qed.

(** After the loop every value is the redirected old value, and the keys
    are as before. *)
Lemma redirect_dict_lookup (d : dict) (k : string) :
  dict_lookup k (redirect_dict d) = option_map redirect (dict_lookup k d).
Proof.
  unfold redirect_dict. change (fun d key => _) with visit.
  rewrite fold_visit_lookup.
  destruct (existsb (String.eqb k) (dict_keys d)) eqn:E; auto.
  destruct (dict_lookup k d) eqn:Hk; auto.
  assert (Hin : In k (dict_keys d)) by (apply dict_lookup_in_keys; congruence).
  assert (existsb (String.eqb k) (dict_keys d) = true).
  { apply existsb_exists. exists k. split; auto. apply String.eqb_refl. }
  congruence.
Qed.

Lemma redirect_dict_keys (d : dict) :
  dict_keys (redirect_dict d) = dict_keys d.
Proof. unfold redirect_dict. change (fun d key => _) with visit. apply fold_visit_keys. Qed.

(** A pass over values that need no redirection changes nothing. *)
Lemma fold_visit_fixed (ks : list string) (d : dict) :
  (forall k v, dict_lookup k d = Some v -> redirect v = v) ->
  fold_left visit ks d = d.
Proof.
  intros H. induction ks as [|key ks IH]; simpl; auto.
  assert (Hv : visit d key = d).
  { unfold visit. destruct (dict_lookup key d) as [[]|] eqn:E; auto.
    specialize (H _ _ E). simpl in H.
    destruct (names_auth_host s) eqn:Hs; auto.
    injection H as <-. now rewrite loopback_is_no_auth_host in Hs. }
  now rewrite Hv.
Qed.

Lemma redirect_dict_idempotent (d : dict) :
  redirect_dict (redirect_dict d) = redirect_dict d.
Proof.
  unfold redirect_dict at 1. change (fun d key => _) with visit.
  apply fold_visit_fixed. intros k v Hk.
  rewrite redirect_dict_lookup in Hk.
  destruct (dict_lookup k d); [|discriminate].
  injection Hk as <-. apply redirect_redirect.
Qed.

Lemma list_set_length {A : Type} (j : nat) (v : A) (l : list A) :
  length (list_set j v l) = length l.
Proof.
  revert j. induction l as [|a l IH]; intros [|j]; simpl; auto.
Qed.

Lemma list_set_nth_same {A : Type} (j : nat) (v : A) (l : list A) :
  j < length l -> nth_error (list_set j v l) j = Some v.
Proof.
  revert j. induction l as [|a l IH]; intros [|j]; simpl; try lia; auto.
  intros H. apply IH. lia.
Qed.

Lemma list_set_nth_other {A : Type} (i j : nat) (v : A) (l : list A) :
  i <> j -> nth_error (list_set j v l) i = nth_error l i.
Proof.
  revert i j. induction l as [|a l IH]; intros [|i] [|j]; simpl; auto;
    try congruence.
Qed.

Lemma list_index_int (n : nat) (key : json) (j : nat) :
  list_index n key = Ok j -> isinstance_str key = false /\ j < n.
Proof.
  unfold list_index. destruct key; try discriminate; simpl.
  all: match goal with
       | |- (if ?c then _ else _) = _ -> _ => destruct c eqn:E
       end; try discriminate;
    intros [= <-]; split; auto;
    apply andb_true_iff in E as [E1 E2];
    apply Z.leb_le in E1; apply Z.ltb_lt in E2; lia.
Qed.

(** The loop over a list fails when it reaches an element that is a
    string: a string is not an index. *)
Lemma redirect_list_string_fails (todo i : nat) (l : list json) (j : nat)
    (s : string) :
  i <= j -> j < length l -> length l <= todo + i ->
  nth_error l j = Some (JStr s) ->
  exists e, redirect_list todo i l = Raise e.
Proof.
  revert i l s. induction todo as [|todo IH]; intros i l s Hij Hj Hlen Hs.
  - lia.
  - simpl. destruct (nth_error l i) as [key|] eqn:Hkey.
    2:{ apply nth_error_None in Hkey. lia. }
    unfold bindr.
    destruct (list_index (length l) key) as [j0|e] eqn:Hidx; [|eauto].
    destruct (list_index_int _ _ _ Hidx) as [Hnot Hj0].
    assert (Hne : i <> j).
    { intros ->. rewrite Hs in Hkey. injection Hkey as <-. discriminate. }
    assert (Hrec : forall l2 s2, length l2 = length l ->
               nth_error l2 j = Some (JStr s2) ->
               exists e, redirect_list todo (S i) l2 = Raise e).
    { intros l2 s2 Hl2 Hs2. apply (IH (S i) l2 s2); try lia; auto. }
    destruct (nth_error l j0) as [[]|] eqn:Hj0v;
      try (apply (Hrec l s); auto).
    destruct (names_auth_host s0); [|apply (Hrec l s); auto].
    destruct (Nat.eq_dec j j0) as [->|Hjj].
    + apply (Hrec _ LOOPBACK).
      * apply list_set_length.
      * now apply list_set_nth_same.
    + apply (Hrec _ s).
      * apply list_set_length.
      * now rewrite list_set_nth_other.
Qed.

(** So a loop over a list that comes to its end has changed nothing. *)
Lemma redirect_list_unchanged (todo i : nat) (l l' : list json) :
  (forall j s, j < i -> nth_error l j <> Some (JStr s)) ->
  length l <= todo + i ->
  redirect_list todo i l = Ok l' -> l' = l.
Proof.
  revert i l. induction todo as [|todo IH]; intros i l Hpast Hlen.
  - simpl. now intros [= <-].
  - simpl. destruct (nth_error l i) as [key|] eqn:Hkey.
    2:{ now intros [= <-]. }
    unfold bindr.
    destruct (list_index (length l) key) as [j0|e] eqn:Hidx; [|discriminate].
    destruct (list_index_int _ _ _ Hidx) as [Hnot Hj0].
    assert (Hpast' : forall j s, j < S i -> nth_error l j <> Some (JStr s)).
    { intros j s Hj. destruct (Nat.eq_dec j i) as [->|].
      - rewrite Hkey. intros [= ->]. discriminate.
      - apply Hpast. lia. }
    assert (Hrec : redirect_list todo (S i) l = Ok l' -> l' = l).
    { apply IH; auto. lia. }
    destruct (nth_error l j0) as [[]|] eqn:Hj0v; auto.
    destruct (names_auth_host s); auto.
    intros Hok. exfalso.
    destruct (le_lt_dec (S i) j0) as [Hge|Hlt].
    + destruct (redirect_list_string_fails todo (S i)
                  (list_set j0 (JStr LOOPBACK) l) j0 LOOPBACK) as [e He];
        rewrite ?list_set_length; try lia.
      * now apply list_set_nth_same.
      * congruence.
    + apply (Hpast' j0 s); auto.
Qed.

Lemma redirect_list_whole (l l' : list json) :
  redirect_list (length l) 0 l = Ok l' -> l' = l.
Proof.
  apply redirect_list_unchanged; [intros; lia | lia].
Qed.

Lemma redirect_servers_idempotent (s s' : json) :
  redirect_servers s = Ok s' -> redirect_servers s' = Ok s'.
Proof.
  destruct s as [| | | |str|l|d]; simpl; try discriminate.
  - destruct str; [|discriminate]. now intros [= <-].
  - unfold bindr.
    destruct (redirect_list (length l) 0 l) as [l'|] eqn:E; [|discriminate].
    intros [= <-].
    assert (l' = l) as -> by now apply redirect_list_whole.
    simpl. unfold bindr. now rewrite E.
  - intros [= <-]. simpl. now rewrite redirect_dict_idempotent.
Qed.

Lemma redirect_servers_truthy (s s' : json) :
  redirect_servers s = Ok s' -> truthy s' = truthy s.
Proof.
  destruct s as [| | | |str|l|d]; simpl; try discriminate.
  - destruct str; [|discriminate]. now intros [= <-].
  - unfold bindr.
    destruct (redirect_list (length l) 0 l) as [l'|] eqn:E; [|discriminate].
    intros [= <-].
    now rewrite (redirect_list_whole _ _ E).
  - intros [= <-]. simpl.
    pose proof (redirect_dict_keys d) as Hk. unfold dict_keys in Hk.
    destruct (redirect_dict d), d; simpl in Hk; auto; discriminate.
Qed.

(** *** Each block leaves its own result as it is *)

Lemma skip_warning_appended (l : list json) :
  existsb (eq_str SKIP_WARNING) (l ++ [JStr SKIP_WARNING]) = true.
Proof. rewrite existsb_app. simpl. apply orb_true_r. Qed.

Lemma arguments_block_idempotent : idempotent arguments_block.
Proof.
  intros a a'. unfold arguments_block, bindr.
  destruct a as [| | | |str|items|ad]; cbn [py_in]; try discriminate.
  - destruct (contains "game" str) eqn:E; cbn [py_getitem]; try discriminate.
    intros [= <-]. cbn [py_in]. now rewrite E.
  - destruct (existsb (eq_str "game") items) eqn:E; cbn [py_getitem];
      try discriminate.
    intros [= <-]. cbn [py_in]. now rewrite E.
  - destruct (dict_has "game" ad) eqn:Hg.
    2:{ intros [= <-]. cbn [py_in]. now rewrite Hg. }
    cbn [py_getitem]. unfold dict_has in Hg.
    destruct (dict_lookup "game" ad) as [g|] eqn:Hl; [|discriminate].
    destruct (py_in SKIP_WARNING g) as [present|] eqn:Hp; [|discriminate].
    destruct present; cbn [negb].
    + intros [= <-]. cbn [py_in py_getitem]. unfold dict_has.
      now rewrite Hl, Hp.
    + destruct g; cbn [py_append]; try discriminate.
      cbn [py_setitem]. intros [= <-]. cbn [py_in py_getitem].
      rewrite dict_has_set_eq, dict_lookup_set_eq. cbn [py_in].
      now rewrite skip_warning_appended.
Qed.

Lemma net_block_idempotent : idempotent net_block.
Proof.
  intros n n'. unfold net_block, bindr.
  destruct n as [| | | | | |nd]; cbn [py_get]; try discriminate.
  destruct (dict_lookup "server" nd) as [s|] eqn:Hs.
  - destruct (truthy s) eqn:Ht.
    + cbn [py_getitem]. rewrite Hs.
      destruct (redirect_servers s) as [s'|] eqn:Hr; [|discriminate].
      cbn [py_setitem]. intros [= <-].
      cbn [py_get py_getitem]. rewrite dict_lookup_set_eq.
      rewrite (redirect_servers_truthy _ _ Hr), Ht.
      rewrite (redirect_servers_idempotent _ _ Hr). cbn [py_setitem].
      now rewrite dict_set_set.
    + intros [= <-]. cbn [py_get]. now rewrite Hs, Ht.
  - cbn [truthy]. intros [= <-]. cbn [py_get]. now rewrite Hs.
Qed.

Lemma authentication_block_idempotent : idempotent authentication_block.
Proof.
  intros a a'. unfold authentication_block, bindr.
  destruct a as [| | | |str|items|ad]; cbn [py_in]; try discriminate.
  - destruct (contains "baseUrl" str) eqn:E; cbn [py_setitem]; try discriminate.
    intros [= <-]. cbn [py_in]. now rewrite E.
  - destruct (existsb (eq_str "baseUrl") items) eqn:E; cbn [py_setitem];
      try discriminate.
    intros [= <-]. cbn [py_in]. now rewrite E.
  - destruct (dict_has "baseUrl" ad) eqn:E; cbn [py_setitem].
    + intros [= <-]. cbn [py_in py_setitem].
      now rewrite dict_has_set_eq, dict_set_set.
    + intros [= <-]. cbn [py_in]. now rewrite E.
Qed.

Lemma services_block_idempotent : idempotent services_block.
Proof. intros a a'. unfold services_block. now intros [= <-]. Qed.

(** The patch applied to its own result gives that result again. *)
Lemma patch_idempotent (x x' : json) :
  patch x = Ok x' -> patch x' = Ok x'.
Proof.
  intros H.
  destruct (patch_object _ _ H) as (d & x1 & x2 & x3 & -> & H1 & H2 & H3 & H4).
  pose proof (at_key_settles _ _ _ _ arguments_block_idempotent H1) as S1.
  pose proof (at_key_settles _ _ _ _ net_block_idempotent H2) as S2.
  pose proof (at_key_settles _ _ _ _ authentication_block_idempotent H3) as S3.
  pose proof (at_key_settles _ _ _ _ services_block_idempotent H4) as S4.
  assert (S1' : settled "arguments" arguments_block x').
  { eapply at_key_keeps_settled; [|exact H4|]; [discriminate|].
    eapply at_key_keeps_settled; [|exact H3|]; [discriminate|].
    eapply at_key_keeps_settled; [|exact H2|]; [discriminate|]. exact S1. }
  assert (S2' : settled "net" net_block x').
  { eapply at_key_keeps_settled; [|exact H4|]; [discriminate|].
    eapply at_key_keeps_settled; [|exact H3|]; [discriminate|]. exact S2. }
  assert (S3' : settled "authenticationService" authentication_block x').
  { eapply at_key_keeps_settled; [|exact H4|]; [discriminate|]. exact S3. }
  destruct (at_key_object _ _ _ _ H4) as (? & d' & _ & ->).
  apply (patch_of_blocks d' (JObj d') (JObj d') (JObj d'));
    now apply settled_fixed.
Qed.

(** *** What each block does to the value under its key *)



















(** *** No step leaves the [try] *)

(** A result that is not [SystemExit]: [except Exception] handles it. *)
Definition ordinary {A : Type} (r : result A) : Prop :=
  match r with
  | Raise e => is_Exception e = true
  | Ok _ => True
  end.

Lemma ordinary_bindr {A B : Type} (r : result A) (k : A -> result B) :
  ordinary r -> (forall a, ordinary (k a)) -> ordinary (bindr r k).
Proof. destruct r; simpl; auto. Qed.

Lemma ordinary_py_in (k : string) (x : json) : ordinary (py_in k x).
Proof. now destruct x. Qed.

Lemma ordinary_py_getitem (x : json) (k : string) : ordinary (py_getitem x k).
Proof. destruct x; simpl; auto. now destruct (dict_lookup k fields). Qed.

Lemma ordinary_py_setitem (x : json) (k : string) (v : json) :
  ordinary (py_setitem x k v).
Proof. now destruct x. Qed.

Lemma ordinary_py_get (x : json) (k : string) (v : json) : ordinary (py_get x k v).
Proof. now destruct x. Qed.

Lemma ordinary_py_append (x v : json) : ordinary (py_append x v).
Proof. now destruct x. Qed.

Lemma ordinary_list_index (n : nat) (k : json) : ordinary (list_index n k).
Proof.
  unfold list_index. destruct k; simpl; auto;
    match goal with |- context [if ?c then _ else _] => now destruct c end.
Qed.

Lemma ordinary_redirect_list (todo i : nat) (l : list json) :
  ordinary (redirect_list todo i l).
Proof.
  revert i l. induction todo as [|todo IH]; intros i l; simpl; auto.
  destruct (nth_error l i); simpl; auto.
  apply ordinary_bindr; [apply ordinary_list_index|].
  intros idx. destruct (nth_error l idx) as [[]|]; auto.
  destruct (names_auth_host s); auto.
Qed.

Lemma ordinary_redirect_servers (x : json) : ordinary (redirect_servers x).
Proof.
  destruct x; simpl; auto.
  - now destruct s.
  - apply ordinary_bindr; [apply ordinary_redirect_list | simpl; auto].
Qed.

Ltac ordinary_steps :=
  repeat first
    [ apply ordinary_bindr; [ | intros ? ]
    | apply ordinary_py_in | apply ordinary_py_getitem
    | apply ordinary_py_setitem | apply ordinary_py_get
    | apply ordinary_py_append | apply ordinary_redirect_servers
    | match goal with |- ordinary (if ?c then _ else _) => destruct c end
    | exact I ].

Lemma ordinary_patch (x : json) : ordinary (patch x).
Proof.
  unfold patch, add_offline_args, redirect_net, redirect_authentication,
    redirect_services.
  ordinary_steps.
Qed.

Lemma ordinary_read_file (f : FS) (p : string) : ordinary (read_file f p).
Proof.
  unfold read_file. destruct (has_nul p); simpl; auto.
  destruct (nodes f !! p) as [[]|]; simpl; auto.
  now destruct (readable f p).
Qed.

Lemma ordinary_write_file (f : FS) (p : string) (c : content) :
  ordinary (write_file f p c).
Proof.
  unfold write_file. destruct (has_nul p); simpl; auto.
  destruct (nodes f !! p) as [[]|]; simpl; auto;
    now destruct (writable f p).
Qed.

Lemma ordinary_json_load (c : content) : ordinary (json_load c).
Proof. now destruct c. Qed.

(** *** The two steps on the file system *)

(** The backup step, on the manifest [m] and its backup [b]. *)
Definition backup_step (m b : string) (f : FS) : result FS :=
  if negb (exists_path f b) && exists_path f m then shutil_copy2 f m b
  else Ok f.

(** Reading, patching, writing back. *)
Definition rewrite_step (m : string) (f : FS) : result FS :=
  try! c := read_file f m in
  try! v := json_load c in
  try! v' := patch v in
  write_file f m (Json v').

(** The file system an application of the patch leaves behind. *)
Definition fs_after (m b : string) (f : FS) : FS :=
  match backup_step m b f with
  | Raise _ => f
  | Ok f1 =>
      match rewrite_step m f1 with
      | Ok f2 => f2
      | Raise _ => f1
      end
  end.

(** Whether the application returns [True]. *)
Definition succeeds (m b : string) (f : FS) : bool :=
  match backup_step m b f with
  | Raise _ => false
  | Ok f1 =>
      match rewrite_step m f1 with
      | Ok _ => true
      | Raise _ => false
      end
  end.

Lemma ordinary_backup_step (m b : string) (f : FS) : ordinary (backup_step m b f).
Proof.
  unfold backup_step, shutil_copy2.
  destruct (negb (exists_path f b) && exists_path f m); simpl; auto.
  pose proof (ordinary_read_file f m).
  destruct (read_file f m); auto. apply ordinary_write_file.
Qed.

Lemma ordinary_rewrite_step (m : string) (f : FS) : ordinary (rewrite_step m f).
Proof.
  unfold rewrite_step.
  apply ordinary_bindr; [apply ordinary_read_file|intros c].
  apply ordinary_bindr; [apply ordinary_json_load|intros v].
  apply ordinary_bindr; [apply ordinary_patch|intros v'].
  apply ordinary_write_file.
Qed.

Lemma make_backup_run (version_id : string) (self : MainWindow) (w : World) :
  let m := version_json_path self version_id in
  let b := backup_path self version_id in
  match backup_step m b (fs w) with
  | Ok f1 =>
      exists self1,
        make_backup version_id self w
        = (Ok self1, mkWorld f1 (printed w) (boxes w))
        /\ minecraft_dir self1 = minecraft_dir self
  | Raise e => make_backup version_id self w = (Raise e, w)
  end.
Proof.
  cbv zeta. unfold make_backup, backup_step, bind, get_fs, fs_update, ret.
  destruct (negb (exists_path (fs w) (backup_path self version_id))
            && exists_path (fs w) (version_json_path self version_id)).
  - destruct (shutil_copy2 (fs w) _ _) as [f1|e]; [|reflexivity].
    eexists. split; reflexivity.
  - exists self. destruct w. split; reflexivity.
Qed.

Lemma rewrite_manifest_run (version_id : string) (self : MainWindow) (w : World) :
  rewrite_manifest version_id self w
  = match rewrite_step (version_json_path self version_id) (fs w) with
    | Ok f2 => (Ok tt, mkWorld f2 (printed w) (boxes w))
    | Raise e => (Raise e, w)
    end.
Proof.
  unfold rewrite_manifest, rewrite_step, bind, bindr, fs_query, fs_update, lift.
  destruct (read_file (fs w) _) as [c|]; [|reflexivity].
  destruct (json_load c) as [v|]; [|reflexivity].
  destruct (patch v) as [v'|]; [|reflexivity].
  destruct (write_file (fs w) _ _); reflexivity.
Qed.

(** An application of the patch never raises: it returns [True] or
    [False], and leaves the file system [fs_after] describes. *)
Lemma configure_offline_mode_run (version_id : string) (self : MainWindow)
    (w : World) :
  let m := version_json_path self version_id in
  let b := backup_path self version_id in
  exists self' w',
    configure_offline_mode version_id self w
    = (Ok (self', succeeds m b (fs w)), w')
    /\ fs w' = fs_after m b (fs w)
    /\ minecraft_dir self' = minecraft_dir self.
Proof.
  cbv zeta. unfold configure_offline_mode, succeeds, fs_after.
  pose proof (make_backup_run version_id self w) as Hb. cbv zeta in Hb.
  pose proof (ordinary_backup_step (version_json_path self version_id)
                (backup_path self version_id) (fs w)) as Ho.
  destruct (backup_step _ _ (fs w)) as [f1|e].
  - destruct Hb as (self1 & Hb & Hdir).
    assert (Hpath : version_json_path self1 version_id
                    = version_json_path self version_id).
    { unfold version_json_path. now rewrite Hdir. }
    unfold try_except at 1. unfold bind at 1. rewrite Hb.
    unfold try_except, bind at 1. rewrite rewrite_manifest_run. cbn [fs].
    rewrite Hpath.
    pose proof (ordinary_rewrite_step (version_json_path self version_id) f1) as Ho2.
    destruct (rewrite_step _ f1) as [f2|e2].
    + eexists _, _. split; [reflexivity|]. auto.
    + simpl in Ho2. rewrite Ho2.
      eexists _, _. split; [reflexivity|]. auto.
  - simpl in Ho. unfold try_except at 1. unfold bind at 1. rewrite Hb, Ho.
    eexists _, _. split; [reflexivity|]. auto.
Qed.

Lemma append_same_empty (p s : string) : p +:+ s = p -> s = "".
Proof.
  induction p as [|c p IH]; [auto|].
  change (String c (p +:+ s) = String c p -> s = "").
  intros [= H]. auto.
Qed.

Lemma backup_path_differs (self : MainWindow) (version_id : string) :
  backup_path self version_id <> version_json_path self version_id.
Proof.
  unfold backup_path. intros H. apply append_same_empty in H. discriminate.
Qed.

Lemma read_file_ok (f : FS) (p : string) (c : content) :
  read_file f p = Ok c ->
  has_nul p = false /\ nodes f !! p = Some (File c) /\ readable f p = true.
Proof.
  unfold read_file. destruct (has_nul p); [discriminate|].
  destruct (nodes f !! p) as [[|c']|]; try discriminate.
  destruct (readable f p); [|discriminate]. now intros [= <-].
Qed.

Lemma write_file_ok (f f' : FS) (p : string) (c : content) :
  write_file f p c = Ok f' ->
  has_nul p = false /\ writable f p = true /\ nodes f !! p <> Some Dir
  /\ f' = with_nodes f (<[p := File c]> (nodes f)).
Proof.
  unfold write_file. destruct (has_nul p); [discriminate|].
  destruct (nodes f !! p) as [[|c']|] eqn:E; try discriminate;
    (destruct (writable f p); [|discriminate]); intros [= <-];
    repeat split; auto; discriminate.
Qed.

Lemma exists_path_written (f : FS) (p q : string) (c : content) :
  exists_path f q = true ->
  exists_path (with_nodes f (<[p := File c]> (nodes f))) q = true.
Proof. apply exists_path_insert. Qed.

Lemma read_file_exists (f : FS) (p : string) (c : content) :
  read_file f p = Ok c -> exists_path f p = true.
Proof.
  intros H. apply read_file_ok in H as (Hn & Hp & _).
  unfold exists_path. now rewrite Hn, Hp.
Qed.

(** What the backup step leaves: the file system as it was, or with the
    manifest copied to the backup path, which did not exist. *)
Lemma backup_step_ok (m b : string) (f f1 : FS) :
  backup_step m b f = Ok f1 ->
  (f1 = f /\ (exists_path f b = true \/ exists_path f m = false))
  \/ (exists c, read_file f m = Ok c
        /\ exists_path f b = false
        /\ has_nul b = false
        /\ f1 = with_nodes f (<[b := File c]> (nodes f))).
Proof.
  unfold backup_step, shutil_copy2.
  destruct (exists_path f b) eqn:Hb; cbn [negb andb].
  - intros [= <-]. left. auto.
  - destruct (exists_path f m) eqn:Hm.
    + destruct (read_file f m) as [c|] eqn:Hr; [|discriminate].
      intros Hw. apply write_file_ok in Hw as (Hn & _ & _ & ->).
      right. exists c. auto.
    + intros [= <-]. left. auto.
Qed.

Lemma rewrite_step_ok (m : string) (f f2 : FS) :
  rewrite_step m f = Ok f2 ->
  exists v v', read_file f m = Ok (Json v)
    /\ patch v = Ok v'
    /\ writable f m = true
    /\ f2 = with_nodes f (<[m := File (Json v')]> (nodes f)).
Proof.
  unfold rewrite_step, bindr.
  destruct (read_file f m) as [c|] eqn:Hr; [|discriminate].
  destruct c as [v|raw]; [|discriminate]. cbn [json_load].
  destruct (patch v) as [v'|] eqn:Hp; [|discriminate].
  intros Hw. apply write_file_ok in Hw as (_ & Hw & _ & ->).
  exists v, v'. auto.
Qed.

(** Rewriting the manifest a second time writes what is there. *)
Lemma rewrite_step_again (m : string) (f f2 : FS) :
  rewrite_step m f = Ok f2 -> rewrite_step m f2 = Ok f2.
Proof.
  intros H. destruct (rewrite_step_ok _ _ _ H) as (v & v' & Hr & Hp & Hw & ->).
  apply read_file_ok in Hr as (Hn & Hnode & Hrd).
  unfold rewrite_step, bindr, read_file, write_file. rewrite Hn.
  cbn [nodes readable writable with_nodes].
  rewrite lookup_insert_eq, Hrd. cbn [json_load].
  rewrite (patch_idempotent _ _ Hp), Hw.
  unfold with_nodes. cbn [nodes readable writable creatable fds cwd].
  now rewrite insert_insert_eq.
Qed.

Lemma backup_step_again (m b : string) (f f1 : FS) :
  backup_step m b f = Ok f1 -> backup_step m b f1 = Ok f1.
Proof.
  intros H. destruct (backup_step_ok _ _ _ _ H) as
    [(-> & _) | (c & Hr & Hb & Hn & ->)]; [exact H|].
  unfold backup_step. now rewrite (exists_path_insert_eq _ _ _ Hn).
Qed.

Lemma backup_step_after_rewrite (m b : string) (f f1 f2 : FS) :
  backup_step m b f = Ok f1 -> rewrite_step m f1 = Ok f2 ->
  backup_step m b f2 = Ok f2.
Proof.
  intros Hb Hrw.
  destruct (rewrite_step_ok _ _ _ Hrw) as (v & v' & Hr & _ & _ & ->).
  pose proof (read_file_exists _ _ _ Hr) as Hm.
  assert (Hex : exists_path f1 b = true).
  { destruct (backup_step_ok _ _ _ _ Hb) as
      [(-> & [Hex|Hno]) | (c & _ & _ & Hn & ->)]; auto.
    - congruence.
    - now apply exists_path_insert_eq. }
  unfold backup_step. now rewrite exists_path_written.
Qed.

(** Applying the patch to the file system it has left changes nothing. *)
Lemma fs_after_idempotent (m b : string) (f : FS) :
  fs_after m b (fs_after m b f) = fs_after m b f
  /\ succeeds m b (fs_after m b f) = succeeds m b f.
Proof.
  destruct (backup_step m b f) as [f1|e] eqn:Hb.
  - destruct (rewrite_step m f1) as [f2|e2] eqn:Hrw.
    + assert (Hfa : fs_after m b f = f2) by (unfold fs_after; now rewrite Hb, Hrw).
      assert (Hs : succeeds m b f = true) by (unfold succeeds; now rewrite Hb, Hrw).
      rewrite Hfa, Hs. unfold fs_after, succeeds.
      rewrite (backup_step_after_rewrite _ _ _ _ _ Hb Hrw).
      now rewrite (rewrite_step_again _ _ _ Hrw).
    + assert (Hfa : fs_after m b f = f1) by (unfold fs_after; now rewrite Hb, Hrw).
      assert (Hs : succeeds m b f = false) by (unfold succeeds; now rewrite Hb, Hrw).
      rewrite Hfa, Hs. unfold fs_after, succeeds.
      now rewrite (backup_step_again _ _ _ _ Hb), Hrw.
  - assert (Hfa : fs_after m b f = f) by (unfold fs_after; now rewrite Hb).
    assert (Hs : succeeds m b f = false) by (unfold succeeds; now rewrite Hb).
    rewrite Hfa, Hs. unfold fs_after, succeeds. now rewrite Hb.
Qed.

Lemma fs_after_nodes (m b : string) (f : FS) (p : string) :
  p <> m -> p <> b -> nodes (fs_after m b f) !! p = nodes f !! p.
Proof.
  intros Hm Hb. unfold fs_after.
  destruct (backup_step m b f) as [f1|] eqn:E1; auto.
  assert (H1 : nodes f1 !! p = nodes f !! p).
  { destruct (backup_step_ok _ _ _ _ E1) as [(-> & _)|(c & _ & _ & _ & ->)]; auto.
    cbn [nodes with_nodes]. now rewrite lookup_insert_ne. }
  destruct (rewrite_step m f1) as [f2|] eqn:E2; auto.
  destruct (rewrite_step_ok _ _ _ E2) as (v & v' & _ & _ & _ & ->).
  cbn [nodes with_nodes]. now rewrite lookup_insert_ne.
Qed.

(** A backup that exists is left alone. *)
Lemma fs_after_keeps_backup (m b : string) (f : FS) :
  b <> m -> exists_path f b = true ->
  nodes (fs_after m b f) !! b = nodes f !! b.
Proof.
  intros Hne Hex. unfold fs_after, backup_step. rewrite Hex. cbn [negb andb].
  destruct (rewrite_step m f) as [f2|] eqn:E2; auto.
  destruct (rewrite_step_ok _ _ _ E2) as (v & v' & _ & _ & _ & ->).
  cbn [nodes with_nodes]. now rewrite lookup_insert_ne.
Qed.



(** C9: applying the patch a second time changes nothing.  Both
    applications return, with the same value; the file system after the
    second is the file system after the first, so the manifest holds
    what it held and the backup is the backup the first application
    found or made; a backup found by the first application is left as it
    was.  The two reasons: the flag is in the list once appended, and the
    loopback URL contains neither [mojang] nor [minecraft]. *)
Theorem configure_offline_mode_twice (version_id : string)
    (self : MainWindow) (w : World) :
  let m := version_json_path self version_id in
  let b := backup_path self version_id in
  exists self1 ok1 w1 self2 ok2 w2,
    configure_offline_mode version_id self w = (Ok (self1, ok1), w1)
    /\ configure_offline_mode version_id self1 w1 = (Ok (self2, ok2), w2)
    /\ fs w2 = fs w1
    /\ nodes (fs w2) !! m = nodes (fs w1) !! m
    /\ nodes (fs w2) !! b = nodes (fs w1) !! b
    /\ ok2 = ok1
    /\ (exists_path (fs w) b = true -> nodes (fs w1) !! b = nodes (fs w) !! b)
    /\ (forall l, existsb (eq_str SKIP_WARNING) (l ++ [JStr SKIP_WARNING]) = true)
    /\ names_auth_host LOOPBACK = false.
Proof.
  cbv zeta.
  destruct (configure_offline_mode_run version_id self w) as
    (self1 & w1 & Hrun1 & Hfs1 & Hdir).
  destruct (configure_offline_mode_run version_id self1 w1) as
    (self2 & w2 & Hrun2 & Hfs2 & _).
  assert (Hm : version_json_path self1 version_id
               = version_json_path self version_id)
    by (unfold version_json_path; now rewrite Hdir).
  assert (Hb : backup_path self1 version_id = backup_path self version_id)
    by (unfold backup_path; now rewrite Hm).
  rewrite Hm, Hb, Hfs1 in *.
  destruct (fs_after_idempotent (version_json_path self version_id)
              (backup_path self version_id) (fs w)) as [Hidem Hsame].
  rewrite Hidem in Hfs2. rewrite Hsame in Hrun2.
  eexists self1, _, w1, self2, _, w2.
  split; [exact Hrun1|]. split; [exact Hrun2|].
  rewrite Hfs2, Hfs1. repeat split; auto.
  - apply fs_after_keeps_backup. apply backup_path_differs.
  - apply skip_warning_appended.
Qed.

End OfflineFacts.

(* ===================================================================== *)
(** ** Facts about the main window: names and memory *)

Module WindowFacts.
Import Py PyFacts OS Eff Eff.Notations Settings SettingsFacts Qt Profiles Window.

(** *** What a computation ensures of its result *)

Definition ensures {A : Type} (m : M A) (Q : A -> Prop) : Prop :=
  forall w, match m w with
            | (Ok a, _) => Q a
            | (Raise _, _) => True
            end.

Lemma ensures_ret {A : Type} (a : A) (Q : A -> Prop) : Q a -> ensures (ret a) Q.
Proof. intros H w. exact H. Qed.

Lemma ensures_bind {A B : Type} (m : M A) (k : A -> M B)
    (Q : A -> Prop) (R : B -> Prop) :
  ensures m Q -> (forall a, Q a -> ensures (k a) R) -> ensures (bind m k) R.
Proof.
  intros Hm Hk w. unfold bind. specialize (Hm w).
  destruct (m w) as [[a|e] w']; auto. apply (Hk a Hm).
Qed.

Lemma ensures_anything {A : Type} (m : M A) : ensures m (fun _ => True).
Proof. intros w. now destruct (m w) as [[]]. Qed.

(** Sequencing after a step whose result does not matter. *)
Lemma ensures_then {A B : Type} (m : M A) (k : A -> M B) (R : B -> Prop) :
  (forall a, ensures (k a) R) -> ensures (bind m k) R.
Proof.
  intros Hk. apply (ensures_bind m k (fun _ => True)); auto.
  apply ensures_anything.
Qed.

Lemma ensures_raise {A : Type} (e : exn) (Q : A -> Prop) : ensures (raise e) Q.
Proof. intros w. exact I. Qed.

(** *** Lists *)

Lemma list_set_map_same {A B : Type} (f : A -> B) (i : nat) (a a' : A)
    (l : list A) :
  nth_error l i = Some a -> f a' = f a -> map f (list_set i a' l) = map f l.
Proof.
  revert i. induction l as [|x l IH]; intros [|i]; simpl; try discriminate.
  - intros [= ->] ->. reflexivity.
  - intros H Hf. now rewrite (IH i H Hf).
Qed.

Lemma list_set_map {A B : Type} (f : A -> B) (i : nat) (a' : A) (l : list A) :
  map f (list_set i a' l) = list_set i (f a') (map f l).
Proof.
  revert i. induction l as [|x l IH]; intros [|i]; simpl; auto.
  now rewrite IH.
Qed.

Lemma others_map {A B : Type} (f : A -> B) (i : nat) (l : list A) :
  map f (others i l) = others i (map f l).
Proof.
  revert i. induction l as [|x l IH]; intros [|i]; simpl; auto.
  now rewrite IH.
Qed.

Lemma forallb_list_set {A : Type} (P : A -> bool) (i : nat) (a' : A) (l : list A) :
  forallb P l = true -> P a' = true -> forallb P (list_set i a' l) = true.
Proof.
  revert i. induction l as [|x l IH]; intros [|i]; simpl; auto.
  - intros H Ha. apply andb_true_iff in H as [_ H]. now rewrite Ha.
  - intros H Ha. apply andb_true_iff in H as [Hx H].
    now rewrite Hx, IH.
Qed.

Lemma forallb_others {A : Type} (P : A -> bool) (i : nat) (l : list A) :
  forallb P l = true -> forallb P (others i l) = true.
Proof.
  revert i. induction l as [|x l IH]; intros [|i]; simpl; auto.
  - intros H. now apply andb_true_iff in H as [_ H].
  - intros H. apply andb_true_iff in H as [Hx H]. now rewrite Hx, IH.
Qed.

(** [l.remove(x)] takes out one position. *)
Lemma list_remove_others (x : Profile) (l l' : list Profile) :
  list_remove x l = Ok l' -> exists j, l' = others j l.
Proof.
  revert l'. induction l as [|y l IH]; intros l'; simpl; [discriminate|].
  destruct (decide (y = x)).
  - intros [= <-]. now exists 0.
  - destruct (list_remove x l) as [r|]; [|discriminate].
    intros [= <-]. destruct (IH r eq_refl) as [j ->]. now exists (S j).
Qed.

(** *** Names that differ pairwise *)

Fixpoint distinct (l : list string) : bool :=
  match l with
  | [] => true
  | x :: rest => negb (existsb (String.eqb x) rest) && distinct rest
  end.

Lemma names_unique_distinct (ps : list Profile) :
  names_unique ps = distinct (map folded_name ps).
Proof. induction ps as [|p ps IH]; simpl; auto. now rewrite IH. Qed.

Lemma existsb_eqb_sym (x : string) (l : list string) (y : string) :
  existsb (String.eqb x) (l ++ [y])
  = existsb (String.eqb x) l || String.eqb y x.
Proof.
  rewrite existsb_app. simpl. rewrite orb_false_r.
  now rewrite (String.eqb_sym x y).
Qed.

Lemma distinct_snoc (l : list string) (y : string) :
  distinct l = true -> existsb (String.eqb y) l = false ->
  distinct (l ++ [y]) = true.
Proof.
  induction l as [|x l IH]; simpl; auto.
  intros H Hy. apply andb_true_iff in H as [Hx Hl].
  apply orb_false_iff in Hy as [Hyx Hy].
  rewrite existsb_eqb_sym, Hyx, orb_false_r, Hx. simpl. auto.
Qed.

Lemma existsb_others (x : string) (i : nat) (l : list string) :
  existsb (String.eqb x) l = false ->
  existsb (String.eqb x) (others i l) = false.
Proof.
  revert i. induction l as [|y l IH]; intros [|i]; simpl; auto.
  - intros H. now apply orb_false_iff in H as [_ H].
  - intros H. apply orb_false_iff in H as [Hy H]. now rewrite Hy, IH.
Qed.

Lemma distinct_others (i : nat) (l : list string) :
  distinct l = true -> distinct (others i l) = true.
Proof.
  revert i. induction l as [|y l IH]; intros [|i]; simpl; auto.
  - intros H. now apply andb_true_iff in H as [_ H].
  - intros H. apply andb_true_iff in H as [Hy H].
    apply negb_true_iff in Hy. now rewrite existsb_others, IH.
Qed.

Lemma existsb_list_set (x y : string) (i : nat) (l : list string) :
  existsb (String.eqb x) l = false -> String.eqb x y = false ->
  existsb (String.eqb x) (list_set i y l) = false.
Proof.
  revert i. induction l as [|z l IH]; intros [|i]; simpl; auto.
  - intros H Hy. apply orb_false_iff in H as [_ H]. now rewrite Hy.
  - intros H Hy. apply orb_false_iff in H as [Hz H]. now rewrite Hz, IH.
Qed.

(** Replacing one name by a name none of the others has. *)
Lemma distinct_list_set (i : nat) (y : string) (l : list string) :
  distinct l = true -> existsb (String.eqb y) (others i l) = false ->
  distinct (list_set i y l) = true.
Proof.
  revert i. induction l as [|z l IH]; intros [|i]; simpl; auto.
  - intros H Hy. apply andb_true_iff in H as [_ H]. now rewrite Hy.
  - intros H Hy. apply andb_true_iff in H as [Hz H].
    apply orb_false_iff in Hy as [Hyz Hy].
    apply negb_true_iff in Hz.
    rewrite existsb_list_set, IH; auto.
    now rewrite String.eqb_sym.
Qed.

(** *** Handlers that change no name *)

(** The spin box of the main window ranges over 1..16. *)
Definition tidy (self : MainWindow) : Prop :=
  minimum (memory_spinbox self) = 1%Z /\ maximum (memory_spinbox self) = 16%Z.

(** From [self0] to [self] no profile was added, removed or renamed, the
    range of the spin box stayed, and the memory allocations stayed
    within 1..16 if they were. *)
Definition keeps (self0 self : MainWindow) : Prop :=
  map name (profiles self) = map name (profiles self0)
  /\ (tidy self0 -> tidy self)
  /\ (tidy self0 -> all_memory_bounded (profiles self0) = true ->
      all_memory_bounded (profiles self) = true).

Lemma keeps_refl (self : MainWindow) : keeps self self.
Proof. unfold keeps. auto. Qed.

Lemma keeps_trans (a b c : MainWindow) : keeps a b -> keeps b c -> keeps a c.
Proof.
  intros (N1 & T1 & B1) (N2 & T2 & B2). unfold keeps.
  split; [now rewrite N2|]. split; auto.
Qed.

Lemma keeps_same (self0 self self' : MainWindow) :
  profiles self' = profiles self ->
  memory_spinbox self' = memory_spinbox self ->
  keeps self0 self -> keeps self0 self'.
Proof.
  intros Hp Hs (N & T & B). unfold keeps, tidy in *. rewrite Hp, Hs. auto.
Qed.

Lemma keeps_bind (self0 self : MainWindow) (m : M MainWindow)
    (k : MainWindow -> M MainWindow) :
  keeps self0 self ->
  ensures m (keeps self) ->
  (forall self1, keeps self0 self1 -> ensures (k self1) (keeps self0)) ->
  ensures (bind m k) (keeps self0).
Proof.
  intros H0 Hm Hk. apply (ensures_bind m k (keeps self0)); auto.
  intros w. specialize (Hm w). destruct (m w) as [[a|] ?]; auto.
  now apply (keeps_trans _ self).
Qed.

Lemma selected_profile_nth (self : MainWindow) (i : nat) (p : Profile) :
  current_selected_profile self = Some i -> selected_profile self = Some p ->
  nth_error (profiles self) i = Some p.
Proof. unfold selected_profile. now intros ->. Qed.

(** A value the spin box can show. *)
Definition field_ok (self : MainWindow) (fv : field_value) : Prop :=
  match fv with
  | Username _ => True
  | MemoryGb v => tidy self -> (1 <= v <= 16)%Z
  end.

Lemma assign_name (fv : field_value) (p : Profile) : name (assign fv p) = name p.
Proof. now destruct fv. Qed.

Lemma assign_bounded (fv : field_value) (p : Profile) :
  (match fv with MemoryGb v => (1 <= v <= 16)%Z | Username _ => True end) ->
  memory_bounded p = true -> memory_bounded (assign fv p) = true.
Proof.
  destruct fv; simpl; auto. intros [H1 H2] _. unfold memory_bounded. simpl.
  apply andb_true_iff. split; now apply Z.leb_le.
Qed.

Lemma forallb_nth {A : Type} (P : A -> bool) (l : list A) (i : nat) (a : A) :
  forallb P l = true -> nth_error l i = Some a -> P a = true.
Proof.
  intros H Hn. rewrite forallb_forall in H. apply H.
  now apply nth_error_In in Hn.
Qed.

Lemma update_profile_field_keeps (fv : field_value) (self : MainWindow) :
  field_ok self fv -> ensures (update_profile_field fv self) (keeps self).
Proof.
  intros Hok. unfold update_profile_field.
  destruct (has_selection self); cbn [negb]; [|apply ensures_ret, keeps_refl].
  destruct (current_selected_profile self) as [i|] eqn:Hi;
    [|apply ensures_ret, keeps_refl].
  destruct (selected_profile self) as [p|] eqn:Hp;
    [|apply ensures_ret, keeps_refl].
  pose proof (selected_profile_nth _ _ _ Hi Hp) as Hn.
  apply ensures_then. intros s. apply ensures_ret.
  apply (keeps_same _ (with_profiles (list_set i (assign fv p) (profiles self)) self));
    [now destruct s | now destruct s |].
  unfold keeps. cbn [profiles with_profiles].
  split; [|split; [auto|]].
  - apply (list_set_map_same _ _ p); auto. apply assign_name.
  - intros Ht Hb. unfold all_memory_bounded in *. apply forallb_list_set; auto.
    apply assign_bounded.
    + destruct fv; auto.
    + exact (forallb_nth _ _ _ _ Hb Hn).
Qed.

Lemma username_changed_keeps (t : string) (self : MainWindow) :
  ensures (username_changed t self) (keeps self).
Proof.
  unfold username_changed.
  set (self1 := set_widget "username_input" (setText t) self).
  assert (H1 : keeps self self1)
    by (apply (keeps_same _ self); auto using keeps_refl).
  destruct (_ && edits_connected self1); [|now apply ensures_ret].
  intros w. pose proof (update_profile_field_keeps (Username t) self1 I w) as H.
  destruct (update_profile_field _ _ w) as [[a|] ?]; [|exact I].
  exact (keeps_trans _ self1 _ H1 H).
Qed.

Lemma bound_range (v : Z) : (1 <= bound 1 16 v <= 16)%Z.
Proof. unfold bound. lia. Qed.

Lemma memory_changed_keeps (v : Z) (self : MainWindow) :
  ensures (memory_changed v self) (keeps self).
Proof.
  unfold memory_changed.
  set (spin := setValue v (memory_spinbox self)).
  set (self1 := with_memory_spinbox spin self).
  assert (H1 : keeps self self1).
  { unfold keeps, tidy. cbn. auto. }
  destruct (_ && edits_connected self1); [|now apply ensures_ret].
  assert (Hok : field_ok self1 (MemoryGb (value spin))).
  { intros [Hlo Hhi]. cbn in Hlo, Hhi. unfold spin, setValue. cbn [value].
    rewrite Hlo, Hhi. apply bound_range. }
  intros w. pose proof (update_profile_field_keeps _ self1 Hok w) as H.
  destruct (update_profile_field _ _ w) as [[a|] ?]; [|exact I].
  exact (keeps_trans _ self1 _ H1 H).
Qed.

Ltac pure_keeps :=
  repeat match goal with
  | H : keeps ?a ?s |- keeps ?a ?s => exact H
  | |- keeps ?s ?s => apply keeps_refl
  | |- keeps _ (set_widget _ _ ?s) =>
      apply (keeps_same _ s); [reflexivity | reflexivity | ]
  | |- keeps _ (with_current_selected_profile _ ?s) =>
      apply (keeps_same _ s); [reflexivity | reflexivity | ]
  | |- keeps _ (with_edits_connected _ ?s) =>
      apply (keeps_same _ s); [reflexivity | reflexivity | ]
  | |- keeps _ (with_combo_index _ ?s) =>
      apply (keeps_same _ s); [reflexivity | reflexivity | ]
  | |- keeps _ (with_combo_items _ ?s) =>
      apply (keeps_same _ s); [reflexivity | reflexivity | ]
  | |- keeps _ (with_last_selected_profile_name _ ?s) =>
      apply (keeps_same _ s); [reflexivity | reflexivity | ]
  | |- keeps _ (disable_profile_buttons ?s) =>
      apply (keeps_same _ s); [reflexivity | reflexivity | ]
  | |- keeps _ (enable_profile_buttons ?s) =>
      apply (keeps_same _ s); [reflexivity | reflexivity | ]
  end.

Lemma on_profile_selected_keeps (index : Z) (self : MainWindow) :
  ensures (on_profile_selected index self) (keeps self).
Proof.
  unfold on_profile_selected.
  destruct (index =? -1)%Z.
  - cbv zeta.
    apply (keeps_bind _ (with_current_selected_profile None self));
      [pure_keeps | apply username_changed_keeps | intros s1 H1].
    apply (keeps_bind _ (set_widget "username_input" (setEnabled false) s1));
      [pure_keeps | apply memory_changed_keeps | intros s2 H2].
    apply ensures_ret. pure_keeps.
  - cbv zeta.
    destruct (find_by_name (currentText self) (profiles self)) as [i|].
    + apply (keeps_bind _ (with_current_selected_profile (Some i) self));
        [pure_keeps | apply username_changed_keeps | intros s1 H1].
      apply (keeps_bind _ (set_widget "username_input" (setEnabled true) s1));
        [pure_keeps | apply memory_changed_keeps | intros s2 H2].
      destruct (version_id _) as [v|].
      * destruct (String.eqb v ""); [apply ensures_ret; pure_keeps|].
        apply ensures_then. intros f.
        destruct (exists_path f _); apply ensures_ret; pure_keeps.
      * apply ensures_ret. pure_keeps.
    + apply ensures_then. intros _. apply ensures_ret. pure_keeps.
Qed.

Lemma update_profile_list_keeps (self : MainWindow) :
  ensures (update_profile_list self) (keeps self).
Proof.
  unfold update_profile_list. cbv zeta.
  set (self1 := with_combo_items _ self).
  assert (H1 : keeps self self1) by (unfold self1; pure_keeps).
  change (profiles self1) with (profiles self).
  destruct (profiles self) eqn:E; intros w;
    match goal with
    | |- match on_profile_selected ?i ?s w with _ => _ end =>
        pose proof (on_profile_selected_keeps i s w) as H;
        destruct (on_profile_selected i s w) as [[a|] ?]; [|exact I];
        refine (keeps_trans _ s _ _ H)
    end; pure_keeps.
Qed.

(** *** The dialog *)

(** The spin box of the dialog ranges over 1..16 and shows a value in
    that range. *)
Definition spin_ok (sb : QSpinBox) : Prop :=
  minimum sb = 1%Z /\ maximum sb = 16%Z /\ (1 <= value sb <= 16)%Z.

Lemma spin_ok_setValue (v : Z) (sb : QSpinBox) : spin_ok sb -> spin_ok (setValue v sb).
Proof.
  intros (Hlo & Hhi & _). unfold spin_ok, setValue. cbn.
  rewrite Hlo, Hhi. repeat split; auto; apply bound_range.
Qed.

Lemma spin_ok_initial : spin_ok (setRange 1 16 new_spinbox).
Proof.
  unfold spin_ok. split; [reflexivity|]. split; [reflexivity|].
  change (1 <= 1 <= 16)%Z. lia.
Qed.

Lemma dialog_init_spin (existing : option Profile) (selectable : bool) :
  spin_ok (Dialog.memory_spinbox (Dialog.init existing selectable)).
Proof.
  unfold Dialog.init. destruct existing as [p|]; [|apply spin_ok_initial].
  destruct (profile_truthy p); cbn; [|apply spin_ok_initial].
  apply spin_ok_setValue, spin_ok_initial.
Qed.

(** What [get_profile_data] returns when it returns data: a name that is
    not empty, a version, a user name, and the value of the spin box. *)
Definition valid_data (d : Dialog.ProfileDialog) (p : Profile) : Prop :=
  name p = Some (strip (Dialog.name_input d))
  /\ strip (Dialog.name_input d) <> ""
  /\ memory_gb p = Some (value (Dialog.memory_spinbox d)).

Lemma get_profile_data_valid (d : Dialog.ProfileDialog) :
  ensures (Dialog.get_profile_data d)
          (fun r => forall p, r = Some p -> valid_data d p).
Proof.
  unfold Dialog.get_profile_data. cbv zeta.
  destruct (String.eqb (strip (Dialog.name_input d)) "") eqn:E.
  { apply ensures_then. intros _. apply ensures_ret. discriminate. }
  apply String.eqb_neq in E.
  destruct (Dialog.version_combo d) as [v|].
  - destruct (String.eqb v "").
    + apply ensures_then. intros _. apply ensures_ret. discriminate.
    + apply ensures_ret. intros p [= <-]. unfold valid_data. cbn. auto.
  - apply ensures_then. intros _. apply ensures_ret. discriminate.
Qed.

Lemma dialog_exec_spin (script : list Dialog.action) (d : Dialog.ProfileDialog) :
  spin_ok (Dialog.memory_spinbox d) ->
  ensures (Dialog.exec d script)
          (fun r => spin_ok (Dialog.memory_spinbox (fst r))).
Proof.
  revert d. induction script as [|a script IH]; intros d Hd.
  - now apply ensures_ret.
  - destruct a; cbn [Dialog.exec]; try (apply IH; exact Hd).
    + apply IH. cbn. now apply spin_ok_setValue.
    + apply ensures_then. intros [p|]; [now apply ensures_ret | now apply IH].
    + now apply ensures_ret.
Qed.

Lemma valid_data_bounded (d : Dialog.ProfileDialog) (p : Profile) :
  spin_ok (Dialog.memory_spinbox d) -> valid_data d p -> memory_bounded p = true.
Proof.
  intros (_ & _ & Hv) (_ & _ & Hm). unfold memory_bounded. rewrite Hm.
  apply andb_true_iff. split; apply Z.leb_le; lia.
Qed.

(** *** Handlers that change the list *)

Definition bounded (self : MainWindow) : Prop :=
  all_memory_bounded (profiles self) = true.

(** From [self0] to [self] the names stayed distinct if they were, the
    range of the spin box stayed, and the memory allocations stayed
    within 1..16 if they were. *)
Definition sound (self0 self : MainWindow) : Prop :=
  (names_unique (profiles self0) = true -> names_unique (profiles self) = true)
  /\ (tidy self0 -> tidy self)
  /\ (tidy self0 -> bounded self0 -> bounded self).

Lemma sound_refl (self : MainWindow) : sound self self.
Proof. unfold sound. auto. Qed.

Lemma sound_trans (a b c : MainWindow) : sound a b -> sound b c -> sound a c.
Proof.
  intros (N1 & T1 & B1) (N2 & T2 & B2). unfold sound.
  split; [auto|]. split; auto.
Qed.

Lemma folded_names_of_names (ps ps' : list Profile) :
  map name ps' = map name ps -> map folded_name ps' = map folded_name ps.
Proof.
  intros H. unfold folded_name.
  change (fun p => lower (get_or (name p) "")) with
    (fun p : Profile => (fun n => lower (get_or n "")) (name p)).
  rewrite <- !(map_map name (fun n => lower (get_or n ""))). now rewrite H.
Qed.

Lemma keeps_sound (self0 self : MainWindow) : keeps self0 self -> sound self0 self.
Proof.
  intros (N & T & B). unfold sound. split; [|auto].
  rewrite !names_unique_distinct. now rewrite (folded_names_of_names _ _ N).
Qed.

(** A handler that changes the list soundly and then refreshes the
    combo box. *)
Lemma sound_then_refresh (self self1 : MainWindow) :
  sound self self1 -> ensures (update_profile_list self1) (sound self).
Proof.
  intros H w. pose proof (update_profile_list_keeps self1 w) as Hk.
  destruct (update_profile_list self1 w) as [[a|] ?]; [|exact I].
  apply (sound_trans _ self1); auto. now apply keeps_sound.
Qed.

Lemma ensures_weaken {A : Type} (m : M A) (Q R : A -> Prop) :
  (forall a, Q a -> R a) -> ensures m Q -> ensures m R.
Proof.
  intros H Hm w. specialize (Hm w). destruct (m w) as [[a|] ?]; auto.
Qed.

Lemma forallb_snoc {A : Type} (P : A -> bool) (l : list A) (a : A) :
  forallb P l = true -> P a = true -> forallb P (l ++ [a]) = true.
Proof. intros Hl Ha. rewrite forallb_app, Hl. simpl. now rewrite Ha. Qed.

Lemma sound_same (self self' : MainWindow) :
  profiles self' = profiles self ->
  memory_spinbox self' = memory_spinbox self ->
  sound self self'.
Proof.
  intros Hp Hs. unfold sound, bounded, tidy. rewrite Hp, Hs. auto.
Qed.

Lemma add_profile_sound (script : list Dialog.action) (self : MainWindow) :
  ensures (add_profile script self) (sound self).
Proof.
  unfold add_profile.
  apply (ensures_bind _ _ _ _ (dialog_exec_spin script _ (dialog_init_spin None false))).
  intros [dialog accepted] Hspin. cbn [fst] in Hspin.
  destruct accepted; [|apply ensures_ret, sound_refl].
  apply (ensures_bind _ _ _ _ (get_profile_data_valid dialog)).
  intros [p|] Hvalid; [|apply ensures_ret, sound_refl].
  specialize (Hvalid p eq_refl).
  destruct (name_taken _ (profiles self)) eqn:Htaken.
  { apply ensures_then. intros _. apply ensures_ret, sound_refl. }
  cbv zeta. apply sound_then_refresh.
  unfold sound, bounded, tidy. cbn [profiles memory_spinbox with_profiles
    with_last_selected_profile_name].
  split; [|split; [auto|]].
  - rewrite !names_unique_distinct, map_app. cbn [map].
    intros Hu. now apply distinct_snoc.
  - intros _ Hb. unfold all_memory_bounded in *. apply forallb_snoc; auto.
    now apply (valid_data_bounded dialog).
Qed.

Lemma edit_profile_sound (selectable : bool) (script : list Dialog.action)
    (self : MainWindow) :
  ensures (edit_profile selectable script self) (sound self).
Proof.
  unfold edit_profile.
  destruct (has_selection self); cbn [negb]; [|apply ensures_ret, sound_refl].
  destruct (current_selected_profile self) as [i|] eqn:Hi;
    [|apply ensures_ret, sound_refl].
  destruct (selected_profile self) as [current|] eqn:Hp;
    [|apply ensures_ret, sound_refl].
  pose proof (selected_profile_nth _ _ _ Hi Hp) as Hn.
  cbv zeta.
  apply (ensures_bind _ _ _ _
           (dialog_exec_spin script _ (dialog_init_spin (Some current) selectable))).
  intros [dialog accepted] Hspin. cbn [fst] in Hspin.
  destruct accepted; [|apply ensures_ret, sound_refl].
  apply (ensures_bind _ _ _ _ (get_profile_data_valid dialog)).
  intros [p|] Hvalid; [|apply ensures_ret, sound_refl].
  specialize (Hvalid p eq_refl).
  destruct (name current) as [original|] eqn:Horig; [|apply ensures_raise].
  destruct (negb _ && name_taken _ _) eqn:Hcheck.
  { apply ensures_then. intros _. apply ensures_ret, sound_refl. }
  apply sound_then_refresh.
  unfold sound, bounded, tidy. cbn [profiles memory_spinbox with_profiles
    with_last_selected_profile_name].
  split; [|split; [auto|]].
  - rewrite !names_unique_distinct. intros Hu.
    apply andb_false_iff in Hcheck as [Hsame|Hfree].
    + apply negb_false_iff, String.eqb_eq in Hsame.
      rewrite (list_set_map_same folded_name i current); auto.
      unfold folded_name. rewrite Horig. exact Hsame.
    + rewrite list_set_map. apply distinct_list_set; auto.
      unfold name_taken in Hfree. now rewrite others_map in Hfree.
  - intros _ Hb. unfold all_memory_bounded in *. apply forallb_list_set; auto.
    now apply (valid_data_bounded dialog).
Qed.

Lemma delete_profile_sound (confirmed : bool) (self : MainWindow) :
  ensures (delete_profile confirmed self) (sound self).
Proof.
  unfold delete_profile.
  destruct (has_selection self); cbn [negb]; [|apply ensures_ret, sound_refl].
  destruct (selected_profile self) as [current|];
    [|apply ensures_ret, sound_refl].
  apply ensures_then. intros _.
  destruct confirmed; [|apply ensures_ret, sound_refl].
  apply ensures_then. intros _.
  unfold lift.
  destruct (list_remove current (profiles self)) as [remaining|e] eqn:Hrm.
  2:{ intros w. unfold bind. exact I. }
  destruct (list_remove_others _ _ _ Hrm) as [j ->].
  apply (ensures_bind _ _ (fun r => r = others j (profiles self)));
    [now apply ensures_ret|].
  intros ? ->. cbv zeta.
  set (self1 := with_last_selected_profile_name None _).
  assert (H1 : sound self self1).
  { unfold sound, bounded, tidy, self1. cbn.
    split; [|split; [auto|]].
    - rewrite !names_unique_distinct, others_map. apply distinct_others.
    - intros _. apply forallb_others. }
  apply (ensures_bind _ _ (sound self)); [now apply sound_then_refresh|].
  intros self2 H2 w.
  pose proof (on_profile_selected_keeps (combo_index self2) self2 w) as Hk.
  destruct (on_profile_selected _ _ w) as [[a|] ?]; [|exact I].
  apply (sound_trans _ self2); auto. now apply keeps_sound.
Qed.

Lemma store_settings_same (s : json) (self : MainWindow) :
  profiles (store_settings s self) = profiles self
  /\ memory_spinbox (store_settings s self) = memory_spinbox self.
Proof. now destruct s. Qed.

Lemma closeEvent_sound (self : MainWindow) :
  ensures (closeEvent self) (fun r => sound self (fst r)).
Proof.
  unfold closeEvent. cbv zeta.
  apply ensures_then. intros s1. apply ensures_then. intros s2.
  apply ensures_then. intros s3. apply ensures_ret. cbn [fst].
  apply sound_same; apply store_settings_same.
Qed.

(** Every handler is sound. *)
Lemma handle_sound (ev : event) (self : MainWindow) :
  ensures (handle ev self) (sound self).
Proof.
  destruct ev; cbn [handle].
  - destruct (enabled _); [apply add_profile_sound | apply ensures_ret, sound_refl].
  - destruct (enabled _); [apply edit_profile_sound | apply ensures_ret, sound_refl].
  - destruct (enabled _); [apply delete_profile_sound | apply ensures_ret, sound_refl].
  - destruct (_ && _); [|apply ensures_ret, sound_refl].
    apply (ensures_weaken _ (keeps (with_combo_index (Z.of_nat index) self)));
      [|apply on_profile_selected_keeps].
    intros a Ha. apply keeps_sound.
    apply (keeps_trans _ (with_combo_index (Z.of_nat index) self)); auto.
    pure_keeps.
  - destruct (enabled _); [|apply ensures_ret, sound_refl].
    apply (ensures_weaken _ (keeps self)); [apply keeps_sound|].
    apply username_changed_keeps.
  - destruct (enabled _); [|apply ensures_ret, sound_refl].
    apply (ensures_weaken _ (keeps self)); [apply keeps_sound|].
    apply memory_changed_keeps.
  - apply (ensures_bind _ _ _ _ (closeEvent_sound self)).
    intros r Hr. now apply ensures_ret.
Qed.

Lemma dispatch_sound (ev : event) (self : MainWindow) (w : World) :
  sound self (fst (dispatch ev self w)).
Proof.
  unfold dispatch. pose proof (handle_sound ev self w) as H.
  destruct (handle ev self w) as [[a|e] w']; cbn [fst]; auto using sound_refl.
Qed.

Lemma reaches_sound (self0 self : MainWindow) (w0 w : World) :
  reaches self0 w0 self w -> sound self0 self.
Proof.
  induction 1 as [|ev self w _ IH]; [apply sound_refl|].
  apply (sound_trans _ self); auto. apply dispatch_sound.
Qed.

(** *** Construction *)

Lemma init_tidy :
  ensures Window.init (fun r => forall self, r = Some self -> tidy self).
Proof.
  unfold Window.init. apply ensures_then. intros s.
  destruct (read_settings s) as [[[dir ps] last]|];
    [|apply ensures_ret; discriminate].
  cbv zeta.
  set (self0 := mkWindow _ _ _ _ _ _ _ _ _ _ _ _).
  assert (H0 : tidy self0) by (split; reflexivity).
  apply (ensures_bind _ _ _ _ (update_profile_list_keeps self0)).
  intros self1 (_ & T & _). apply ensures_ret. intros self [= <-]. auto.
Qed.

(** The profiles [__init__] starts with are the profiles of the file. *)
Lemma init_profiles :
  ensures Window.init
    (fun r => forall self, r = Some self ->
       exists s dir ps last, read_settings s = Some (dir, ps, last)
                             /\ map name (profiles self) = map name ps).
Proof.
  unfold Window.init. apply ensures_then. intros s.
  destruct (read_settings s) as [[[dir ps] last]|] eqn:E;
    [|apply ensures_ret; discriminate].
  cbv zeta.
  set (self0 := mkWindow _ _ _ _ _ _ _ _ _ _ _ _).
  apply (ensures_bind _ _ _ _ (update_profile_list_keeps self0)).
  intros self1 (N & _ & _). apply ensures_ret. intros self [= <-].
  exists s, dir, ps, last. auto.
Qed.

(** *** The claims about the profile list *)

Lemma started_init (w : World) (self : MainWindow) (w' : World) :
  started w = Some (self, w') -> Window.init w = (Ok (Some self), w').
Proof.
  unfold started. destruct (Window.init w) as [[[s|]|] w1]; try discriminate.
  now intros [= -> ->].
Qed.


Definition add_alex : event :=
  Add [Dialog.TypeName "Alex"; Dialog.ChooseVersion "1.20.1"; Dialog.PressSave].





Definition set_memory_99 : event := SetMemory 99.



(** *** Saving *)

(** The settings file can be opened for writing. *)
Definition can_write (f : FS) : bool :=
  writable f SETTINGS_FILE && negb (is_dir f SETTINGS_FILE).

(** What a call of [save_settings] on [v] makes of the world: the file
    holds [v] and nothing else changed, or, when the file cannot be
    written, the file system is as it was and the error is printed. *)
Definition after_save (v : json) (w : World) : World :=
  if can_write (fs w)
  then mkWorld (with_nodes (fs w) (<[SETTINGS_FILE := File (Json v)]> (nodes (fs w))))
               (printed w) (boxes w)
  else mkWorld (fs w)
               (printed w ++ ["Error saving settings: "
                              +:+ exn_name (if is_dir (fs w) SETTINGS_FILE
                                            then IsADirectoryError
                                            else PermissionError)])
               (boxes w).

Lemma save_settings_run (d : dict) (ps : list json) (w : World) :
  dict_lookup "profiles" d = Some (JArr ps) ->
  save_settings (JObj d) w = (Ok (JObj d), after_save (JObj d) w).
Proof.
  intros Hps. unfold save_settings.
  erewrite bind_ok by apply reset_profiles_object.
  assert (Hd : with_profiles_list d = d)
    by (unfold with_profiles_list; now rewrite Hps).
  rewrite Hd. unfold after_save, can_write, is_dir, bind, try_except, fs_update,
    write_file, print, ret.
  change (has_nul SETTINGS_FILE) with false. cbv iota.
  destruct (nodes (fs w) !! SETTINGS_FILE) as [[|c]|];
    destruct (writable (fs w) SETTINGS_FILE); reflexivity.
Qed.

(** The name [closeEvent] stores as last selected. *)
Definition last_selected (self : MainWindow) : json :=
  match selected_profile self with
  | Some p =>
      if profile_truthy p
      then match name p with Some n => JStr n | None => JNull end
      else JNull
  | None => JNull
  end.

(** The object [closeEvent] saves. *)
Definition closing_settings (self : MainWindow) : dict :=
  match settings_object self with
  | JObj d =>
      dict_set "profiles" (JArr (map encode (profiles self)))
        (dict_set "last_selected_profile" (last_selected self) d)
  | _ => settings self
  end.


Lemma closeEvent_run (self : MainWindow) (w : World) :
  closeEvent self w
  = (Ok (with_settings (closing_settings self) self, true),
     after_save (JObj (closing_settings self)) w).
Proof.
  unfold closeEvent. cbv zeta.
  assert (Hlast : (if has_selection self
                   then match selected_profile self with
                        | Some p => match name p with
                                    | Some n => JStr n
                                    | None => JNull
                                    end
                        | None => JNull
                        end
                   else JNull) = last_selected self).
  { unfold has_selection, last_selected.
    destruct (selected_profile self) as [p|]; auto. }
  rewrite Hlast. unfold settings_object.
  unfold bind at 1. unfold lift at 1. cbn [py_setitem].
  unfold bind at 1. unfold lift at 1. cbn [py_setitem].
  erewrite bind_ok
    by (eapply save_settings_run; apply dict_lookup_set_eq).
  reflexivity.
Qed.



(** *** The fields of the selected profile can be edited *)

Lemma widget_of_set_eq (k : string) (f : widget -> widget) (self : MainWindow) :
  widget_of k (set_widget k f self) = f (widget_of k self).
Proof.
  unfold widget_of at 1, set_widget. cbn [widgets with_widgets].
  now rewrite lookup_insert_eq.
Qed.

Lemma widget_of_set_ne (k k' : string) (f : widget -> widget) (self : MainWindow) :
  k <> k' -> widget_of k' (set_widget k f self) = widget_of k' self.
Proof.
  intros Hk. unfold widget_of, set_widget. cbn [widgets with_widgets].
  now rewrite lookup_insert_ne.
Qed.

(** What decides whether an edit of the two fields reaches the
    profile: the selection, the connection of the signals, and whether
    the two widgets take input. *)
Definition wiring (self : MainWindow) : option nat * bool * bool * bool :=
  (current_selected_profile self, edits_connected self,
   enabled (widget_of "username_input" self),
   enabled (widget_of "memory_spinbox" self)).






Lemma wiring_set_widget (k : string) (f : widget -> widget) (self : MainWindow) :
  (forall x, enabled (f x) = enabled x) ->
  wiring (set_widget k f self) = wiring self.
Proof.
  intros Hf.
  assert (H : forall k', enabled (widget_of k' (set_widget k f self))
                         = enabled (widget_of k' self)).
  { intros k'. destruct (decide (k = k')) as [<-|Hk].
    - now rewrite widget_of_set_eq.
    - now rewrite widget_of_set_ne. }
  unfold wiring. now rewrite !H.
Qed.

Lemma wiring_set_other (k : string) (f : widget -> widget) (self : MainWindow) :
  k <> "username_input" -> k <> "memory_spinbox" ->
  wiring (set_widget k f self) = wiring self.
Proof.
  intros H1 H2. unfold wiring. now rewrite !(widget_of_set_ne k) by auto.
Qed.

Lemma wiring_profile_buttons (self : MainWindow) :
  wiring (enable_profile_buttons self) = wiring self
  /\ wiring (disable_profile_buttons self) = wiring self.
Proof.
  unfold enable_profile_buttons, disable_profile_buttons.
  now rewrite !wiring_set_other by discriminate.
Qed.

Lemma widget_of_connected (k : string) (b : bool) (self : MainWindow) :
  widget_of k (with_edits_connected b self) = widget_of k self.
Proof. reflexivity. Qed.











(** *** The claim about saving *)










End WindowFacts.

(* ===================================================================== *)
(** ** Facts about starting an installation *)
(* ===================================================================== *)

Module InstallationFacts.
Import Py PyFacts OS Eff Eff.Notations Settings SettingsFacts Qt Profiles Window WindowFacts.
Import Install(QThread, mkQThread, isRunning, phase_of, Installing, Signalled, Returned).
Import Offline.

(** *** One installation at a time *)

(** The thread [install_thread] refers to is running. *)
Definition busy (self : MainWindow) (pool : list QThread) : bool :=
  match install_thread self with
  | Some t =>
      match nth_error pool t with
      | Some th => isRunning th
      | None => false
      end
  | None => false
  end.

(** How many threads are running. *)
Definition running (pool : list QThread) : nat :=
  length (List.filter isRunning pool).

(** Only the thread the window refers to is running. *)
Definition exclusive (s : session) : Prop :=
  forall t th, nth_error (snd s) t = Some th -> isRunning th = true ->
               install_thread (fst s) = Some t.

Lemma running_at_one_place (pool : list QThread) (o : option nat) :
  (forall t th, nth_error pool t = Some th -> isRunning th = true -> o = Some t) ->
  running pool <= 1.
Proof.
  unfold running. revert o. induction pool as [|a pool IH]; intros o H; simpl; [lia|].
  destruct (isRunning a) eqn:Ha.
  - pose proof (H 0 a eq_refl Ha) as ->.
    assert (Hnone : List.filter isRunning pool = []).
    { destruct (List.filter isRunning pool) as [|b rest] eqn:E; auto.
      assert (Hb : In b (List.filter isRunning pool)) by (rewrite E; now left).
      apply filter_In in Hb as [Hin Hrun].
      apply In_nth_error in Hin as [i Hi].
      now pose proof (H (S i) b Hi Hrun). }
    rewrite Hnone. simpl. lia.
  - apply (IH (match o with Some (S t) => Some t | _ => None end)).
    intros t th Ht Hrun. now rewrite (H (S t) th Ht Hrun).
Qed.

Lemma exclusive_running (s : session) : exclusive s -> running (snd s) <= 1.
Proof. intros H. exact (running_at_one_place _ _ H). Qed.

Lemma start_installation_busy (process_events : pending) (profile : Profile)
    (pool : list QThread) (self : MainWindow) (w : World) :
  busy self pool = true ->
  start_installation_for_profile process_events profile pool self w
  = (Ok (self, pool),
     mkWorld (fs w) (printed w)
       (boxes w ++ [mkBox Warning "Busy"
                      "Another installation is already in progress."])).
Proof.
  intros Hb. unfold start_installation_for_profile. fold (busy self pool).
  now rewrite Hb.
Qed.

Lemma start_installation_quiet (profile : Profile) (pool : list QThread)
    (self : MainWindow) :
  exclusive (self, pool) ->
  ensures (start_installation_for_profile quiet profile pool self) exclusive.
Proof.
  intros He. unfold start_installation_for_profile. fold (busy self pool).
  destruct (busy self pool) eqn:Hb.
  { apply ensures_then. intros _. now apply ensures_ret. }
  assert (Hidle : forall t th, nth_error pool t = Some th -> isRunning th = false).
  { intros t th Ht. destruct (isRunning th) eqn:Hr; auto.
    pose proof (He t th Ht Hr) as Hi. cbn [fst] in Hi.
    unfold busy in Hb. now rewrite Hi, Ht, Hr in Hb. }
  cbv zeta.
  destruct (version_id profile) as [v|];
    [|apply ensures_then; intros _; now apply ensures_ret].
  destruct (String.eqb v "");
    [apply ensures_then; intros _; now apply ensures_ret|].
  apply ensures_then. intros _. unfold quiet.
  intros w. unfold bind, ret.
  intros t th Ht Hr. cbn [fst snd] in *.
  destruct (Nat.lt_ge_cases t (length pool)) as [Hlt|Hge].
  - rewrite nth_error_app1 in Ht by auto. now rewrite (Hidle t th Ht) in Hr.
  - assert (t = length pool).
    { match type of Ht with
      | nth_error ?l _ = _ =>
          assert (Hlen : t < length l) by (apply nth_error_Some; congruence)
      end.
      rewrite length_app in Hlen. simpl in Hlen. lia. }
    now subst t.
Qed.

(** The handlers of the user's events leave [install_thread] alone. *)
Definition same_thread (self r : MainWindow) : Prop :=
  install_thread r = install_thread self.

Lemma update_profile_field_thread (fv : field_value) (self : MainWindow) :
  ensures (update_profile_field fv self) (same_thread self).
Proof.
  unfold update_profile_field, same_thread.
  destruct (has_selection self); cbn [negb]; [|now apply ensures_ret].
  destruct (current_selected_profile self) as [i|]; [|now apply ensures_ret].
  destruct (selected_profile self) as [p|]; [|now apply ensures_ret].
  apply ensures_then. intros s. apply ensures_ret. now destruct s.
Qed.

Lemma username_changed_thread (t : string) (self : MainWindow) :
  ensures (username_changed t self) (same_thread self).
Proof.
  unfold username_changed. cbv zeta.
  destruct (_ && _); [|now apply ensures_ret].
  exact (update_profile_field_thread _ _).
Qed.

Lemma memory_changed_thread (v : Z) (self : MainWindow) :
  ensures (memory_changed v self) (same_thread self).
Proof.
  unfold memory_changed. cbv zeta.
  destruct (_ && _); [|now apply ensures_ret].
  exact (update_profile_field_thread _ _).
Qed.

Lemma on_profile_selected_thread (index : Z) (self : MainWindow) :
  ensures (on_profile_selected index self) (same_thread self).
Proof.
  unfold on_profile_selected, same_thread.
  destruct (index =? -1)%Z.
  - cbv zeta.
    apply (ensures_bind _ _ _ _ (username_changed_thread _ _)). intros s1 H1.
    apply (ensures_bind _ _ _ _ (memory_changed_thread _ _)). intros s2 H2.
    apply ensures_ret. unfold same_thread in *.
    change (install_thread s2 = install_thread self).
    rewrite H2. exact H1.
  - cbv zeta.
    destruct (find_by_name (currentText self) (profiles self)) as [i|].
    + apply (ensures_bind _ _ _ _ (username_changed_thread _ _)). intros s1 H1.
      apply (ensures_bind _ _ _ _ (memory_changed_thread _ _)). intros s2 H2.
      unfold same_thread in *.
      assert (H : install_thread s2 = install_thread self)
        by (rewrite H2; exact H1).
      destruct (version_id _) as [v|].
      * destruct (String.eqb v ""); [apply ensures_ret; exact H|].
        apply ensures_then. intros f.
        destruct (exists_path f _); apply ensures_ret; exact H.
      * apply ensures_ret. exact H.
    + apply ensures_then. intros _. now apply ensures_ret.
Qed.

Lemma update_profile_list_thread (self : MainWindow) :
  ensures (update_profile_list self) (same_thread self).
Proof.
  unfold update_profile_list. cbv zeta.
  destruct (profiles _);
    exact (on_profile_selected_thread _ _).
Qed.

Lemma handle_thread (ev : event) (self : MainWindow) :
  ensures (handle ev self) (same_thread self).
Proof.
  destruct ev; cbn [handle].
  - destruct (enabled _); [|now apply ensures_ret]. unfold add_profile.
    apply ensures_then. intros [dialog accepted].
    destruct accepted; [|now apply ensures_ret].
    apply ensures_then. intros [p|]; [|now apply ensures_ret].
    destruct (name_taken _ _).
    + apply ensures_then. intros _. now apply ensures_ret.
    + exact (update_profile_list_thread _).
  - destruct (enabled _); [|now apply ensures_ret]. unfold edit_profile.
    destruct (has_selection self); cbn [negb]; [|now apply ensures_ret].
    destruct (current_selected_profile self) as [i|]; [|now apply ensures_ret].
    destruct (selected_profile self) as [current|]; [|now apply ensures_ret].
    cbv zeta. apply ensures_then. intros [dialog accepted].
    destruct accepted; [|now apply ensures_ret].
    apply ensures_then. intros [p|]; [|now apply ensures_ret].
    destruct (name current); [|apply ensures_raise].
    destruct (_ && _).
    + apply ensures_then. intros _. now apply ensures_ret.
    + exact (update_profile_list_thread _).
  - destruct (enabled _); [|now apply ensures_ret]. unfold delete_profile.
    destruct (has_selection self); cbn [negb]; [|now apply ensures_ret].
    destruct (selected_profile self) as [current|]; [|now apply ensures_ret].
    apply ensures_then. intros _.
    destruct confirmed; [|now apply ensures_ret].
    apply ensures_then. intros _. apply ensures_then. intros remaining.
    cbv zeta.
    apply (ensures_bind _ _ _ _ (update_profile_list_thread _)). intros s1 H1.
    apply (ensures_weaken _ (same_thread s1));
      [|apply on_profile_selected_thread].
    intros r Hr. unfold same_thread in *. rewrite Hr. exact H1.
  - destruct (_ && _); [|now apply ensures_ret].
    exact (on_profile_selected_thread _ _).
  - destruct (enabled _); [apply username_changed_thread | now apply ensures_ret].
  - destruct (enabled _); [apply memory_changed_thread | now apply ensures_ret].
  - intros w. unfold bind. rewrite closeEvent_run. reflexivity.
Qed.

Lemma on_install_finished_thread (success : bool) (message : string)
    (self : MainWindow) :
  ensures (on_install_finished success message self)
          (fun r => install_thread r = None).
Proof.
  unfold on_install_finished. cbv zeta. destruct success.
  - apply ensures_then. intros _. now apply ensures_ret.
  - apply ensures_then. intros _.
    destruct (has_selection _); now apply ensures_ret.
Qed.

(** C10: [start_installation_for_profile] refuses, with the 'Busy'
    warning and the state unchanged, when the thread the window refers
    to is running; the handlers of the user's events leave the reference
    as it is and [on_install_finished] clears it; and a start with no
    event pending at its [processEvents()] keeps the thread referred to
    the only one running.  All the same two installations can run at
    once: the reference is set after [processEvents()], so a click on
    [fix_version_button] that is pending there passes the test, starts a
    thread, and the call it interrupted starts a second one. *)
Theorem installations_not_exclusive :
  (forall process_events profile pool self w,
     busy self pool = true ->
     start_installation_for_profile process_events profile pool self w
     = (Ok (self, pool),
        mkWorld (fs w) (printed w)
          (boxes w ++ [mkBox Warning "Busy"
                         "Another installation is already in progress."])))
  /\ (forall ev self,
        ensures (handle ev self) (fun r => install_thread r = install_thread self))
  /\ (forall success message self,
        ensures (on_install_finished success message self)
                (fun r => install_thread r = None))
  /\ (forall profile pool self,
        exclusive (self, pool) ->
        ensures (start_installation_for_profile quiet profile pool self)
                (fun s => exclusive s /\ running (snd s) <= 1))
  /\ (exists self0 w0 p self' pool w',
        started world_one_profile = Some (self0, w0)
        /\ selected_profile self0 = Some p
        /\ install_thread self0 = None
        /\ enabled (widget_of "fix_version_button" self0) = true
        /\ start_installation_for_profile (click_fix_version true quiet) p [] self0 w0
           = (Ok (self', pool), w')
        /\ map phase_of pool = [Installing; Installing]
        /\ running pool = 2
        /\ install_thread self' = Some 1).
Proof.
  split; [exact start_installation_busy|].
  split; [exact handle_thread|].
  split; [exact on_install_finished_thread|].
  split.
  - intros profile pool self He.
    apply (ensures_weaken _ exclusive); [|now apply start_installation_quiet].
    intros s Hs. split; auto. now apply exclusive_running.
  - eexists _, _, _, _, _, _.
    split; [vm_compute; reflexivity|].
    split; [reflexivity|]. split; [reflexivity|]. split; [reflexivity|].
    split; [vm_compute; reflexivity|].
    repeat split.
Qed.

End InstallationFacts.

(* ===================================================================== *)
(** ** The signals of the thread in the window *)
(* ===================================================================== *)

Module Signals.
Import Py Eff Eff.Notations Window.




End Signals.

(* ===================================================================== *)
(** ** Launching *)
(* ===================================================================== *)

Module Launch.
Import Py OS Eff Eff.Notations Qt Profiles Window.
Import Install(QThread).

(** [str(n)] of an [int], as an f-string formats it. *)
Definition str_of_int (z : Z) : string :=
  DecimalString.NilZero.string_of_int (Z.to_int z).

(** The [options] dictionary handed to the library. *)
Record options : Type := mkOptions {
  option_username : string;
  option_uuid : string;
  option_token : string;
  jvmArguments : list string;
  customLaunchOptions : list (string * string)
}.

(** A call out of the program: it returns a value, or raises an
    exception that derives from [Exception] and has the text [str(e)]. *)
Inductive attempt (A : Type) : Type :=
| Done (a : A)
| Failed (text : string).
Arguments Done {A} a.
Arguments Failed {A} text.

(** What lies outside the program when it launches: the value of
    [uuid.uuid4()], the library's [get_minecraft_command(version,
    minecraft_directory, options)], and [subprocess.Popen(command)]. *)
Record environment : Type := mkEnvironment {
  uuid4 : string;
  get_minecraft_command : string -> string -> options -> attempt (list string);
  Popen : list string -> attempt unit
}.



(** The options of a launch of [profile]. *)
Definition launch_options (env : environment) (profile : Profile) : options :=
  let username := get_or (username profile) "Player" in
  let memory_gb := get_memory_or profile 2 in
  mkOptions username (uuid4 env) ""
    ["-Xmx" +:+ str_of_int memory_gb +:+ "G";
     "-Xms" +:+ str_of_int memory_gb +:+ "G"]
    [("--quickPlayMultiplayer", ""); ("--quickPlayRealms", "");
     ("--demo", ""); ("--skipMultiplayerWarning", "")].




End Launch.

(* ===================================================================== *)
(** ** Facts about saving and loading *)
(* ===================================================================== *)

Module StoreFacts.
Import Py PyFacts OS Eff Eff.Notations Settings SettingsFacts.
Import WindowFacts(can_write, after_save, ensures).

(** *** What the loader does to the file system *)

(** From [f] to [f'] nothing was written, removed or replaced: some
    directories that did not exist were created, and that is all. *)
Definition grows (f f' : FS) : Prop :=
  readable f' = readable f /\ writable f' = writable f
  /\ creatable f' = creatable f /\ fds f' = fds f /\ cwd f' = cwd f
  /\ forall p, nodes f' !! p = nodes f !! p
               \/ (nodes f !! p = None /\ nodes f' !! p = Some Dir).

(** A computation that at most creates directories. *)
Definition creates_only {A : Type} (m : M A) : Prop :=
  forall w, grows (fs w) (fs (snd (m w))).

Lemma grows_refl (f : FS) : grows f f.
Proof. unfold grows. repeat split; auto. Qed.

Lemma grows_trans (a b c : FS) : grows a b -> grows b c -> grows a c.
Proof.
  intros (A1 & A2 & A3 & A4 & A5 & A6) (B1 & B2 & B3 & B4 & B5 & B6).
  unfold grows. repeat split; try congruence.
  intros p. destruct (A6 p) as [Ha|[Ha Ha']], (B6 p) as [Hb|[Hb Hb']].
  - left. congruence.
  - right. split; congruence.
  - right. split; congruence.
  - congruence.
Qed.

Lemma creates_only_same {A : Type} (m : M A) :
  (forall w, fs (snd (m w)) = fs w) -> creates_only m.
Proof. intros H w. rewrite H. apply grows_refl. Qed.

Lemma creates_only_bind {A B : Type} (m : M A) (k : A -> M B) :
  creates_only m -> (forall a, creates_only (k a)) -> creates_only (bind m k).
Proof.
  intros Hm Hk w. unfold bind. specialize (Hm w).
  destruct (m w) as [[a|e] w1]; cbn [snd] in *; auto.
  apply (grows_trans _ (fs w1)); auto. apply Hk.
Qed.

Lemma creates_only_try {A : Type} (body : M A) (c : exn -> bool)
    (h : exn -> M A) :
  creates_only body -> (forall e, creates_only (h e)) ->
  creates_only (try_except body c h).
Proof.
  intros Hb Hh w. unfold try_except. specialize (Hb w).
  destruct (body w) as [[a|e] w1]; cbn [snd] in *; auto.
  destruct (c e); cbn [snd]; auto.
  apply (grows_trans _ (fs w1)); auto. apply Hh.
Qed.

Lemma creates_only_makedirs (p : string) :
  creates_only (fs_update (fun f => makedirs_path f p)).
Proof.
  intros w. unfold fs_update, makedirs_path.
  destruct (has_nul p); cbn [snd]; [apply grows_refl|].
  destruct (nodes (fs w) !! p) eqn:Hn; cbn [snd]; [apply grows_refl|].
  destruct (creatable (fs w) p); cbn [snd fs]; [|apply grows_refl].
  unfold grows. cbn. repeat split; auto.
  intros q. destruct (decide (p = q)) as [<-|Hne].
  - right. now rewrite lookup_insert_eq.
  - left. now rewrite lookup_insert_ne.
Qed.

Ltac creates_only_step :=
  first
    [ apply creates_only_bind; [|intros ?]
    | apply creates_only_try; [|intros ?]
    | apply creates_only_makedirs
    | apply creates_only_same; intros ?; reflexivity ].

Lemma creates_only_lift {A : Type} (r : result A) : creates_only (lift r).
Proof. now apply creates_only_same. Qed.

Lemma creates_only_ensure_default_dir : creates_only ensure_default_dir.
Proof.
  unfold ensure_default_dir. creates_only_step; [creates_only_step|].
  destruct (negb _); repeat creates_only_step.
Qed.

Lemma creates_only_set_default (s : json) (k : string) (v : json) :
  creates_only (set_default s k v).
Proof.
  unfold set_default. creates_only_step; [creates_only_step|].
  destruct a; creates_only_step.
Qed.

Lemma creates_only_reset_profiles (s : json) : creates_only (reset_profiles s).
Proof.
  unfold reset_profiles. creates_only_step; [creates_only_step|].
  destruct (negb a); [creates_only_step|].
  creates_only_step; [creates_only_step|].
  destruct (negb _); creates_only_step.
Qed.

Lemma creates_only_load_settings_try : creates_only load_settings_try.
Proof.
  unfold load_settings_try. creates_only_step; [creates_only_step|].
  destruct (exists_path a SETTINGS_FILE); [|creates_only_step].
  creates_only_step; [creates_only_step|].
  creates_only_step; [creates_only_step|].
  creates_only_step; [apply creates_only_set_default|].
  creates_only_step; [apply creates_only_reset_profiles|].
  creates_only_step; [apply creates_only_set_default|].
  creates_only_step; [creates_only_step|].
  creates_only_step; [creates_only_step|].
  creates_only_step; [|creates_only_step].
  destruct (negb _); [|creates_only_step].
  creates_only_step.
  - creates_only_step; [|creates_only_step].
    destruct a5; try (apply creates_only_same; intros ?; reflexivity).
    apply creates_only_makedirs.
  - creates_only_step; [creates_only_step|].
    creates_only_step; [creates_only_step|].
    creates_only_step; [apply creates_only_ensure_default_dir|creates_only_step].
Qed.

(** X1: [load_settings] never writes, removes or replaces a file, whatever
    the settings file holds and however the call ends: the file system
    after the call is the one before it, but for directories created
    where nothing was. *)
Theorem load_settings_creates_only (w : World) :
  grows (fs w) (fs (snd (load_settings w)))
  /\ (forall p c, nodes (fs w) !! p = Some (File c) ->
        nodes (fs (snd (load_settings w))) !! p = Some (File c)).
Proof.
  assert (H : creates_only load_settings).
  { unfold load_settings. creates_only_step; [creates_only_step|].
    creates_only_step.
    - creates_only_step; [apply creates_only_load_settings_try|].
      creates_only_step; creates_only_step.
    - destruct a0; [creates_only_step|].
      creates_only_step; [apply creates_only_ensure_default_dir|creates_only_step]. }
  split; [apply H|].
  intros p c Hp. destruct (H w) as (_ & _ & _ & _ & _ & Hn).
  destruct (Hn p) as [Heq|[Hnone _]]; congruence.
Qed.

(** *** Saving and loading again *)

Lemma completed_complete (f : FS) (d : dict) (ps : list json) :
  dict_has "minecraft_directory" d = true ->
  dict_lookup "profiles" d = Some (JArr ps) ->
  dict_has "last_selected_profile" d = true ->
  completed f d = d.
Proof.
  intros H1 H2 H3. unfold completed, with_profiles_list.
  now rewrite H1, H2, H3.
Qed.

Lemma load_settings_complete (d : dict) (dir : string) (ps : list json)
    (w : World) :
  nodes (fs w) !! SETTINGS_FILE = Some (File (Json (JObj d))) ->
  readable (fs w) SETTINGS_FILE = true ->
  dict_lookup "minecraft_directory" d = Some (JStr dir) ->
  dict_lookup "profiles" d = Some (JArr ps) ->
  dict_has "last_selected_profile" d = true ->
  exists_path (fs w) dir = true ->
  load_settings w = (Ok (JObj d), w).
Proof.
  intros Hn Hr Hdir Hps Hlast Hex.
  assert (Hhas : dict_has "minecraft_directory" d = true)
    by (unfold dict_has; now rewrite Hdir).
  unfold load_settings. erewrite bind_ok by reflexivity.
  assert (Htry : load_settings_try w = (Ok (Some (JObj d)), w)).
  { unfold load_settings_try. erewrite bind_ok by reflexivity.
    rewrite settings_file_exists, Hn.
    erewrite bind_ok
      by (unfold fs_query, read_file; change (has_nul SETTINGS_FILE) with false;
          cbv iota; rewrite Hn, Hr; reflexivity).
    erewrite bind_ok by reflexivity.
    rewrite (complete_keys w d), (completed_complete _ _ _ Hhas Hps Hlast).
    erewrite bind_ok by (unfold lift; cbn [py_getitem]; rewrite Hdir; reflexivity).
    erewrite bind_ok by (unfold fs_query; cbn [os_path_exists]; rewrite Hex; reflexivity).
    reflexivity. }
  erewrite bind_ok by (eapply try_except_ok; exact Htry).
  reflexivity.
Qed.

(** X2: Settings that were saved are the settings loaded next: for an
    object with the three fields, whose install directory exists, and a
    settings file that can be written and read, [save_settings] writes
    the file and [load_settings] then returns the very object, leaving
    everything as it is. *)
Theorem save_then_load (d : dict) (dir : string) (ps : list json) (w : World) :
  dict_lookup "minecraft_directory" d = Some (JStr dir) ->
  dict_lookup "profiles" d = Some (JArr ps) ->
  dict_has "last_selected_profile" d = true ->
  exists_path (fs w) dir = true ->
  can_write (fs w) = true ->
  readable (fs w) SETTINGS_FILE = true ->
  exists w1,
    save_settings (JObj d) w = (Ok (JObj d), w1)
    /\ nodes (fs w1) !! SETTINGS_FILE = Some (File (Json (JObj d)))
    /\ load_settings w1 = (Ok (JObj d), w1).
Proof.
  intros Hdir Hps Hlast Hex Hcw Hr.
  exists (after_save (JObj d) w).
  split; [exact (WindowFacts.save_settings_run d ps w Hps)|].
  unfold after_save. rewrite Hcw.
  split; [cbn; apply lookup_insert_eq|].
  apply (load_settings_complete d dir ps); cbn [fs nodes readable with_nodes]; auto.
  - apply lookup_insert_eq.
  - now apply exists_path_insert.
Qed.

Definition saved_example : dict :=
  [("minecraft_directory", JStr "/home/user/launcher/minecraft");
   ("profiles", JArr []);
   ("last_selected_profile", JNull);
   ("theme", JStr "dark")].

Definition world_with_directory : World :=
  example_world {[ "/home/user/launcher/minecraft" := Dir ]} (fun _ => true).

(** The theorem at settings with a fourth key, saved where no settings
    file was. *)
Lemma save_then_load_witness :
  exists w1,
    save_settings (JObj saved_example) world_with_directory
      = (Ok (JObj saved_example), w1)
    /\ nodes (fs w1) !! SETTINGS_FILE = Some (File (Json (JObj saved_example)))
    /\ load_settings w1 = (Ok (JObj saved_example), w1).
Proof.
  apply (save_then_load saved_example "/home/user/launcher/minecraft" []);
    reflexivity.
Defined.


End StoreFacts.

(* ===================================================================== *)
(** ** Facts about the profile dialog *)
(* ===================================================================== *)

Module DialogFacts.
Import Py PyFacts OS Eff Eff.Notations Settings SettingsFacts Qt Profiles.
Import WindowFacts(ensures, spin_ok).

(** *** Stripped text *)













Definition profile_steve : Profile :=
  mkProfile (Some "Steve") (Some "1.20.1") (Some "Player") (Some 2%Z).



End DialogFacts.

(* ===================================================================== *)
(** ** Facts about the selection and the profile list *)
(* ===================================================================== *)

Module SelectionFacts.
Import Py PyFacts OS Eff Eff.Notations Settings SettingsFacts Qt Profiles Window.
Import WindowFacts StoreFacts DialogFacts.

(** *** The combo box, the profile list and the selection *)

(** What the selection is read off: the names of the profiles, the
    entries of the combo box, its current index, and the selection. *)
Definition view (self : MainWindow)
  : list (option string) * list string * Z * option nat :=
  (map name (profiles self), combo_items self, combo_index self,
   current_selected_profile self).

(** The entries the combo box shows for some names. *)
Definition shown (names : list (option string)) : list string :=
  map (fun n => get_or n "Unknown") names.

(** [find_by_name] on the names alone. *)
Fixpoint find_name (wanted : string) (names : list (option string)) : option nat :=
  match names with
  | [] => None
  | Some n :: rest =>
      if String.eqb n wanted then Some O else option_map S (find_name wanted rest)
  | None :: rest => option_map S (find_name wanted rest)
  end.

Definition text_at (items : list string) (index : Z) : string :=
  if (0 <=? index)%Z then
    match nth_error items (Z.to_nat index) with
    | Some t => t
    | None => ""
    end
  else "".

Lemma find_by_name_names (wanted : string) (ps : list Profile) :
  find_by_name wanted ps = find_name wanted (map name ps).
Proof.
  induction ps as [|p ps IH]; simpl; auto.
  destruct (name p); now rewrite IH.
Qed.

Lemma find_name_nth (wanted : string) (names : list (option string)) (i : nat) :
  find_name wanted names = Some i -> nth_error names i = Some (Some wanted).
Proof.
  revert i. induction names as [|[n|] names IH]; intros i; simpl; try discriminate.
  - destruct (String.eqb n wanted) eqn:E.
    + intros [= <-]. apply String.eqb_eq in E. now subst.
    + destruct (find_name wanted names) as [j|]; simpl; [|discriminate].
      intros [= <-]. now apply IH.
  - destruct (find_name wanted names) as [j|]; simpl; [|discriminate].
    intros [= <-]. now apply IH.
Qed.

(** The combo box lists the profiles, and the selection, if there is
    one, is the first profile named as the current entry. *)
Definition in_sync (v : list (option string) * list string * Z * option nat)
  : Prop :=
  let '(names, items, index, current) := v in
  items = shown names
  /\ forall i, current = Some i -> find_name (text_at items index) names = Some i.

Definition synced (self : MainWindow) : Prop := in_sync (view self).

Lemma update_profile_field_view (fv : field_value) (self : MainWindow) :
  ensures (update_profile_field fv self) (fun r => view r = view self).
Proof.
  unfold update_profile_field.
  destruct (has_selection self); cbn [negb]; [|now apply ensures_ret].
  destruct (current_selected_profile self) as [i|] eqn:Hi;
    [|now apply ensures_ret].
  destruct (selected_profile self) as [p|] eqn:Hp; [|now apply ensures_ret].
  pose proof (selected_profile_nth _ _ _ Hi Hp) as Hn.
  apply ensures_then. intros s. apply ensures_ret.
  assert (Hnames : map name (list_set i (assign fv p) (profiles self))
                   = map name (profiles self))
    by (apply (list_set_map_same _ _ p); auto; apply assign_name).
  unfold view. destruct s; cbn; now rewrite Hnames, Hi.
Qed.

Lemma username_changed_view (t : string) (self : MainWindow) :
  ensures (username_changed t self) (fun r => view r = view self).
Proof.
  unfold username_changed. cbv zeta.
  destruct (_ && _); [|now apply ensures_ret].
  exact (update_profile_field_view _ _).
Qed.

Lemma memory_changed_view (v : Z) (self : MainWindow) :
  ensures (memory_changed v self) (fun r => view r = view self).
Proof.
  unfold memory_changed. cbv zeta.
  destruct (_ && _); [|now apply ensures_ret].
  exact (update_profile_field_view _ _).
Qed.

Lemma synced_none (self : MainWindow) :
  combo_items self = shown (map name (profiles self)) ->
  current_selected_profile self = None -> synced self.
Proof.
  intros H1 H2. unfold synced, view, in_sync. rewrite H2. split; auto.
  discriminate.
Qed.

Lemma on_profile_selected_synced (index : Z) (self : MainWindow) :
  combo_items self = shown (map name (profiles self)) ->
  ensures (on_profile_selected index self) synced.
Proof.
  intros Hitems. unfold on_profile_selected.
  destruct (index =? -1)%Z.
  - cbv zeta.
    apply (ensures_bind _ _ _ _ (username_changed_view _ _)). intros s1 H1.
    apply (ensures_bind _ _ _ _ (memory_changed_view _ _)). intros s2 H2.
    apply ensures_ret.
    assert (H : view s2 = view (with_current_selected_profile None self))
      by (rewrite H2; exact H1).
    unfold view in H. injection H as Hn Hi Hx Hc.
    apply synced_none.
    + change (combo_items s2 = shown (map name (profiles s2))).
      now rewrite Hi, Hn.
    + exact Hc.
  - cbv zeta.
    destruct (find_by_name (currentText self) (profiles self)) as [i|] eqn:Hfind.
    + apply (ensures_bind _ _ _ _ (username_changed_view _ _)). intros s1 H1.
      apply (ensures_bind _ _ _ _ (memory_changed_view _ _)). intros s2 H2.
      assert (H : view s2 = view (with_current_selected_profile (Some i) self))
        by (rewrite H2; exact H1).
      assert (Hs : in_sync (view s2)).
      { rewrite H. unfold view, in_sync.
        cbn [profiles combo_items combo_index current_selected_profile
             with_current_selected_profile].
        split; auto. intros j [= <-].
        rewrite <- find_by_name_names. exact Hfind. }
      destruct (version_id _) as [v|].
      * destruct (String.eqb v ""); [apply ensures_ret; exact Hs|].
        apply ensures_then. intros f.
        destruct (exists_path f _); apply ensures_ret; exact Hs.
      * apply ensures_ret. exact Hs.
    + apply ensures_then. intros _. apply ensures_ret.
      now apply synced_none.
Qed.

Lemma update_profile_list_synced (self : MainWindow) :
  ensures (update_profile_list self) synced.
Proof.
  unfold update_profile_list. cbv zeta.
  set (self1 := with_combo_items _ self).
  assert (H1 : forall index,
             combo_items (with_combo_index index self1)
             = shown (map name (profiles (with_combo_index index self1)))).
  { intros index. unfold self1, shown. cbn. now rewrite map_map. }
  destruct (profiles self1); apply on_profile_selected_synced; apply H1.
Qed.

Lemma synced_same (self self' : MainWindow) :
  view self' = view self -> synced self -> synced self'.
Proof. unfold synced. now intros ->. Qed.

Lemma handle_synced (ev : event) (self : MainWindow) :
  synced self -> ensures (handle ev self) synced.
Proof.
  intros Hs. destruct ev; cbn [handle].
  - destruct (enabled _); [|now apply ensures_ret]. unfold add_profile.
    apply ensures_then. intros [dialog accepted].
    destruct accepted; [|now apply ensures_ret].
    apply ensures_then. intros [p|]; [|now apply ensures_ret].
    destruct (name_taken _ _).
    + apply ensures_then. intros _. now apply ensures_ret.
    + apply update_profile_list_synced.
  - destruct (enabled _); [|now apply ensures_ret]. unfold edit_profile.
    destruct (has_selection self); cbn [negb]; [|now apply ensures_ret].
    destruct (current_selected_profile self) as [i|]; [|now apply ensures_ret].
    destruct (selected_profile self) as [current|]; [|now apply ensures_ret].
    cbv zeta. apply ensures_then. intros [dialog accepted].
    destruct accepted; [|now apply ensures_ret].
    apply ensures_then. intros [p|]; [|now apply ensures_ret].
    destruct (name current); [|apply ensures_raise].
    destruct (_ && _).
    + apply ensures_then. intros _. now apply ensures_ret.
    + apply update_profile_list_synced.
  - destruct (enabled _); [|now apply ensures_ret]. unfold delete_profile.
    destruct (has_selection self); cbn [negb]; [|now apply ensures_ret].
    destruct (selected_profile self) as [current|]; [|now apply ensures_ret].
    apply ensures_then. intros _.
    destruct confirmed; [|now apply ensures_ret].
    apply ensures_then. intros _. apply ensures_then. intros remaining.
    cbv zeta.
    apply (ensures_bind _ _ _ _ (update_profile_list_synced _)). intros s1 H1.
    apply on_profile_selected_synced. apply H1.
  - destruct (_ && _); [|now apply ensures_ret].
    apply on_profile_selected_synced. apply Hs.
  - destruct (enabled _); [|now apply ensures_ret].
    apply (ensures_weaken _ (fun r => view r = view self));
      [|apply username_changed_view].
    intros r Hr. now apply (synced_same self).
  - destruct (enabled _); [|now apply ensures_ret].
    apply (ensures_weaken _ (fun r => view r = view self));
      [|apply memory_changed_view].
    intros r Hr. now apply (synced_same self).
  - intros w. unfold bind. rewrite closeEvent_run. exact Hs.
Qed.

Lemma reaches_synced (self0 self : MainWindow) (w0 w : World) :
  reaches self0 w0 self w -> synced self0 -> synced self.
Proof.
  induction 1 as [|ev self w _ IH]; auto. intros H0.
  unfold dispatch. pose proof (handle_synced ev self (IH H0) w) as H.
  destruct (handle ev self w) as [[a|e] w']; cbn [fst]; auto.
Qed.

Lemma started_synced (w : World) (self : MainWindow) (w' : World) :
  started w = Some (self, w') -> synced self.
Proof.
  intros Hs. apply started_init in Hs.
  assert (H : ensures Window.init (fun r => forall s, r = Some s -> synced s)).
  { unfold Window.init. apply ensures_then. intros s.
    destruct (read_settings s) as [[[dir ps] last]|];
      [|apply ensures_ret; discriminate].
    cbv zeta.
    apply (ensures_bind _ _ _ _ (update_profile_list_synced _)).
    intros self1 H1. apply ensures_ret. now intros ? [= <-]. }
  specialize (H w). rewrite Hs in H. now apply H.
Qed.

(** X6: In every state of a started window the combo box lists the names of
    the profiles, in their order ([Unknown] for a profile without a
    name), and the selection, when there is one, refers to a profile of
    the list: the first one whose name is the current text of the combo
    box. *)
Theorem selection_in_sync (w00 : World) (self0 : MainWindow) (w0 : World)
    (self : MainWindow) (w : World) :
  started w00 = Some (self0, w0) ->
  reaches self0 w0 self w ->
  combo_items self = map (fun p => get_or (name p) "Unknown") (profiles self)
  /\ forall i, current_selected_profile self = Some i ->
       find_by_name (currentText self) (profiles self) = Some i
       /\ exists p, selected_profile self = Some p
                    /\ name p = Some (currentText self).
Proof.
  intros Hs Hr.
  destruct (reaches_synced _ _ _ _ Hr (started_synced _ _ _ Hs)) as [Hitems Hcur].
  split.
  - rewrite Hitems. unfold shown. now rewrite map_map.
  - intros i Hi. specialize (Hcur i Hi).
    change (text_at (combo_items self) (combo_index self)) with (currentText self)
      in Hcur.
    split; [now rewrite find_by_name_names|].
    apply find_name_nth in Hcur. unfold selected_profile. rewrite Hi.
    rewrite nth_error_map in Hcur.
    destruct (nth_error (profiles self) i) as [p|]; [|discriminate].
    exists p. split; auto. now injection Hcur.
Qed.

(** The theorem at a window started on one stored profile, after a
    second profile was added. *)
Lemma selection_in_sync_witness :
  exists self0 w0,
    started world_one_profile = Some (self0, w0)
    /\ combo_items (fst (dispatch add_alex self0 w0)) = ["Steve"; "Alex"]
    /\ current_selected_profile (fst (dispatch add_alex self0 w0)) = Some 1
    /\ find_by_name (currentText (fst (dispatch add_alex self0 w0)))
         (profiles (fst (dispatch add_alex self0 w0))) = Some 1.
Proof.
  eexists _, _. split; [vm_compute; reflexivity|].
  split; [reflexivity|]. split; [reflexivity|].
  refine (proj1 (proj2 (selection_in_sync world_one_profile _ _ _ _ _
                          (reaches_event _ _ add_alex _ _ (reaches_start _ _)))
                   1 _));
    reflexivity.
Defined.

(** *** Handlers that return *)

(** The computation returns, in every world. *)
Definition returns {A : Type} (m : M A) : Prop :=
  forall w, exists a w', m w = (Ok a, w').

Lemma returns_ret {A : Type} (a : A) : returns (ret a).
Proof. intros w. now exists a, w. Qed.

Lemma returns_bind {A B : Type} (m : M A) (k : A -> M B) :
  returns m -> (forall a, returns (k a)) -> returns (bind m k).
Proof.
  intros Hm Hk w. destruct (Hm w) as (a & w1 & Ha).
  destruct (Hk a w1) as (b & w2 & Hb).
  exists b, w2. unfold bind. now rewrite Ha.
Qed.

(** As [returns_bind], where the rest returns for the results the first
    part can have. *)
Lemma returns_bind_ensures {A B : Type} (m : M A) (k : A -> M B)
    (Q : A -> Prop) :
  returns m -> ensures m Q -> (forall a, Q a -> returns (k a)) ->
  returns (bind m k).
Proof.
  intros Hm Hq Hk w. destruct (Hm w) as (a & w1 & Ha).
  specialize (Hq w). rewrite Ha in Hq.
  destruct (Hk a Hq w1) as (b & w2 & Hb).
  exists b, w2. unfold bind. now rewrite Ha.
Qed.

Lemma returns_effect {A : Type} (m : M A) (a : A) (f : World -> World) :
  (forall w, m w = (Ok a, f w)) -> returns m.
Proof. intros H w. exists a, (f w). apply H. Qed.


Lemma returns_print (line : string) : returns (print line).
Proof. intros w. eexists _, _. reflexivity. Qed.

Lemma returns_get_fs : returns get_fs.
Proof. intros w. eexists _, _. reflexivity. Qed.

Lemma returns_save_settings (d : dict) : returns (save_settings (JObj d)).
Proof.
  intros w. unfold save_settings.
  erewrite bind_ok by apply reset_profiles_object.
  unfold bind, try_except, fs_update, write_file, print, ret.
  change (has_nul SETTINGS_FILE) with false. cbv iota.
  destruct (nodes (fs w) !! SETTINGS_FILE) as [[|c]|];
    destruct (writable (fs w) SETTINGS_FILE); eexists _, _; reflexivity.
Qed.

Lemma returns_update_profile_field (fv : field_value) (self : MainWindow) :
  returns (update_profile_field fv self).
Proof.
  unfold update_profile_field.
  destruct (negb _); [apply returns_ret|].
  destruct (current_selected_profile self); [|apply returns_ret].
  destruct (selected_profile self); [|apply returns_ret].
  apply returns_bind; [apply returns_save_settings|intros; apply returns_ret].
Qed.

Lemma returns_username_changed (t : string) (self : MainWindow) :
  returns (username_changed t self).
Proof.
  unfold username_changed. cbv zeta.
  destruct (_ && _); [apply returns_update_profile_field|apply returns_ret].
Qed.

Lemma returns_memory_changed (v : Z) (self : MainWindow) :
  returns (memory_changed v self).
Proof.
  unfold memory_changed. cbv zeta.
  destruct (_ && _); [apply returns_update_profile_field|apply returns_ret].
Qed.

Lemma returns_on_profile_selected (index : Z) (self : MainWindow) :
  returns (on_profile_selected index self).
Proof.
  unfold on_profile_selected. destruct (index =? -1)%Z; cbv zeta.
  - apply returns_bind; [apply returns_username_changed|intros s1].
    apply returns_bind; [apply returns_memory_changed|intros s2].
    apply returns_ret.
  - destruct (find_by_name _ _).
    + apply returns_bind; [apply returns_username_changed|intros s1].
      apply returns_bind; [apply returns_memory_changed|intros s2].
      destruct (version_id _) as [v|]; [|apply returns_ret].
      destruct (String.eqb v ""); [apply returns_ret|].
      apply returns_bind; [apply returns_get_fs|intros f].
      destruct (exists_path f _); apply returns_ret.
    + apply returns_bind; [apply returns_print|intros; apply returns_ret].
Qed.











(** *** What a selection shows *)

(** A computation that returns, with a result as stated. *)
Definition yields {A : Type} (m : M A) (Q : A -> Prop) : Prop :=
  forall w, exists a w', m w = (Ok a, w') /\ Q a.

Lemma yields_intro {A : Type} (m : M A) (Q : A -> Prop) :
  returns m -> ensures m Q -> yields m Q.
Proof.
  intros Hr He w. destruct (Hr w) as (a & w' & Ha).
  exists a, w'. split; auto. specialize (He w). now rewrite Ha in He.
Qed.

(** The window but for its settings object. *)
Definition shape (self : MainWindow) :=
  (profiles self, current_selected_profile self, widgets self,
   memory_spinbox self, combo_items self, combo_index self,
   edits_connected self, last_selected_profile_name self, install_thread self).

Lemma list_set_same {A : Type} (i : nat) (a : A) (l : list A) :
  nth_error l i = Some a -> list_set i a l = l.
Proof.
  revert i. induction l as [|b l IH]; intros [|i]; simpl; try discriminate.
  - now intros [= ->].
  - intros H. now rewrite IH.
Qed.

(** A field edit that stores what the profile holds changes nothing but,
    possibly, the settings object. *)
Lemma update_profile_field_same (fv : field_value) (self : MainWindow)
    (i : nat) (p : Profile) :
  current_selected_profile self = Some i ->
  nth_error (profiles self) i = Some p ->
  assign fv p = p ->
  ensures (update_profile_field fv self) (fun r => shape r = shape self).
Proof.
  intros Hi Hn Ha. unfold update_profile_field.
  destruct (negb _); [now apply ensures_ret|].
  rewrite Hi. unfold selected_profile. rewrite Hi, Hn, Ha.
  rewrite (list_set_same _ _ _ Hn).
  apply ensures_then. intros s. apply ensures_ret. now destruct s.
Qed.

Lemma shape_fields (r s : MainWindow) :
  shape r = shape s ->
  profiles r = profiles s
  /\ current_selected_profile r = current_selected_profile s
  /\ widgets r = widgets s
  /\ memory_spinbox r = memory_spinbox s
  /\ combo_items r = combo_items s
  /\ combo_index r = combo_index s
  /\ edits_connected r = edits_connected s
  /\ last_selected_profile_name r = last_selected_profile_name s
  /\ install_thread r = install_thread s.
Proof. unfold shape. intros [= -> -> -> -> -> -> -> -> ->]. repeat split. Qed.

Lemma shape_widget_of (r s : MainWindow) (k : string) :
  shape r = shape s -> widget_of k r = widget_of k s.
Proof.
  intros H. apply shape_fields in H as (_ & _ & H & _). unfold widget_of.
  now rewrite H.
Qed.

Ltac shape_cong H :=
  let E1 := fresh in let E2 := fresh in let E3 := fresh in
  let E4 := fresh in let E5 := fresh in let E6 := fresh in
  let E7 := fresh in let E8 := fresh in let E9 := fresh in
  apply shape_fields in H as (E1 & E2 & E3 & E4 & E5 & E6 & E7 & E8 & E9);
  unfold shape, set_widget, widget_of;
  cbn [profiles current_selected_profile widgets memory_spinbox combo_items
       combo_index edits_connected last_selected_profile_name install_thread
       with_widgets with_memory_spinbox with_edits_connected];
  rewrite ?E1, ?E2, ?E3, ?E4, ?E5, ?E6, ?E7, ?E8, ?E9; reflexivity.

Lemma shape_set_widget (k : string) (f : widget -> widget) (r s : MainWindow) :
  shape r = shape s -> shape (set_widget k f r) = shape (set_widget k f s).
Proof. intros H. shape_cong H. Qed.

Lemma shape_with_memory_spinbox (sb : QSpinBox) (r s : MainWindow) :
  shape r = shape s ->
  shape (with_memory_spinbox sb r) = shape (with_memory_spinbox sb s).
Proof. intros H. shape_cong H. Qed.

Lemma shape_with_edits_connected (b : bool) (r s : MainWindow) :
  shape r = shape s ->
  shape (with_edits_connected b r) = shape (with_edits_connected b s).
Proof. intros H. shape_cong H. Qed.

Lemma shape_enable_profile_buttons (r s : MainWindow) :
  shape r = shape s ->
  shape (enable_profile_buttons r) = shape (enable_profile_buttons s).
Proof.
  intros H. unfold enable_profile_buttons. now do 3 apply shape_set_widget.
Qed.

Lemma widget_of_set (k k' : string) (f : widget -> widget) (self : MainWindow) :
  widget_of k' (set_widget k f self)
  = if String.eqb k k' then f (widget_of k' self) else widget_of k' self.
Proof.
  destruct (String.eqb k k') eqn:E.
  - apply String.eqb_eq in E as ->. apply widget_of_set_eq.
  - apply String.eqb_neq in E. now apply widget_of_set_ne.
Qed.

Lemma widget_of_spin (k : string) (sb : QSpinBox) (self : MainWindow) :
  widget_of k (with_memory_spinbox sb self) = widget_of k self.
Proof. reflexivity. Qed.

Lemma widget_of_current (k : string) (c : option nat) (self : MainWindow) :
  widget_of k (with_current_selected_profile c self) = widget_of k self.
Proof. reflexivity. Qed.

(** Looks a widget up under updates at names that are literals. *)
Ltac widget_lookup :=
  repeat first
    [ rewrite widget_of_set;
      match goal with
      | |- context [String.eqb ?a ?b] =>
          let r := eval vm_compute in (String.eqb a b) in
          change (String.eqb a b) with r
      end; cbv iota
    | rewrite widget_of_connected
    | rewrite widget_of_spin
    | rewrite widget_of_current ].

(** What [on_profile_selected] leaves when it selects the profile at
    [i], which has the user name [u] and the memory [m]. *)
Definition selected_as (self : MainWindow) (i : nat) (u : string) (m : Z)
    (r : MainWindow) : Prop :=
  profiles r = profiles self
  /\ current_selected_profile r = Some i
  /\ widget_of "username_input" r
     = setEnabled true (setText u (widget_of "username_input" self))
  /\ value (memory_spinbox r) = m
  /\ enabled (widget_of "memory_spinbox" r) = true
  /\ enabled (widget_of "edit_profile_button" r) = true
  /\ enabled (widget_of "delete_profile_button" r) = true
  /\ enabled (widget_of "fix_version_button" r) = true
  /\ edits_connected r = true
  /\ combo_items r = combo_items self
  /\ combo_index r = combo_index self
  /\ last_selected_profile_name r = last_selected_profile_name self
  /\ install_thread r = install_thread self.

Lemma selected_as_shape (self : MainWindow) (i : nat) (u : string) (m : Z)
    (r e : MainWindow) :
  shape r = shape e -> selected_as self i u m e -> selected_as self i u m r.
Proof.
  intros H. unfold selected_as.
  rewrite !(shape_widget_of r e) by auto.
  apply shape_fields in H as (-> & -> & _ & -> & -> & -> & -> & -> & ->). auto.
Qed.

(** [on_profile_selected] where the combo box shows the name of a
    profile that has a user name and a memory allocation in the range:
    the profile becomes the selection, the two fields show what it holds
    and take input, and no profile is changed. *)
Lemma on_profile_selected_complete (index : Z) (self : MainWindow)
    (i : nat) (p : Profile) (u : string) (m : Z) :
  (index =? -1)%Z = false ->
  tidy self ->
  find_by_name (currentText self) (profiles self) = Some i ->
  nth_error (profiles self) i = Some p ->
  username p = Some u ->
  memory_gb p = Some m ->
  (1 <= m <= 16)%Z ->
  ensures (on_profile_selected index self) (selected_as self i u m).
Proof.
  intros Hidx [Hlo Hhi] Hfind Hn Hu Hm Hrange.
  unfold on_profile_selected. rewrite Hidx, Hfind. cbv zeta.
  rewrite Hn. unfold get_or, get_memory_or. rewrite Hu, Hm.
  set (self1 := with_current_selected_profile (Some i) self).
  set (e1 := set_widget "username_input" (setText u) self1).
  assert (H1 : ensures (username_changed u self1) (fun r => shape r = shape e1)).
  { unfold username_changed. cbv zeta. fold e1.
    destruct (_ && _); [|now apply ensures_ret].
    apply (update_profile_field_same _ _ i p); auto.
    cbn. unfold set_username. destruct p. cbn in *. congruence. }
  apply (ensures_bind _ _ _ _ H1). intros s1 Hs1.
  set (e2 := set_widget "username_input" (setEnabled true) e1).
  assert (Hs2 : shape (set_widget "username_input" (setEnabled true) s1) = shape e2)
    by now apply shape_set_widget.
  set (self2 := set_widget "username_input" (setEnabled true) s1) in *.
  assert (Hspin : memory_spinbox self2 = memory_spinbox self)
    by (apply shape_fields in Hs2 as (_ & _ & _ & -> & _); reflexivity).
  assert (Hval : value (setValue m (memory_spinbox self)) = m)
    by (cbn; rewrite Hlo, Hhi; unfold bound; lia).
  set (e3 := with_memory_spinbox (setValue m (memory_spinbox self)) e2).
  assert (H2 : ensures (memory_changed m self2) (fun r => shape r = shape e3)).
  { unfold memory_changed. cbv zeta. rewrite Hspin.
    set (self2' := with_memory_spinbox _ self2).
    assert (Hs2' : shape self2' = shape e3)
      by now apply shape_with_memory_spinbox.
    destruct (_ && _); [|now apply ensures_ret].
    apply (ensures_weaken _ (fun r => shape r = shape self2'));
      [intros r Hr; congruence|].
    apply shape_fields in Hs2' as (E1 & E2 & _).
    apply (update_profile_field_same _ _ i p).
    - now rewrite E2.
    - now rewrite E1.
    - rewrite Hval. cbn [assign]. unfold set_memory_gb. destruct p. cbn in *. congruence. }
  apply (ensures_bind _ _ _ _ H2). intros s2 Hsh.
  apply (shape_set_widget "memory_spinbox" (setEnabled true)) in Hsh.
  apply shape_enable_profile_buttons in Hsh.
  apply (shape_with_edits_connected true) in Hsh.
  set (s3 := with_edits_connected true _) in *.
  set (e4 := with_edits_connected true _) in Hsh.
  assert (He : forall k1 f1 k2 f2,
             k1 <> "username_input" -> k1 <> "memory_spinbox" ->
             k1 <> "edit_profile_button" -> k1 <> "delete_profile_button" ->
             k1 <> "fix_version_button" ->
             k2 <> "username_input" -> k2 <> "memory_spinbox" ->
             k2 <> "edit_profile_button" -> k2 <> "delete_profile_button" ->
             k2 <> "fix_version_button" ->
             selected_as self i u m (set_widget k1 f1 (set_widget k2 f2 e4))).
  { intros k1 f1 k2 f2 A1 A2 A3 A4 A5 B1 B2 B3 B4 B5. unfold selected_as.
    rewrite !(widget_of_set_ne k1), !(widget_of_set_ne k2) by auto.
    unfold e4, e3, e2, e1, self1, enable_profile_buttons.
    rewrite !widget_of_connected.
    widget_lookup.
    change (value (setValue m (memory_spinbox self)) = m) in Hval.
    repeat split; try reflexivity. exact Hval. }
  assert (Hr : forall k1 f1 k2 f2,
             k1 <> "username_input" -> k1 <> "memory_spinbox" ->
             k1 <> "edit_profile_button" -> k1 <> "delete_profile_button" ->
             k1 <> "fix_version_button" ->
             k2 <> "username_input" -> k2 <> "memory_spinbox" ->
             k2 <> "edit_profile_button" -> k2 <> "delete_profile_button" ->
             k2 <> "fix_version_button" ->
             selected_as self i u m (set_widget k1 f1 (set_widget k2 f2 s3))).
  { intros. apply (selected_as_shape _ _ _ _ _ (set_widget k1 f1 (set_widget k2 f2 e4)));
      [now do 2 apply shape_set_widget | now apply He]. }
  destruct (version_id p) as [v|].
  - destruct (String.eqb v ""); [apply ensures_ret; apply Hr; discriminate|].
    apply ensures_then. intros f.
    destruct (exists_path f _); apply ensures_ret; apply Hr; discriminate.
  - apply ensures_ret. apply Hr; discriminate.
Qed.

(** X8: Selecting a profile that has a user name and a memory allocation
    between 1 and 16 shows it and changes no profile: the call returns,
    the profile the combo box names becomes the selection, the user name
    field shows its user name and the spin box its memory, both fields
    and the Edit, Delete and Fix buttons take input, and the list of
    profiles is as before. *)
Theorem select_complete_profile (index : Z) (self : MainWindow) (i : nat)
    (p : Profile) (u : string) (m : Z) (w : World) :
  index <> (-1)%Z ->
  tidy self ->
  find_by_name (currentText self) (profiles self) = Some i ->
  nth_error (profiles self) i = Some p ->
  username p = Some u ->
  memory_gb p = Some m ->
  (1 <= m <= 16)%Z ->
  exists r w',
    on_profile_selected index self w = (Ok r, w')
    /\ profiles r = profiles self
    /\ selected_profile r = Some p
    /\ text (widget_of "username_input" r) = u
    /\ value (memory_spinbox r) = m
    /\ enabled (widget_of "username_input" r) = true
    /\ enabled (widget_of "memory_spinbox" r) = true
    /\ enabled (widget_of "edit_profile_button" r) = true
    /\ enabled (widget_of "delete_profile_button" r) = true
    /\ enabled (widget_of "fix_version_button" r) = true.
Proof.
  intros Hidx Ht Hfind Hn Hu Hm Hrange.
  apply Z.eqb_neq in Hidx.
  destruct (yields_intro _ _ (returns_on_profile_selected index self)
              (on_profile_selected_complete index self i p u m
                 Hidx Ht Hfind Hn Hu Hm Hrange) w)
    as (r & w' & Hrun & H1 & H2 & H3 & H4 & H5 & H6 & H7 & H8 & _).
  exists r, w'. split; [exact Hrun|]. split; [exact H1|].
  split; [unfold selected_profile; now rewrite H2, H1|].
  rewrite H3. cbn. auto 10.
Qed.

(** The theorem at the window started on the stored profile Steve, where
    the entry of the combo box is chosen again. *)
Lemma select_complete_profile_witness :
  exists self0 w0 r w',
    started world_one_profile = Some (self0, w0)
    /\ on_profile_selected 0 self0 w0 = (Ok r, w')
    /\ profiles r = profiles self0
    /\ selected_profile r = Some profile_steve
    /\ text (widget_of "username_input" r) = "Player"
    /\ value (memory_spinbox r) = 2%Z.
Proof.
  assert (H : { s : MainWindow * World | started world_one_profile = Some s })
    by (eexists; vm_compute; reflexivity).
  destruct H as [[self0 w0] H].
  assert (Hself : self0 = fst (match started world_one_profile with
                               | Some s => s
                               | None => (self0, w0)
                               end)) by now rewrite H.
  assert (Htidy : tidy self0) by (rewrite Hself; split; reflexivity).
  assert (Hfind : find_by_name (currentText self0) (profiles self0) = Some 0)
    by (rewrite Hself; reflexivity).
  assert (Hn : nth_error (profiles self0) 0 = Some profile_steve)
    by (rewrite Hself; reflexivity).
  destruct (select_complete_profile 0 self0 0 profile_steve "Player" 2 w0
              ltac:(discriminate) Htidy Hfind Hn eq_refl eq_refl ltac:(lia))
    as (r & w' & H1 & H2 & H3 & H4 & H5 & _).
  exists self0, w0, r, w'. auto 10.
Defined.

(** *** Adding and deleting *)














(** *** Editing *)










(** *** Closing the window and starting again *)








End SelectionFacts.

(* ===================================================================== *)
(** ** Facts about an installation as the window sees it *)
(* ===================================================================== *)

Module SignalFacts.
Import Py PyFacts OS Eff Eff.Notations Settings SettingsFacts Qt Profiles Window.
Import WindowFacts InstallationFacts DialogFacts SelectionFacts Signals.
Import Install(QThread, mkQThread, isRunning, phase_of, Installing).
Import Install(notification, SetStatus, SetProgress, SetMax, library_call,
               notifications, result_of, Returns, Raises).








Lemma widget_of_thread (k : string) (t : option nat) (self : MainWindow) :
  widget_of k (with_install_thread t self) = widget_of k self.
Proof. reflexivity. Qed.

Lemma widget_of_bar (k : string) (b : QProgressBar) (self : MainWindow) :
  widget_of k (with_progress_bar b self) = widget_of k self.
Proof. reflexivity. Qed.

Ltac widget_lookup2 :=
  repeat first
    [ progress widget_lookup | rewrite widget_of_thread | rewrite widget_of_bar ].



(** *** Starting an installation *)

(** X14: A start that is not refused creates one thread, for the version of
    the profile and the install directory of the window, refers to it,
    shows an indeterminate progress bar and takes the action button, the
    combo box and the Add, Edit and Delete buttons out of use; a profile
    without a version starts nothing and is reported.  As long as the
    thread runs every further start is refused with the 'Busy' warning,
    whatever is pending at its [processEvents()]. *)
Theorem start_installation_then_busy (profile : Profile) (pool : list QThread)
    (self : MainWindow) (w : World) :
  busy self pool = false ->
  (version_id profile = None \/ version_id profile = Some "" ->
   exists w', start_installation_for_profile quiet profile pool self w
              = (Ok (self, pool), w')
              /\ length (boxes w') = S (length (boxes w)))
  /\ forall v,
       version_id profile = Some v -> v <> "" ->
       exists self' w',
         start_installation_for_profile quiet profile pool self w
         = (Ok (self', pool ++ [mkQThread (Install.init v (minecraft_dir self))
                                  Installing]), w')
         /\ install_thread self' = Some (length pool)
         /\ progress_bar self' = mkBar 0 0 true
         /\ enabled (widget_of "action_button" self') = false
         /\ enabled (widget_of "profile_combo" self') = false
         /\ enabled (widget_of "add_profile_button" self') = false
         /\ enabled (widget_of "edit_profile_button" self') = false
         /\ enabled (widget_of "delete_profile_button" self') = false
         /\ profiles self' = profiles self
         /\ boxes w' = boxes w
         /\ forall events profile2 w2,
              start_installation_for_profile events profile2
                (pool ++ [mkQThread (Install.init v (minecraft_dir self)) Installing])
                self' w2
              = (Ok (self', pool ++ [mkQThread (Install.init v (minecraft_dir self))
                                       Installing]),
                 mkWorld (fs w2) (printed w2)
                   (boxes w2 ++ [mkBox Warning "Busy"
                                   "Another installation is already in progress."])).
Proof.
  intros Hb. split.
  - intros Hv. unfold start_installation_for_profile. fold (busy self pool).
    rewrite Hb. cbv zeta.
    destruct Hv as [-> | ->]; cbn [String.eqb];
      (eexists; split; [reflexivity|]); cbn; rewrite length_app; cbn; lia.
  - intros v Hv Hne.
    unfold start_installation_for_profile at 1. fold (busy self pool).
    rewrite Hb, Hv. cbv zeta.
    apply String.eqb_neq in Hne. rewrite Hne.
    eexists _, _. split; [reflexivity|].
    split; [reflexivity|]. split; [reflexivity|].
    do 5 (split; [now widget_lookup2|]).
    split; [reflexivity|]. split; [reflexivity|].
    intros events profile2 w2. apply start_installation_busy.
    unfold busy. cbn [install_thread with_install_thread].
    rewrite nth_error_app2 by lia. now rewrite Nat.sub_diag.
Qed.

(** The theorem at the window started on the stored profile Steve, whose
    version is not installed. *)
Lemma start_installation_then_busy_witness :
  exists self0 w0 self' pool' w',
    started world_one_profile = Some (self0, w0)
    /\ start_installation_for_profile quiet profile_steve [] self0 w0
       = (Ok (self', pool'), w')
    /\ map phase_of pool' = [Installing]
    /\ install_thread self' = Some 0
    /\ fst (start_installation_for_profile quiet profile_steve pool' self' w')
       = Ok (self', pool').
Proof.
  assert (H : { s : MainWindow * World | started world_one_profile = Some s })
    by (eexists; vm_compute; reflexivity).
  destruct H as [[self0 w0] H].
  assert (Hs : self0 = fst (match started world_one_profile with
                            | Some s => s
                            | None => (self0, w0)
                            end)) by now rewrite H.
  assert (Hb : busy self0 [] = false) by (rewrite Hs; reflexivity).
  destruct (proj2 (start_installation_then_busy profile_steve [] self0 w0 Hb)
              "1.20.1" eq_refl ltac:(discriminate))
    as (self' & w' & H1 & H2 & _ & _ & _ & _ & _ & _ & _ & _ & H3).
  eexists self0, w0, self', _, w'. split; [exact H|]. split; [exact H1|].
  split; [reflexivity|]. split; [exact H2|]. now rewrite H3.
Defined.

End SignalFacts.

(* ===================================================================== *)
(** ** Facts about launching and fixing a version *)
(* ===================================================================== *)

Module LaunchFacts.
Import Py PyFacts OS Eff Eff.Notations Settings SettingsFacts Qt Profiles Window.
Import WindowFacts Offline DialogFacts SelectionFacts Launch.
Import Install(QThread, mkQThread, isRunning, Installing).

(** *** Fixing a version for offline play *)

(** A start with nothing pending returns and leaves the file system
    alone. *)
Lemma start_installation_quiet_returns (profile : Profile)
    (pool : list QThread) (self : MainWindow) (w : World) :
  exists r w',
    start_installation_for_profile quiet profile pool self w = (Ok r, w')
    /\ fs w' = fs w.
Proof.
  unfold start_installation_for_profile.
  destruct (match install_thread self with Some _ => _ | None => _ end).
  { eexists _, _. split; reflexivity. }
  cbv zeta. destruct (version_id profile) as [v|];
    [|eexists _, _; split; reflexivity].
  destruct (String.eqb v ""); eexists _, _; split; reflexivity.
Qed.

(** X15: [fix_version_for_offline] returns, whatever is selected and
    whatever the manifest holds.  Without a selection nothing changes.
    For a version that is not installed the file system is left alone,
    and an installation is started only on the answer Yes.  For a
    version that is installed no installation is started: the manifest
    is patched as [configure_offline_mode] patches it, and the success
    dialog is shown exactly when that call returned [True]. *)
Theorem fix_version_for_offline_returns (install : bool) (pool : list QThread)
    (self : MainWindow) (w : World) :
  exists r w',
    fix_version_for_offline install quiet pool self w = (Ok r, w')
    /\ (has_selection self = false -> r = (self, pool) /\ fs w' = fs w)
    /\ (forall p v,
          selected_profile self = Some p -> version_id p = Some v -> v <> "" ->
          exists_path (fs w) (version_file_path self v) = false ->
          fs w' = fs w /\ (install = false -> r = (self, pool)))
    /\ (forall p v,
          has_selection self = true ->
          selected_profile self = Some p -> version_id p = Some v -> v <> "" ->
          exists_path (fs w) (version_file_path self v) = true ->
          exists self1 ok w1,
            configure_offline_mode v self w = (Ok (self1, ok), w1)
            /\ r = (self1, pool)
            /\ fs w' = fs w1
            /\ boxes w'
               = boxes w1
                 ++ (if ok
                     then [mkBox Information "Success"
                             ("Successfully configured " +:+ v
                              +:+ " for offline multiplayer." +:+ NEWLINE +:+ NEWLINE
                              +:+ "Now you can launch the game and play multiplayer on servers with 'online-mode=false' or create a LAN world.")]
                     else [])).
Proof.
  unfold fix_version_for_offline.
  destruct (has_selection self) eqn:Hhas; cbn [negb].
  2:{ eexists _, _. split; [reflexivity|].
      split; [auto|]. split; [|discriminate].
      intros p v Hsel. unfold has_selection in Hhas. rewrite Hsel in Hhas.
      auto. }
  destruct (selected_profile self) as [p|] eqn:Hsel.
  2:{ unfold has_selection in Hhas. now rewrite Hsel in Hhas. }
  destruct (version_id p) as [v|] eqn:Hv.
  2:{ eexists _, _. split; [reflexivity|]. split; [discriminate|].
      split; intros; simplify_eq. }
  destruct (String.eqb v "") eqn:Ev.
  { apply String.eqb_eq in Ev. subst v.
    eexists _, _. split; [reflexivity|]. split; [discriminate|].
    split; intros; simplify_eq. }
  unfold bind at 1. unfold get_fs at 1.
  destruct (exists_path (fs w) (version_file_path self v)) eqn:Hex; cbn [negb].
  - (* installed: the manifest is patched *)
    destruct (OfflineFacts.configure_offline_mode_run v self w)
      as (self1 & w1 & Hrun & _).
    unfold bind. rewrite Hrun.
    destruct (OfflineFacts.succeeds _ _ (fs w)) eqn:Hok;
      (eexists _, _; split; [reflexivity|]; split; [discriminate|]; split;
       [intros; simplify_eq; congruence
       |intros; simplify_eq; exists self1; eexists _, w1;
        split; [exact Hrun|]; split; [reflexivity|]; split; [reflexivity|];
        cbn [boxes app]; rewrite ?app_nil_r; reflexivity]).
  - (* not installed *)
    unfold bind at 1. unfold message_box at 1.
    set (w1 := mkWorld _ _ _).
    destruct install.
    + destruct (start_installation_quiet_returns p pool self w1)
        as (r & w' & Hrun & Hfs).
      exists r, w'. split; [exact Hrun|]. split; [discriminate|].
      split; [intros; split; [exact Hfs|discriminate]|].
      intros; simplify_eq; congruence.
    + eexists _, _. split; [reflexivity|]. split; [discriminate|].
      split; [intros; split; reflexivity|].
      intros; simplify_eq; congruence.
Qed.






(** X17: The memory a launch gives the JVM is what the profile holds: where
    the profiles read from the settings file have their memory between
    1 and 16, every launch of a started window passes [-Xmx] and [-Xms]
    with a number of gigabytes between 1 and 16. *)
Theorem launch_memory_in_range (env : environment) (w00 : World)
    (self0 : MainWindow) (w0 : World) (self : MainWindow) (w : World)
    (p : Profile) :
  started w00 = Some (self0, w0) ->
  reaches self0 w0 self w ->
  all_memory_bounded (profiles self0) = true ->
  selected_profile self = Some p ->
  exists m,
    (1 <= m <= 16)%Z
    /\ memory_gb p = Some m
    /\ jvmArguments (launch_options env p)
       = ["-Xmx" +:+ str_of_int m +:+ "G"; "-Xms" +:+ str_of_int m +:+ "G"].
Proof.
  intros Hs Hr Hb Hsel.
  assert (Htidy : tidy self0).
  { apply started_init in Hs. pose proof (init_tidy w00) as H0.
    rewrite Hs in H0. now apply H0. }
  destruct (reaches_sound _ _ _ _ Hr) as (_ & _ & Hbounded).
  specialize (Hbounded Htidy Hb). unfold bounded, all_memory_bounded in Hbounded.
  unfold selected_profile in Hsel.
  destruct (current_selected_profile self) as [i|]; [|discriminate].
  pose proof (forallb_nth _ _ _ _ Hbounded Hsel) as Hp.
  unfold memory_bounded in Hp. destruct (memory_gb p) as [m|] eqn:Hm; [|discriminate].
  apply andb_true_iff in Hp as [H1 H2]. apply Z.leb_le in H1, H2.
  exists m. split; [lia|]. split; [reflexivity|].
  unfold launch_options, get_memory_or. now rewrite Hm.
Qed.

Definition environment_example : environment :=
  mkEnvironment "00000000-0000-4000-8000-000000000000"
    (fun version dir opts => Done ("java" :: jvmArguments opts))
    (fun _ => Done tt).

(** The theorem at the window started on the stored profile Steve, after
    99 was entered in the spin box: the JVM is given 16 GB. *)
Lemma launch_memory_in_range_witness :
  exists self0 w0 p,
    started world_one_profile = Some (self0, w0)
    /\ selected_profile (fst (dispatch set_memory_99 self0 w0)) = Some p
    /\ jvmArguments (launch_options environment_example p)
       = ["-Xmx16G"; "-Xms16G"].
Proof.
  assert (H : { s : MainWindow * World | started world_one_profile = Some s })
    by (eexists; vm_compute; reflexivity).
  destruct H as [[self0 w0] H].
  assert (Hp : (self0, w0) = match started world_one_profile with
                             | Some s => s
                             | None => (self0, w0)
                             end) by now rewrite H.
  assert (Hs : self0 = fst (self0, w0)) by reflexivity.
  assert (Hw : w0 = snd (self0, w0)) by reflexivity.
  rewrite Hp in Hs, Hw.
  assert (Hb : all_memory_bounded (profiles self0) = true)
    by (rewrite Hs; reflexivity).
  assert (Hsel : selected_profile (fst (dispatch set_memory_99 self0 w0))
                 = Some (mkProfile (Some "Steve") (Some "1.20.1") (Some "Player")
                           (Some 16%Z)))
    by (rewrite Hs, Hw; vm_compute; reflexivity).
  destruct (launch_memory_in_range environment_example world_one_profile
              self0 w0 _ _ _ H
              (reaches_event _ _ set_memory_99 _ _ (reaches_start _ _)) Hb Hsel)
    as (m & _ & Hm & Hargs).
  eexists self0, w0, _. split; [exact H|]. split; [exact Hsel|].
  rewrite Hargs. cbn in Hm. injection Hm as <-. reflexivity.
Defined.

End LaunchFacts.
